(** * sedge: the [cli] command

    A shallow embedding of [cli/cli.go] (package [cli] of sedge) and of the
    goerli environment base template shown in the repository's
    "Adding new Networks" page, with the properties of the command proved
    over the embedding.

    Layout:
    - Go library functions used by the command ([strings], [filepath]);
    - the command's flags (the package-level variables of [cli.go]);
    - [preRunCliCmd], a pure function of the flags;
    - [runCliCmd], written in a state-and-error monad over the flags, the
      collaborators' world and the sequence of collaborator calls made;
    - the environment base template and the cleanup pass;
    - theorems. *)

From Stdlib Require Import String Ascii List Bool Arith NArith.
Import ListNotations.
Local Open Scope string_scope.
Local Open Scope list_scope.

Set Implicit Arguments.

(* ===================================================================== *)
(** ** Go library functions *)
(* ===================================================================== *)

Module strings.

(** [strings.Split(s, sep)] for a one-character separator: every piece
    between two separators, the empty pieces included; a string without
    the separator is returned whole. *)
Fixpoint Split (s : string) (sep : ascii) : list string :=
  match s with
  | EmptyString => [EmptyString]
  | String c s' =>
      if Ascii.eqb c sep then EmptyString :: Split s' sep
      else match Split s' sep with
           | [] => [String c EmptyString]
           | piece :: pieces => String c piece :: pieces
           end
  end.

(** [strings.Join(elems, sep)]. *)
Definition Join (elems : list string) (sep : string) : string :=
  String.concat sep elems.

(** [strings.HasPrefix(s, prefix)]. *)
Definition HasPrefix (s prefix : string) : bool := String.prefix prefix s.

End strings.

Module filepath.

(** [filepath.IsAbs(path)] on Unix: the path starts with a slash. *)
Definition IsAbs (path : string) : bool := strings.HasPrefix path "/".

End filepath.

(** The new-line character and the colon, as characters. *)
Definition nl : ascii := "010"%char.
Definition colon : ascii := ":"%char.

(* ===================================================================== *)
(** ** Errors

    The messages of [configs] are format strings; an error built by
    [fmt.Errorf(configs.X, args...)] is the constructor [X] applied to the
    arguments.  Errors returned by collaborators are [CollaboratorError]. *)
(* ===================================================================== *)

Inductive error : Type :=
| RunClientsFlagAmbiguousError (given : list string)
| RunClientsError (given allowed : string)
| NetworkValidationFailedError (cause : error)
| UnknownNetworkError (name : string)
| InvalidFeeRecipientError
| CollaboratorError (msg : string).

(* ===================================================================== *)
(** ** Flags: the package-level variables of [cli.go] *)
(* ===================================================================== *)

Definition execution : string := "execution".
Definition consensus : string := "consensus".
Definition validator : string := "validator".

Record Flags : Type := mkFlags {
  executionName : string;
  executionImage : string;
  consensusName : string;
  consensusImage : string;
  validatorName : string;
  validatorImage : string;
  generationPath : string;
  checkpointSyncUrl : string;
  network : string;
  feeRecipient : string;
  jwtPath : string;
  graffiti : string;
  mevImage : string;
  install : bool;
  run : bool;
  y : bool;
  services : list string;
  fallbackEL : list string;
  elExtraFlags : list string;
  clExtraFlags : list string;
  vlExtraFlags : list string;
  mapAllPorts : bool;
  noMev : bool;
  noValidator : bool;
  loggingFlag : string
}.

(** The flags as [init] registers them, before the command line is read. *)
Definition defaultFlags (defaultPath : string) : Flags :=
  {| executionName := ""; executionImage := "";
     consensusName := ""; consensusImage := "";
     validatorName := ""; validatorImage := "";
     generationPath := defaultPath; checkpointSyncUrl := "";
     network := "mainnet"; feeRecipient := ""; jwtPath := "";
     graffiti := ""; mevImage := "";
     install := false; run := false; y := false;
     services := [execution; consensus];
     fallbackEL := []; elExtraFlags := []; clExtraFlags := [];
     vlExtraFlags := [];
     mapAllPorts := false; noMev := false; noValidator := false;
     loggingFlag := "json" |}.

(** Assignments to single variables. *)
Definition set_install_run (i r : bool) (f : Flags) : Flags :=
  mkFlags (executionName f) (executionImage f) (consensusName f)
    (consensusImage f) (validatorName f) (validatorImage f)
    (generationPath f) (checkpointSyncUrl f) (network f) (feeRecipient f)
    (jwtPath f) (graffiti f) (mevImage f) i r (y f) (services f)
    (fallbackEL f) (elExtraFlags f) (clExtraFlags f) (vlExtraFlags f)
    (mapAllPorts f) (noMev f) (noValidator f) (loggingFlag f).

Definition set_services (l : list string) (f : Flags) : Flags :=
  mkFlags (executionName f) (executionImage f) (consensusName f)
    (consensusImage f) (validatorName f) (validatorImage f)
    (generationPath f) (checkpointSyncUrl f) (network f) (feeRecipient f)
    (jwtPath f) (graffiti f) (mevImage f) (install f) (run f) (y f) l
    (fallbackEL f) (elExtraFlags f) (clExtraFlags f) (vlExtraFlags f)
    (mapAllPorts f) (noMev f) (noValidator f) (loggingFlag f).

Definition set_execution (name image : string) (f : Flags) : Flags :=
  mkFlags name image (consensusName f)
    (consensusImage f) (validatorName f) (validatorImage f)
    (generationPath f) (checkpointSyncUrl f) (network f) (feeRecipient f)
    (jwtPath f) (graffiti f) (mevImage f) (install f) (run f) (y f)
    (services f)
    (fallbackEL f) (elExtraFlags f) (clExtraFlags f) (vlExtraFlags f)
    (mapAllPorts f) (noMev f) (noValidator f) (loggingFlag f).

Definition set_consensus (name image : string) (f : Flags) : Flags :=
  mkFlags (executionName f) (executionImage f) name image
    (validatorName f) (validatorImage f)
    (generationPath f) (checkpointSyncUrl f) (network f) (feeRecipient f)
    (jwtPath f) (graffiti f) (mevImage f) (install f) (run f) (y f)
    (services f)
    (fallbackEL f) (elExtraFlags f) (clExtraFlags f) (vlExtraFlags f)
    (mapAllPorts f) (noMev f) (noValidator f) (loggingFlag f).

Definition set_validator (name image : string) (f : Flags) : Flags :=
  mkFlags (executionName f) (executionImage f) (consensusName f)
    (consensusImage f) name image
    (generationPath f) (checkpointSyncUrl f) (network f) (feeRecipient f)
    (jwtPath f) (graffiti f) (mevImage f) (install f) (run f) (y f)
    (services f)
    (fallbackEL f) (elExtraFlags f) (clExtraFlags f) (vlExtraFlags f)
    (mapAllPorts f) (noMev f) (noValidator f) (loggingFlag f).

Definition set_jwtPath (p : string) (f : Flags) : Flags :=
  mkFlags (executionName f) (executionImage f) (consensusName f)
    (consensusImage f) (validatorName f) (validatorImage f)
    (generationPath f) (checkpointSyncUrl f) (network f) (feeRecipient f)
    p (graffiti f) (mevImage f) (install f) (run f) (y f) (services f)
    (fallbackEL f) (elExtraFlags f) (clExtraFlags f) (vlExtraFlags f)
    (mapAllPorts f) (noMev f) (noValidator f) (loggingFlag f).

Definition set_feeRecipient (a : string) (f : Flags) : Flags :=
  mkFlags (executionName f) (executionImage f) (consensusName f)
    (consensusImage f) (validatorName f) (validatorImage f)
    (generationPath f) (checkpointSyncUrl f) (network f) a
    (jwtPath f) (graffiti f) (mevImage f) (install f) (run f) (y f)
    (services f)
    (fallbackEL f) (elExtraFlags f) (clExtraFlags f) (vlExtraFlags f)
    (mapAllPorts f) (noMev f) (noValidator f) (loggingFlag f).

(* ===================================================================== *)
(** ** Helpers of package [utils] used by the command *)
(* ===================================================================== *)

Module utils.

(** Modelled from the spec: [utils.Contains] is defined outside cli.go;
    as its name and its call sites say, it tells whether the list
    holds the value. *)
Definition Contains (l : list string) (s : string) : bool :=
  existsb (String.eqb s) l.

(** Modelled from the spec: [utils.ContainsOnly] is defined outside
    cli.go; it tells whether every value of the list is one of the
    target's ("Possible values: execution, consensus, validator, all,
    none" in the help of [--run-clients]). *)
Definition ContainsOnly (l target : list string) : bool :=
  forallb (Contains target) l.

(** Modelled from the spec: [utils.Filter] is defined outside cli.go;
    it keeps, in order, the values the predicate accepts ("Exclude
    also the validator from other flags" in the help of
    [--no-validator]). *)
Definition Filter (l : list string) (keep : string -> bool)
  : list string :=
  List.filter keep l.

End utils.

(* ===================================================================== *)
(** ** [preRunCliCmd] *)
(* ===================================================================== *)

Section PreRun.

(** [utils.SupportedNetworks()], read from the embedded templates: the
    list of networks, or the error of reading it. *)
Variable SupportedNetworks : error + list string.

(** [utils.IsAddress]. *)
Variable IsAddress : string -> bool.

(** [configs.ValidateLoggingFlag]. *)
Variable ValidateLoggingFlag : string -> option error.

(** Lines 103-106: quick run. *)
Definition quickRun (f : Flags) : Flags :=
  if y f then set_install_run true true f else f.

(** Lines 108-127: the run-clients flag.  The new value of [services],
    or the error returned. *)
Definition validateRunClients (svcs : list string)
  : error + list string :=
  if utils.Contains svcs "all" then
    if Nat.eqb (List.length svcs) 1 then inr [execution; consensus; validator]
    else inl (RunClientsFlagAmbiguousError svcs)
  else if utils.Contains svcs "none" then
    if Nat.eqb (List.length svcs) 1 then inr []
    else inl (RunClientsFlagAmbiguousError svcs)
  else if negb (utils.ContainsOnly svcs [execution; consensus; validator])
  then inl (RunClientsError
              (strings.Join svcs ",")
              (strings.Join [execution; consensus; validator] ","))
  else inr svcs.

(** Lines 128-133: the validator leaves run-clients under
    [--no-validator]. *)
Definition excludeValidator (f : Flags) : Flags :=
  if noValidator f && utils.Contains (services f) validator then
    set_services
      (utils.Filter (services f) (fun s => negb (String.eqb s validator)))
      f
  else f.

(** Lines 135-142: the network. *)
Definition validateNetwork (name : string) : option error :=
  match SupportedNetworks with
  | inl err => Some (NetworkValidationFailedError err)
  | inr networks =>
      if negb (utils.Contains networks name)
      then Some (UnknownNetworkError name)
      else None
  end.

(** Lines 144-147: the fee recipient. *)
Definition validateFeeRecipient (addr : string) : option error :=
  if negb (String.eqb addr "") && negb (IsAddress addr)
  then Some InvalidFeeRecipientError
  else None.

(** Lines 149-164: [<CLIENT>:<DOCKER_IMAGE>] is split at its first
    colon. *)
Definition clientName (flag : string) : string :=
  hd "" (strings.Split flag colon).

Definition clientImage (flag : string) : string :=
  strings.Join (tl (strings.Split flag colon)) ":".

Definition prepareCustomImages (f : Flags) : Flags :=
  let f1 :=
    if negb (String.eqb (executionName f) "")
    then set_execution (clientName (executionName f))
           (clientImage (executionName f)) f
    else f in
  let f2 :=
    if negb (String.eqb (consensusName f1) "")
    then set_consensus (clientName (consensusName f1))
           (clientImage (consensusName f1)) f1
    else f1 in
  if negb (String.eqb (validatorName f2) "")
  then set_validator (clientName (validatorName f2))
         (clientImage (validatorName f2)) f2
  else f2.

(** The flags after lines 103-133, when the run-clients flag is
    accepted with the value [svcs]. *)
Definition afterRunClients (svcs : list string) (f : Flags) : Flags :=
  excludeValidator (set_services svcs (quickRun f)).

(** [preRunCliCmd]: the flags as the function leaves them, and the error
    it returns ([None] for [nil]).  The variables keep what was assigned
    before a failing check. *)
Definition preRunCliCmd (f : Flags) : Flags * option error :=
  let f := quickRun f in
  match validateRunClients (services f) with
  | inl err => (f, Some err)
  | inr svcs =>
      let f := excludeValidator (set_services svcs f) in
      (* this is [afterRunClients svcs] of the flags given *)
      match validateNetwork (network f) with
      | Some err => (f, Some err)
      | None =>
          match validateFeeRecipient (feeRecipient f) with
          | Some err => (f, Some err)
          | None =>
              let f := prepareCustomImages f in
              (f, ValidateLoggingFlag (loggingFlag f))
          end
      end
  end.

End PreRun.

(* ===================================================================== *)
(** ** Data passed to the collaborators *)
(* ===================================================================== *)

Module clients.

(** [clients.Client], with the fields the command reads or assigns. *)
Record Client : Type := mkClient {
  Name : string;
  Image : string;
  Omited : bool
}.

(** [clients.Clients]: the selection [validateClients] returns. *)
Record Clients : Type := mkClients {
  Execution : Client;
  Consensus : Client;
  Validator : Client
}.

End clients.

Module generate.

(** [generate.GenerationData], as [runCliCmd] fills it. *)
Record GenerationData : Type := mkGenerationData {
  ExecutionClient : clients.Client;
  ConsensusClient : clients.Client;
  ValidatorClient : clients.Client;
  GenerationPath : string;
  Network : string;
  CheckpointSyncUrl : string;
  FeeRecipient : string;
  JWTSecretPath : string;
  Graffiti : string;
  FallbackELUrls : list string;
  ElExtraFlags : list string;
  ClExtraFlags : list string;
  VlExtraFlags : list string;
  MapAllPorts : bool;
  Mev : bool;
  MevImage : string;
  LoggingDriver : string
}.

(** [generate.GenerationResults], with the fields the command reads. *)
Record GenerationResults : Type := mkGenerationResults {
  EnvFilePath : string;
  DockerComposePath : string;
  ELPort : string;
  CLPort : string
}.

End generate.

(** [time.Duration], in nanoseconds. *)
Definition Duration : Type := N.
Definition time_Minute : Duration := 60000000000%N.

(* ===================================================================== *)
(** ** What a run does: log lines and calls of collaborators *)
(* ===================================================================== *)

Inductive Level : Type := Info | Warn.

(** The messages of [configs] the command logs, with their arguments. *)
Inductive LogMsg : Type :=
| CustomImagesWarning
| MapAllPortsWarning
| CheckpointUrlUsedWarning (url : string)
| CheckingDependencies (dependencies : string)
| DependenciesPending (pending : string)
| DependenciesOK
| CreatedFile (path : string)
| HappyStaking2
| ValidatorTips
| HappyStaking.

(** One constructor for each function the command calls outside
    [cli.go], with the arguments of the call.  The functions of package
    [cli] take no argument in Go and read the package variables: their
    event records the variable a theorem needs. *)
Inductive Event : Type :=
| Log (lvl : Level) (msg : LogMsg)
| CallClients (net : string) (types : list string)
| CallValidateClients
| CallCheckDependencies (dependencies : list string)
| CallInstallDependencies (pending : list string)
| CallInstallOrShowInstructions (pending : list string)
| CallHandleJWTSecret
| CallFeeRecipientPrompt
| CallGenerateScripts (gd : generate.GenerationData)
| CallCleanGenerated (results : generate.GenerationResults)
| CallPrintFileContent (path : string)
| CallPreRunTeku
| CallRunAndShowContainers (svcs : list string)
| CallRunScriptOrExit (svcs : list string)
| CallTrackSync (elPort clPort : string) (wait : Duration)
| CallRunValidatorOrExit.

(* ===================================================================== *)
(** ** The collaborators

    Everything [runCliCmd] calls that is defined outside [cli.go] acts on
    a world [W] (the file system, docker, the terminal, the network) the
    command knows nothing about: each collaborator maps the world before
    the call to its result and the world after it.  The functions of
    package [cli] read the package variables and so receive the flags. *)
(* ===================================================================== *)

Record Collaborators (W OrderedClients : Type) : Type := mkCollaborators {
  (** [clients.ClientInfo{Network}.Clients(types)] *)
  c_Clients : string -> list string -> W -> (OrderedClients * list error) * W;
  (** [validateClients(allClients, w)] *)
  c_validateClients : Flags -> OrderedClients -> W
                      -> (error + clients.Clients) * W;
  (** [configs.GetDependencies()] *)
  c_GetDependencies : list string;
  (** [utils.CheckDependencies(dependencies)]: those still pending *)
  c_CheckDependencies : list string -> W -> list string * W;
  (** [installDependencies(pending)] *)
  c_installDependencies : Flags -> list string -> W -> option error * W;
  (** [installOrShowInstructions(pending)] *)
  c_installOrShowInstructions : Flags -> list string -> W
                                -> option error * W;
  (** [configs.NetworksConfigs[network].RequireJWT] *)
  c_RequireJWT : string -> bool;
  (** [handleJWTSecret()]: the error, or the value it leaves in
      [jwtPath] *)
  c_handleJWTSecret : Flags -> W -> (error + string) * W;
  (** [filepath.Abs(path)]: the path and the error it returns; it is
      called on absolute paths only, where it does not read the working
      directory *)
  c_filepath_Abs : string -> string * option error;
  (** [feeRecipientPrompt()]: the error, or the value it leaves in
      [feeRecipient] *)
  c_feeRecipientPrompt : Flags -> W -> (error + string) * W;
  (** [configs.GetLoggingDriver(loggingFlag)] *)
  c_GetLoggingDriver : string -> string;
  (** [generate.GenerateScripts(gd)] *)
  c_GenerateScripts : generate.GenerationData -> W
                      -> (error + generate.GenerationResults) * W;
  (** [generate.CleanGenerated(results)] *)
  c_CleanGenerated : generate.GenerationResults -> W -> option error * W;
  (** [ui.PrintFileContent(w, path)] *)
  c_PrintFileContent : string -> W -> W;
  (** [preRunTeku()] *)
  c_preRunTeku : Flags -> W -> option error * W;
  (** [runAndShowContainers(services)] *)
  c_runAndShowContainers : Flags -> list string -> W -> option error * W;
  (** [runScriptOrExit()] *)
  c_runScriptOrExit : Flags -> W -> option error * W;
  (** [trackSync(monitor, elPort, clPort, wait)] *)
  c_trackSync : Flags -> string -> string -> Duration -> W
                -> option error * W;
  (** [RunValidatorOrExit()] *)
  c_RunValidatorOrExit : Flags -> W -> option error * W
}.

(* ===================================================================== *)
(** ** The monad of [runCliCmd] *)
(* ===================================================================== *)

Section Run.

Variable W : Type.

(** The state of a run: the package variables, the world, and what the
    run has done so far, latest first. *)
Record St : Type := mkSt {
  st_flags : Flags;
  st_world : W;
  st_trace : list Event
}.

(** The result of a function that returns [[]error]: [Err es] for a
    non-empty slice. *)
Inductive Res (A : Type) : Type :=
| Ok (a : A)
| Err (es : list error).
Arguments Err {A} es.

(** A computation; [None] when the fuel of the dependency loop runs
    out. *)
Definition M (A : Type) : Type := St -> option (Res A * St).

Definition ret {A} (a : A) : M A := fun st => Some (Ok a, st).

Definition fail {A} (es : list error) : M A := fun st => Some (Err es, st).

Definition diverge {A} : M A := fun _ => None.

Definition bind {A B} (m : M A) (k : A -> M B) : M B :=
  fun st =>
    match m st with
    | None => None
    | Some (Ok a, st') => k a st'
    | Some (Err es, st') => Some (Err es, st')
    end.

Definition getFlags : M Flags := fun st => Some (Ok (st_flags st), st).

Definition assigned (g : Flags -> Flags) (st : St) : St :=
  mkSt (g (st_flags st)) (st_world st) (st_trace st).

Definition modifyFlags (g : Flags -> Flags) : M unit :=
  fun st => Some (Ok tt, assigned g st).

Definition moved (w : W) (ev : Event) (st : St) : St :=
  mkSt (st_flags st) w (ev :: st_trace st).

Definition record (ev : Event) (st : St) : St :=
  moved (st_world st) ev st.

Definition log (lvl : Level) (msg : LogMsg) : M unit :=
  fun st => Some (Ok tt, record (Log lvl msg) st).

(** A call of a collaborator: the call is recorded, the world moves. *)
Definition call {A} (ev : Event) (f : W -> A * W) : M A :=
  fun st =>
    Some (Ok (fst (f (st_world st))), moved (snd (f (st_world st))) ev st).

(** [if err != nil { return []error{err} }] *)
Definition check (err : option error) : M unit :=
  match err with
  | Some e => fail [e]
  | None => ret tt
  end.

Definition when (b : bool) (m : M unit) : M unit :=
  if b then m else ret tt.

End Run.

Arguments Ok {A} a.
Arguments Err {A} es.
Arguments ret {W A} a.
Arguments fail {W A} es.
Arguments diverge {W A}.
Arguments bind {W A B} m k.
Arguments getFlags {W}.
Arguments assigned {W} g st.
Arguments modifyFlags {W} g.
Arguments moved {W} w ev st.
Arguments record {W} ev st.
Arguments log {W} lvl msg.
Arguments call {W A} ev f.
Arguments check {W} err.
Arguments when {W} b m.

Declare Scope run_scope.
Delimit Scope run_scope with run.
Notation "x <- m ;; k" := (bind m (fun x => k))
  (at level 61, m at next level, right associativity) : run_scope.
Notation "m ;; k" := (bind m (fun _ => k))
  (at level 61, right associativity) : run_scope.
Local Open Scope run_scope.

(* ===================================================================== *)
(** ** [runCliCmd] *)
(* ===================================================================== *)

(** [[]string{execution, consensus, validator}] *)
Definition roles : list string := [execution; consensus; validator].

Section RunCliCmd.

Variables W OrderedClients : Type.
Variable C : Collaborators W OrderedClients.

(** Lines 174-187: warnings. *)
Definition warnings : M W unit :=
  f <- getFlags ;;
  when (negb (executionImage f =? "") || negb (consensusImage f =? "")
        || negb (validatorImage f =? ""))
    (log Warn CustomImagesWarning) ;;
  when (mapAllPorts f) (log Warn MapAllPortsWarning) ;;
  when (negb (checkpointSyncUrl f =? ""))
    (log Warn (CheckpointUrlUsedWarning (checkpointSyncUrl f))).

(** Lines 189-200: the clients, supported and configured, then their
    selection and validation. *)
Definition resolveClients : M W clients.Clients :=
  f <- getFlags ;;
  found <- call (CallClients (network f) roles)
             (c_Clients C (network f) roles) ;;
  match snd found with
  | _ :: _ => fail (snd found)
  | [] =>
      r <- call CallValidateClients (c_validateClients C f (fst found)) ;;
      match r with
      | inl err => fail [err]
      | inr combinedClients => ret combinedClients
      end
  end.

(** Lines 205-219: the loop that checks the dependencies until none is
    pending; [fuel] bounds the number of checks. *)
Fixpoint installPending (fuel : nat) (dependencies : list string)
  : M W unit :=
  match fuel with
  | O => diverge
  | S fuel' =>
      pending <- call (CallCheckDependencies dependencies)
                   (c_CheckDependencies C dependencies) ;;
      match pending with
      | [] => ret tt
      | _ :: _ =>
          log Info (DependenciesPending (strings.Join pending ", ")) ;;
          f <- getFlags ;;
          (if install f then
             err <- call (CallInstallDependencies pending)
                      (c_installDependencies C f pending) ;;
             check err
           else
             err <- call (CallInstallOrShowInstructions pending)
                      (c_installOrShowInstructions C f pending) ;;
             check err) ;;
          installPending fuel' dependencies
      end
  end.

(** Lines 202-220. *)
Definition checkDependencies (fuel : nat) : M W unit :=
  let dependencies := c_GetDependencies C in
  log Info (CheckingDependencies (strings.Join dependencies ", ")) ;;
  installPending fuel dependencies ;;
  log Info DependenciesOK.

(** Lines 222-231: the JWT secret. *)
Definition jwtSecret : M W unit :=
  f <- getFlags ;;
  if (jwtPath f =? "") && c_RequireJWT C (network f) then
    r <- call CallHandleJWTSecret (c_handleJWTSecret C f) ;;
    match r with
    | inl err => fail [err]
    | inr path => modifyFlags (set_jwtPath path)
    end
  else if filepath.IsAbs (jwtPath f) then
    (* [jwtPath, err = filepath.Abs(jwtPath)] *)
    modifyFlags (set_jwtPath (fst (c_filepath_Abs C (jwtPath f)))) ;;
    check (snd (c_filepath_Abs C (jwtPath f)))
  else ret tt.

(** Lines 233-238: the fee recipient. *)
Definition askFeeRecipient : M W unit :=
  f <- getFlags ;;
  if negb (y f) && (feeRecipient f =? "") then
    r <- call CallFeeRecipientPrompt (c_feeRecipientPrompt C f) ;;
    match r with
    | inl err => fail [err]
    | inr addr => modifyFlags (set_feeRecipient addr)
    end
  else ret tt.

(** Lines 240-243: the images and the omission of the validator are
    written into the selection.  In Go the generation data then holds the
    same clients by pointer; afterwards the command reads the name of the
    consensus client only. *)
Definition applyFlags (f : Flags) (cc : clients.Clients)
  : clients.Clients :=
  clients.mkClients
    (clients.mkClient (clients.Name (clients.Execution cc))
       (executionImage f) (clients.Omited (clients.Execution cc)))
    (clients.mkClient (clients.Name (clients.Consensus cc))
       (consensusImage f) (clients.Omited (clients.Consensus cc)))
    (clients.mkClient (clients.Name (clients.Validator cc))
       (validatorImage f) (noValidator f)).

(** Lines 246-264: the generation data. *)
Definition generationData (f : Flags) (cc : clients.Clients)
  : generate.GenerationData :=
  {| generate.ExecutionClient := clients.Execution cc;
     generate.ConsensusClient := clients.Consensus cc;
     generate.ValidatorClient := clients.Validator cc;
     generate.GenerationPath := generationPath f;
     generate.Network := network f;
     generate.CheckpointSyncUrl := checkpointSyncUrl f;
     generate.FeeRecipient := feeRecipient f;
     generate.JWTSecretPath := jwtPath f;
     generate.Graffiti := graffiti f;
     generate.FallbackELUrls := fallbackEL f;
     generate.ElExtraFlags := elExtraFlags f;
     generate.ClExtraFlags := clExtraFlags f;
     generate.VlExtraFlags := vlExtraFlags f;
     generate.MapAllPorts := mapAllPorts f;
     generate.Mev := negb (noMev f) && negb (noValidator f);
     generate.MevImage := mevImage f;
     generate.LoggingDriver := c_GetLoggingDriver C (loggingFlag f) |}.

(** Lines 240-281: generation, cleanup, and the two files printed. *)
Definition generateScripts (cc : clients.Clients)
  : M W (clients.Clients * generate.GenerationResults) :=
  f <- getFlags ;;
  let combinedClients := applyFlags f cc in
  let gd := generationData f combinedClients in
  r <- call (CallGenerateScripts gd) (c_GenerateScripts C gd) ;;
  match r with
  | inl err => fail [err]
  | inr results =>
      err <- call (CallCleanGenerated results)
               (c_CleanGenerated C results) ;;
      check err ;;
      log Info (CreatedFile (generate.EnvFilePath results)) ;;
      call (CallPrintFileContent (generate.EnvFilePath results))
        (fun w => (tt, c_PrintFileContent C
                         (generate.EnvFilePath results) w)) ;;
      log Info (CreatedFile (generate.DockerComposePath results)) ;;
      call (CallPrintFileContent (generate.DockerComposePath results))
        (fun w => (tt, c_PrintFileContent C
                         (generate.DockerComposePath results) w)) ;;
      ret (combinedClients, results)
  end.

(** Lines 174-281: everything up to the generated files. *)
Definition generationPhase (fuel : nat)
  : M W (clients.Clients * generate.GenerationResults) :=
  warnings ;;
  cc <- resolveClients ;;
  checkDependencies fuel ;;
  jwtSecret ;;
  askFeeRecipient ;;
  generateScripts cc.

(** Lines 321-331: the validator is started. *)
Definition startValidator : M W unit :=
  f <- getFlags ;;
  if run f then
    err <- call (CallRunAndShowContainers [validator])
             (c_runAndShowContainers C f [validator]) ;;
    check err
  else
    err <- call CallRunValidatorOrExit (c_RunValidatorOrExit C f) ;;
    check err.

(** Lines 312-331: the sync of execution and consensus is tracked, then
    the validator is started. *)
Definition trackThenStartValidator (results : generate.GenerationResults)
  : M W unit :=
  f <- getFlags ;;
  err <- call (CallTrackSync (generate.ELPort results)
                 (generate.CLPort results) (time_Minute * 5)%N)
           (c_trackSync C f (generate.ELPort results)
              (generate.CLPort results) (time_Minute * 5)%N) ;;
  check err ;;
  startValidator.

(** Lines 307-334. *)
Definition validatorStage (results : generate.GenerationResults)
  : M W unit :=
  f <- getFlags ;;
  if negb (noValidator f) then
    log Info ValidatorTips ;;
    (if negb (utils.Contains (services f) validator)
     then trackThenStartValidator results
     else ret tt) ;;
    log Info HappyStaking
  else ret tt.

(** Lines 283-336: what follows the generated files. *)
Definition afterGeneration (cc : clients.Clients)
  (results : generate.GenerationResults) : M W unit :=
  f <- getFlags ;;
  if Nat.eqb (List.length (services f)) 0 then
    log Info HappyStaking2
  else
    when (clients.Name (clients.Consensus cc) =? "teku")
      (err <- call CallPreRunTeku (c_preRunTeku C f) ;; check err) ;;
    (if run f then
       err <- call (CallRunAndShowContainers (services f))
                (c_runAndShowContainers C f (services f)) ;;
       check err
     else
       err <- call (CallRunScriptOrExit (services f))
                (c_runScriptOrExit C f) ;;
       check err) ;;
    validatorStage results.

(** [runCliCmd]: [Ok tt] for [nil], [Err es] for the errors returned. *)
Definition runCliCmd (fuel : nat) : M W unit :=
  generated <- generationPhase fuel ;;
  afterGeneration (fst generated) (snd generated).

End RunCliCmd.

Arguments warnings {W}.

(* ===================================================================== *)
(** ** The command: [PreRun], then [Run] *)
(* ===================================================================== *)

(** How the process ends: [log.Fatal(err)] after [preRunCliCmd], the
    errors logged and [os.Exit(1)] after [runCliCmd], or a normal end. *)
Inductive Exit : Type :=
| Succeeded
| PreRunFatal (err : error)
| RunFailed (errs : list error).

Section CliCmd.

Variables W OrderedClients : Type.
Variable SupportedNetworks : error + list string.
Variable IsAddress : string -> bool.
Variable ValidateLoggingFlag : string -> option error.
Variable C : Collaborators W OrderedClients.

Definition CliCmd (fuel : nat) (st : St W) : option (Exit * St W) :=
  let pre := preRunCliCmd SupportedNetworks IsAddress ValidateLoggingFlag
               (st_flags st) in
  let st1 := mkSt (fst pre) (st_world st) (st_trace st) in
  match snd pre with
  | Some err => Some (PreRunFatal err, st1)
  | None =>
      match runCliCmd C fuel st1 with
      | None => None
      | Some (Ok _, st2) => Some (Succeeded, st2)
      | Some (Err errs, st2) => Some (RunFailed errs, st2)
      end
  end.

End CliCmd.

(* ===================================================================== *)
(** ** Environment documents *)
(* ===================================================================== *)

Module env.

(** The lines of a document: [strings.Split(doc, "\n")]. *)
Definition lines (doc : string) : list string := strings.Split doc nl.

(** The value a line assigns to [key]: what follows [key=]. *)
Definition assigned_by (key line : string) : option string :=
  if strings.HasPrefix line (key ++ "=")
  then Some (substring (String.length key + 1)
               (String.length line - (String.length key + 1)) line)
  else None.

Fixpoint collect (key : string) (ls : list string) : list string :=
  match ls with
  | [] => []
  | l :: rest =>
      match assigned_by key l with
      | Some v => v :: collect key rest
      | None => collect key rest
      end
  end.

(** Every value the document assigns to [key], in the order of its
    lines; [[]] when the document does not define the variable. *)
Definition assignments (key doc : string) : list string :=
  collect key (lines doc).

(** The string has no line break. *)
Fixpoint one_line (s : string) : bool :=
  match s with
  | EmptyString => true
  | String c s' => negb (Ascii.eqb c nl) && one_line s'
  end.

End env.

(* ===================================================================== *)
(** ** The goerli environment base template
       ([templates/envs/goerli/env_base.tmpl]) *)
(* ===================================================================== *)

Module env_base_tmpl.

(** The relay the template writes when the data carries none. *)
Definition flashbots_goerli : string :=
  "https://0xafa4c6985aa049fb79dd37010438cfebeb0f2bd42b115b89dd678dab0670c1de38da0c4e9138c9290a398ecd9a0b3110@builder-relay-goerli.flashbots.net".


Section Template.

(** The data the template is executed on: its type is declared in
    package [generate]; the base template reads two fields, [.Mev]
    (a boolean) and [.RelayURL] (a string, true when not empty). *)
Variable Data : Type.
Variable Mev : Data -> bool.
Variable RelayURL : Data -> string.

(** The templates ["execution"], ["consensus"] and ["validator"],
    defined per client under [templates/envs/goerli/]. *)
Variables execution_tmpl consensus_tmpl validator_tmpl : Data -> string.

Definition newline : string := String nl EmptyString.

(** [{{if .Mev}} RELAY_URL=... {{end}}], with the line break that
    precedes it inside the [if]. *)
Definition relay (d : Data) : string :=
  if Mev d then
    newline ++ "RELAY_URL="
    ++ (if negb (RelayURL d =? "") then RelayURL d else flashbots_goerli)
  else "".

(** The text before the client templates. *)
Definition global_configuration (d : Data) : string :=
  newline ++ "# --- Global configuration ---" ++ newline
  ++ "NETWORK=goerli" ++ relay d.

(** [{{ define "env" }} ... {{ end }}] *)
Definition env_tmpl (d : Data) : string :=
  global_configuration d ++ newline
  ++ execution_tmpl d ++ newline
  ++ consensus_tmpl d ++ newline
  ++ validator_tmpl d ++ newline.

End Template.

End env_base_tmpl.

(* ===================================================================== *)
(** ** The cleanup pass of the Generation Pipeline *)
(* ===================================================================== *)

Module cleanup.

Definition word_char (c : ascii) : bool :=
  let n := nat_of_ascii c in
  (((65 <=? n) && (n <=? 90)) || ((97 <=? n) && (n <=? 122))
   || ((48 <=? n) && (n <=? 57)) || (n =? 95))%nat.

Definition space_char (c : ascii) : bool :=
  let n := nat_of_ascii c in
  ((n =? 32) || (n =? 9) || (n =? 13))%nat.

Fixpoint all_chars (p : ascii -> bool) (s : string) : bool :=
  match s with
  | EmptyString => true
  | String c s' => p c && all_chars p s'
  end.

(** Modelled from the spec: the line matches "the pattern KEY= (value
    empty)", a key of letters, digits and underscores followed by the
    equals sign and nothing else. *)
Fixpoint key_then_equals (s : string) : bool :=
  match s with
  | EmptyString => false
  | String c rest =>
      match rest with
      | EmptyString => false
      | String d EmptyString => word_char c && Ascii.eqb d "="%char
      | _ => word_char c && key_then_equals rest
      end
  end.

Definition blank (line : string) : bool := all_chars space_char line.

(** Modelled from the spec: "collapses consecutive blank lines to at
    most one".  Of every run of blank lines the first is kept;
    [after_blank] tells that the line before was blank. *)
Fixpoint collapse (after_blank : bool) (ls : list string) : list string :=
  match ls with
  | [] => []
  | l :: rest =>
      if blank l then
        if after_blank then collapse true rest
        else l :: collapse true rest
      else l :: collapse false rest
  end.

Definition cleanLines (ls : list string) : list string :=
  collapse false (List.filter (fun l => negb (key_then_equals l)) ls).

(** Modelled from the spec: [generate.CleanGenerated] is defined in
    package [generate]; [cli.go] only calls it.  The pass "removes
    environment lines matching the pattern KEY= (value empty) and
    collapses consecutive blank lines to at most one". *)
Definition cleanDocument (doc : string) : string :=
  strings.Join (cleanLines (env.lines doc)) (String nl EmptyString).

(** Modelled from the spec: the pass is "applied identically to both
    documents", the environment and the manifest. *)
Definition CleanGenerated (docs : string * string) : string * string :=
  (cleanDocument (fst docs), cleanDocument (snd docs)).

End cleanup.

(* ===================================================================== *)
(** ** The Sync Tracker *)
(* ===================================================================== *)

Module SyncTracker.

(** Modelled from the spec: the states of the Sync Tracker, "polling,
    synced, timed-out, errored"; [errored] carries the condition that
    stopped it. *)
Inductive State : Type :=
| polling
| synced
| timed_out
| errored (cause : error).

(** Modelled from the spec: "SyncStatus: executionSynced, consensusSynced,
    lastError". *)
Record SyncStatus : Type := mkSyncStatus {
  executionSynced : bool;
  consensusSynced : bool;
  lastError : option error
}.

(** Modelled from the spec: what a query of an endpoint gives, its sync
    status, a failure of the query ("connection refused, non-2xx"), or a
    condition that cannot be recovered from ("malformed endpoint
    configuration"). *)
Inductive Reply : Type :=
| ReportsSynced
| ReportsSyncing
| QueryFailed (e : error)
| Unrecoverable (e : error).

(** Modelled from the spec: the inputs of the tracker, "two functions:
    query-execution-sync, query-consensus-sync" and the fixed poll
    interval. *)
Record Endpoints (W : Type) : Type := mkEndpoints {
  queryExecutionSync : string -> W -> Reply * W;
  queryConsensusSync : string -> W -> Reply * W;
  pollInterval : Duration
}.


Section Tracker.

Variable W : Type.
Variable E : Endpoints W.

Definition initial : SyncStatus := mkSyncStatus false false None.

(** Modelled from the spec: "once an endpoint reports synced it is not
    re-queried". *)
Definition ask (already : bool) (q : W -> Reply * W) (w : W)
  : Reply * W :=
  if already then (ReportsSynced, w) else q w.

Definition now_synced (was : bool) (r : Reply) : bool :=
  match r with
  | ReportsSynced => true
  | _ => was
  end.

Definition failure_of (r : Reply) (before : option error)
  : option error :=
  match r with
  | QueryFailed e => Some e
  | _ => before
  end.

Definition stops (r : Reply) : option error :=
  match r with
  | Unrecoverable e => Some e
  | _ => None
  end.

(** Modelled from the spec: one tick, "query both endpoints' sync status
    independently; a query failure is recorded but does not itself
    terminate the loop". *)
Definition tick (elPort clPort : string) (s : SyncStatus) (w : W)
  : (SyncStatus * option error) * W :=
  let (re, w1) := ask (executionSynced s) (queryExecutionSync E elPort) w in
  let (rc, w2) := ask (consensusSynced s) (queryConsensusSync E clPort) w1 in
  let s' := mkSyncStatus (now_synced (executionSynced s) re)
              (now_synced (consensusSynced s) rc)
              (failure_of rc (failure_of re (lastError s))) in
  let stop := match stops re with
              | Some e => Some e
              | None => stops rc
              end in
  ((s', stop), w2).

(** Modelled from the spec: the tracker is what [trackSync] runs, in
    another file of package [cli].  It polls on each tick until both
    endpoints are synced (polling to synced), the deadline passes with an
    endpoint not yet synced (polling to timed-out), or a condition that
    cannot be recovered from shows (polling to errored).  [ticks] is the
    number of ticks before the deadline. *)
Fixpoint poll (ticks : nat) (elPort clPort : string) (s : SyncStatus)
  (w : W) : (State * SyncStatus) * W :=
  match ticks with
  | O => ((timed_out, s), w)
  | S ticks' =>
      let '((s', stop), w') := tick elPort clPort s w in
      match stop with
      | Some e => ((errored e, s'), w')
      | None =>
          if executionSynced s' && consensusSynced s'
          then ((synced, s'), w')
          else poll ticks' elPort clPort s' w'
      end
  end.





End Tracker.

End SyncTracker.


(* ===================================================================== *)
(** ** A small world to run the command in

    Docker and the file system always work, the only dependency is
    pending until it is installed, the clients chosen are geth and
    lighthouse, and the endpoints never report synced.  [validatorStarts]
    tells whether starting the validator alone works. *)
(* ===================================================================== *)

Module Demo.

(** The world: the dependencies still pending. *)
Definition World : Type := list string.

Definition SupportedNetworks : error + list string :=
  inr ["mainnet"; "goerli"; "sepolia"; "gnosis"; "chiado"].

Definition hex_digit (c : ascii) : bool :=
  let n := nat_of_ascii c in
  (((48 <=? n) && (n <=? 57)) || ((65 <=? n) && (n <=? 70))
   || ((97 <=? n) && (n <=? 102)))%nat.

(** An address is [0x] and forty hexadecimal digits. *)
Definition IsAddress (a : string) : bool :=
  strings.HasPrefix a "0x" && Nat.eqb (String.length a) 42
  && cleanup.all_chars hex_digit (substring 2 40 a).

Definition ValidateLoggingFlag (flag : string) : option error :=
  if (flag =? "json") || (flag =? "none") then None
  else Some (CollaboratorError "invalid logging flag").

Definition selection : clients.Clients :=
  clients.mkClients (clients.mkClient "geth" "" false)
    (clients.mkClient "lighthouse" "" false)
    (clients.mkClient "lighthouse" "" false).

Definition results (gd : generate.GenerationData)
  : generate.GenerationResults :=
  generate.mkGenerationResults
    (generate.GenerationPath gd ++ "/.env")%string
    (generate.GenerationPath gd ++ "/docker-compose.yml")%string
    "8545" "4000".

Definition collaborators (validatorStarts : bool)
  : Collaborators World unit :=
  {| c_Clients := fun _ _ w => ((tt, []), w);
     c_validateClients := fun _ _ w => (inr selection, w);
     c_GetDependencies := ["docker"];
     c_CheckDependencies := fun _ w => (w, w);
     c_installDependencies := fun _ _ _ => (None, []);
     c_installOrShowInstructions := fun _ _ _ => (None, []);
     c_RequireJWT := fun _ => true;
     c_handleJWTSecret :=
       fun f w => (inr (generationPath f ++ "/jwtsecret")%string, w);
     c_filepath_Abs := fun p => (p, None);
     c_feeRecipientPrompt :=
       fun _ w => (inr "0x0000000000000000000000000000000000000001", w);
     c_GetLoggingDriver := fun flag => flag;
     c_GenerateScripts := fun gd w => (inr (results gd), w);
     c_CleanGenerated := fun _ w => (None, w);
     c_PrintFileContent := fun _ w => w;
     c_preRunTeku := fun _ w => (None, w);
     c_runAndShowContainers :=
       fun _ svcs w =>
         if negb validatorStarts && utils.Contains svcs validator
         then (Some (CollaboratorError "validator did not start"), w)
         else (None, w);
     c_runScriptOrExit := fun _ w => (None, w);
     c_trackSync := fun _ _ _ _ w => (None, w);
     c_RunValidatorOrExit := fun _ w => (None, w) |}.

(** Endpoints that never report synced, polled every 100 seconds. *)
Definition endpoints : SyncTracker.Endpoints World :=
  SyncTracker.mkEndpoints
    (fun _ w => (SyncTracker.ReportsSyncing, w))
    (fun _ w => (SyncTracker.ReportsSyncing, w))
    100000000000%N.

(** The default flags but for the network, the fee recipient, the JWT
    path, run-clients, [--no-validator] and [--run]. *)
Definition custom (net fee jwt : string) (svcs : list string)
  (noVal runNow : bool) : Flags :=
  mkFlags "" "" "" "" "" "" "/srv/sedge-data" "" net fee jwt "" ""
    false runNow false svcs [] [] [] [] false false noVal "json".

Definition start (f : Flags) : St World := mkSt f ["docker"] [].

(** Template data for the goerli template: the MEV switch and the relay,
    with client templates of one line each. *)
Definition Data : Type := bool * string.
Definition execution_tmpl (_ : Data) : string := "EC_IMAGE_VERSION=geth".
Definition consensus_tmpl (_ : Data) : string := "CC_IMAGE_VERSION=lighthouse".
Definition validator_tmpl (_ : Data) : string := "VL_IMAGE_VERSION=lighthouse".

End Demo.

(* ===================================================================== *)
(** ** What is said of a run *)
(* ===================================================================== *)

(** [wp m Q st]: the run of [m] from [st], when it ends, ends with a
    result and a state that [Q] accepts. *)
Definition wp {W A : Type} (m : M W A) (Q : Res A -> St W -> Prop)
  (st : St W) : Prop :=
  match m st with
  | None => True
  | Some (r, st') => Q r st'
  end.

(** The only variables [runCliCmd] assigns are [jwtPath] and
    [feeRecipient]: [evolved f0 f] says that [f] is [f0] but for them. *)
Definition evolved (f0 f : Flags) : Prop :=
  exists path addr, f = set_feeRecipient addr (set_jwtPath path f0).

(** The calls a run of [runCliCmd] can make when it starts with the flags
    [f0]. *)
Definition allowed {W OrderedClients : Type}
  (C : Collaborators W OrderedClients) (f0 : Flags) (ev : Event) : Prop :=
  match ev with
  | CallGenerateScripts gd =>
      exists f cc,
        evolved f0 f /\ gd = generationData C f (applyFlags f cc)
  | CallPreRunTeku => services f0 <> []
  | CallRunAndShowContainers svcs =>
      services f0 <> [] /\ run f0 = true
      /\ (svcs = services f0
          \/ (svcs = [validator] /\ noValidator f0 = false
              /\ utils.Contains (services f0) validator = false))
  | CallRunScriptOrExit svcs =>
      services f0 <> [] /\ run f0 = false /\ svcs = services f0
  | CallTrackSync _ _ _ =>
      services f0 <> [] /\ noValidator f0 = false
      /\ utils.Contains (services f0) validator = false
  | CallRunValidatorOrExit =>
      services f0 <> [] /\ run f0 = false /\ noValidator f0 = false
      /\ utils.Contains (services f0) validator = false
  | _ => True
  end.

(** The state [st] is reached from flags [f0] and trace [tr0] by allowed
    calls only. *)
Definition extends {W OrderedClients : Type}
  (C : Collaborators W OrderedClients) (f0 : Flags) (tr0 : list Event)
  (st : St W) : Prop :=
  evolved f0 (st_flags st)
  /\ exists new, st_trace st = new ++ tr0 /\ Forall (allowed C f0) new.

(** A call that starts containers, or waits for them. *)
Definition container_call (ev : Event) : bool :=
  match ev with
  | CallPreRunTeku | CallRunAndShowContainers _ | CallRunScriptOrExit _
  | CallTrackSync _ _ _ | CallRunValidatorOrExit => true
  | _ => false
  end.

(** A call that starts the validator service. *)
Definition starts_validator (ev : Event) : Prop :=
  match ev with
  | CallRunAndShowContainers svcs => In validator svcs
  | CallRunScriptOrExit svcs => In validator svcs
  | CallRunValidatorOrExit => True
  | _ => False
  end.

(* ===================================================================== *)
(** ** The calls of a run, phase by phase *)
(* ===================================================================== *)

(** The calls made since the trace was [tr0], latest first, satisfy
    [T]. *)
Definition since {W : Type} (tr0 : list Event) (T : list Event -> Prop)
  (st : St W) : Prop :=
  exists new, st_trace st = new ++ tr0 /\ T new.

(** What lines 222-231 leave in [jwtPath] when it was [jwtPath f0]:
    anything [handleJWTSecret] chose when no path was given and the
    network requires the secret, what [filepath.Abs] returned for an
    absolute path, the path as it was otherwise. *)
Definition jwt_settled {W OrderedClients : Type}
  (C : Collaborators W OrderedClients) (f0 : Flags) (path : string) : Prop :=
  if (jwtPath f0 =? "") && c_RequireJWT C (network f0) then True
  else if filepath.IsAbs (jwtPath f0)
       then path = fst (c_filepath_Abs C (jwtPath f0))
       else path = jwtPath f0.

(** What lines 233-238 leave in [feeRecipient]: anything the prompt
    returned when none was given and [-y] was not, the address as it was
    otherwise. *)
Definition fee_settled (f0 : Flags) (addr : string) : Prop :=
  if negb (y f0) && (feeRecipient f0 =? "") then True
  else addr = feeRecipient f0.

(** The flags when the scripts are generated, [runCliCmd] having
    started with [f0]. *)
Definition settled {W OrderedClients : Type}
  (C : Collaborators W OrderedClients) (f0 f : Flags) : Prop :=
  exists path addr,
    f = set_feeRecipient addr (set_jwtPath path f0)
    /\ jwt_settled C f0 path /\ fee_settled f0 addr.

(** What is logged in lines 174-281, [runCliCmd] having started with
    [f0]: a warning under its condition, the progress of the
    dependencies, the files created. *)
Definition prepares_log (f0 : Flags) (msg : LogMsg) : Prop :=
  match msg with
  | CustomImagesWarning =>
      negb (executionImage f0 =? "") || negb (consensusImage f0 =? "")
      || negb (validatorImage f0 =? "") = true
  | MapAllPortsWarning => mapAllPorts f0 = true
  | CheckpointUrlUsedWarning url =>
      negb (checkpointSyncUrl f0 =? "") = true
      /\ url = checkpointSyncUrl f0
  | CheckingDependencies _ | DependenciesPending _ | DependenciesOK
  | CreatedFile _ => True
  | HappyStaking2 | ValidatorTips | HappyStaking => False
  end.

(** The calls of lines 174-281, [runCliCmd] having started with [f0]:
    which ones, with which arguments and under which flags. *)
Definition prepares {W OrderedClients : Type}
  (C : Collaborators W OrderedClients) (f0 : Flags) (ev : Event) : Prop :=
  match ev with
  | Log _ msg => prepares_log f0 msg
  | CallClients net types => net = network f0 /\ types = roles
  | CallValidateClients => True
  | CallCheckDependencies dependencies =>
      dependencies = c_GetDependencies C
  | CallInstallDependencies pending =>
      install f0 = true /\ pending <> []
  | CallInstallOrShowInstructions pending =>
      install f0 = false /\ pending <> []
  | CallHandleJWTSecret =>
      jwtPath f0 = "" /\ c_RequireJWT C (network f0) = true
  | CallFeeRecipientPrompt => y f0 = false /\ feeRecipient f0 = ""
  | CallGenerateScripts gd =>
      exists f cc,
        settled C f0 f /\ gd = generationData C f (applyFlags f cc)
  | CallCleanGenerated _ => True
  | CallPrintFileContent _ => True
  | CallPreRunTeku => False
  | CallRunAndShowContainers _ => False
  | CallRunScriptOrExit _ => False
  | CallTrackSync _ _ _ => False
  | CallRunValidatorOrExit => False
  end.

(** The validator is wanted and is not among run-clients: lines 307 and
    311. *)
Definition validator_apart (f : Flags) : Prop :=
  noValidator f = false /\ utils.Contains (services f) validator = false.

(** The calls of lines 283-336, made with the flags [f], the selection
    [cc] and the results [results] of the generation. *)
Definition finishes (f : Flags) (cc : clients.Clients)
  (results : generate.GenerationResults) (ev : Event) : Prop :=
  match ev with
  | Log _ msg =>
      msg = HappyStaking2 \/ msg = ValidatorTips \/ msg = HappyStaking
  | CallPreRunTeku => clients.Name (clients.Consensus cc) = "teku"
  | CallRunAndShowContainers svcs =>
      run f = true
      /\ (svcs = services f \/ (svcs = [validator] /\ validator_apart f))
  | CallRunScriptOrExit svcs => run f = false /\ svcs = services f
  | CallTrackSync elPort clPort wait =>
      elPort = generate.ELPort results /\ clPort = generate.CLPort results
      /\ wait = (time_Minute * 5)%N /\ validator_apart f
  | CallRunValidatorOrExit => run f = false /\ validator_apart f
  | _ => False
  end.

(** The call before, in a trace that lists the latest call first, is
    [trackSync]. *)
Definition sync_tracked (earlier : list Event) : Prop :=
  match earlier with
  | CallTrackSync _ _ _ :: _ => True
  | _ => False
  end.

(** In the trace, latest first, the validator is started by
    [RunValidatorOrExit] or by [runAndShowContainers] on a list other
    than run-clients only right after [trackSync]. *)
Fixpoint validator_after_sync (svcs : list string) (tr : list Event)
  : Prop :=
  match tr with
  | [] => True
  | ev :: earlier =>
      match ev with
      | CallRunValidatorOrExit => sync_tracked earlier
      | CallRunAndShowContainers l => l = svcs \/ sync_tracked earlier
      | _ => True
      end
      /\ validator_after_sync svcs earlier
  end.

(** A call that asks the user. *)
Definition asks_user (ev : Event) : bool :=
  match ev with
  | CallInstallOrShowInstructions _ | CallFeeRecipientPrompt
  | CallRunScriptOrExit _ | CallRunValidatorOrExit => true
  | _ => false
  end.

(** The string holds the character. *)
Fixpoint holds_char (c : ascii) (s : string) : bool :=
  match s with
  | EmptyString => false
  | String c' s' => Ascii.eqb c' c || holds_char c s'
  end.

(** The flags satisfy [R] and the calls since [tr0] are those of lines
    174-281. *)
Definition following {W OrderedClients : Type} (R : Flags -> Prop)
  (C : Collaborators W OrderedClients) (f0 : Flags) (tr0 : list Event)
  (st : St W) : Prop :=
  R (st_flags st) /\ since tr0 (Forall (prepares C f0)) st.

(** Where lines 174-281 end with the result [r]: the calls are those
    of these lines, and when there is no error the flags are settled and
    the scripts were generated from the flags as they now are, for the
    selection returned, and cleaned. *)
Definition prepared {W OrderedClients : Type}
  (C : Collaborators W OrderedClients) (f0 : Flags) (tr0 : list Event)
  (r : Res (clients.Clients * generate.GenerationResults)) (st : St W)
  : Prop :=
  exists new,
    st_trace st = new ++ tr0
    /\ Forall (prepares C f0) new
    /\ match r with
       | Ok g =>
           settled C f0 (st_flags st)
           /\ (exists cc, fst g = applyFlags (st_flags st) cc)
           /\ In (CallGenerateScripts
                    (generationData C (st_flags st) (fst g))) new
           /\ In (CallCleanGenerated (snd g)) new
       | Err _ => True
       end.

(** Where lines 283-336 end, having started in [st0]: the flags are
    those of [st0] and the calls since are those of these lines, the
    validator started on its own only after [trackSync]. *)
Definition finished {W : Type} (st0 : St W) (cc : clients.Clients)
  (results : generate.GenerationResults) (st : St W) : Prop :=
  st_flags st = st_flags st0
  /\ exists new,
      st_trace st = new ++ st_trace st0
      /\ Forall (finishes (st_flags st0) cc results) new
      /\ validator_after_sync (services (st_flags st0)) new.

(** A call that generates or cleans the scripts. *)
Definition generation_call (ev : Event) : bool :=
  match ev with
  | CallGenerateScripts _ | CallCleanGenerated _ => true
  | _ => false
  end.

(** [flag] is [<CLIENT>:<DOCKER_IMAGE>] with client [name] and image
    [image], or a client alone. *)
Definition split_at_colon (flag name image : string) : Prop :=
  holds_char colon name = false
  /\ if holds_char colon flag
     then flag = (name ++ ":" ++ image)%string
     else name = flag /\ image = "".

(** The command wishes happy staking. *)
Definition happy (ev : Event) : bool :=
  match ev with
  | Log _ HappyStaking | Log _ HappyStaking2 => true
  | _ => false
  end.

(** How lines 283-336 end, having made the calls [new] (latest first)
    under the flags [f]: without error, the last thing done is the wish,
    or the start of the services under [--no-validator]; with an error,
    there is no wish. *)
Definition announced (f : Flags) (r : Res unit) (new : list Event)
  : Prop :=
  match r with
  | Ok _ =>
      exists ev earlier,
        new = ev :: earlier
        /\ Forall (fun e => happy e = false) earlier
        /\ (happy ev = true
            \/ (happy ev = false /\ noValidator f = true
                /\ services f <> []))
  | Err _ => Forall (fun e => happy e = false) new
  end.

Definition announces {W : Type} (st0 : St W) (r : Res unit) (st : St W)
  : Prop :=
  exists new,
    st_trace st = new ++ st_trace st0
    /\ announced (st_flags st0) r new.

(** The call [ev] can return the errors [es]: in some world, under
    some flags, the function called returns them.  Logging, the check of
    the dependencies and the printing of a file return no error. *)
Definition fails_with {W OrderedClients : Type}
  (C : Collaborators W OrderedClients) (ev : Event) (es : list error)
  : Prop :=
  match ev with
  | CallClients net types =>
      es <> [] /\ exists w, snd (fst (c_Clients C net types w)) = es
  | CallValidateClients =>
      exists f found w e,
        fst (c_validateClients C f found w) = inl e /\ es = [e]
  | CallInstallDependencies pending =>
      exists f w e,
        fst (c_installDependencies C f pending w) = Some e /\ es = [e]
  | CallInstallOrShowInstructions pending =>
      exists f w e,
        fst (c_installOrShowInstructions C f pending w) = Some e
        /\ es = [e]
  | CallHandleJWTSecret =>
      exists f w e, fst (c_handleJWTSecret C f w) = inl e /\ es = [e]
  | CallFeeRecipientPrompt =>
      exists f w e, fst (c_feeRecipientPrompt C f w) = inl e /\ es = [e]
  | CallGenerateScripts gd =>
      exists w e, fst (c_GenerateScripts C gd w) = inl e /\ es = [e]
  | CallCleanGenerated results =>
      exists w e, fst (c_CleanGenerated C results w) = Some e /\ es = [e]
  | CallPreRunTeku =>
      exists f w e, fst (c_preRunTeku C f w) = Some e /\ es = [e]
  | CallRunAndShowContainers svcs =>
      exists f w e,
        fst (c_runAndShowContainers C f svcs w) = Some e /\ es = [e]
  | CallRunScriptOrExit _ =>
      exists f w e, fst (c_runScriptOrExit C f w) = Some e /\ es = [e]
  | CallTrackSync elPort clPort wait =>
      exists f w e,
        fst (c_trackSync C f elPort clPort wait w) = Some e /\ es = [e]
  | CallRunValidatorOrExit =>
      exists f w e, fst (c_RunValidatorOrExit C f w) = Some e /\ es = [e]
  | Log _ _ | CallCheckDependencies _ | CallPrintFileContent _ => False
  end.

(** The run that started with the flags [f0] and the trace [tr0] has
    stopped in [st] on the errors [es]: they are those of the last call,
    made in this run, or the error of [filepath.Abs] on the JWT path. *)
Definition stopped {W OrderedClients : Type}
  (C : Collaborators W OrderedClients) (f0 : Flags) (tr0 : list Event)
  (es : list error) (st : St W) : Prop :=
  (exists ev new,
      st_trace st = ev :: new ++ tr0 /\ fails_with C ev es)
  \/ (exists e,
         es = [e] /\ filepath.IsAbs (jwtPath f0) = true
         /\ snd (c_filepath_Abs C (jwtPath f0)) = Some e).

(** What [stopped] says of a result. *)
Definition stops {W OrderedClients A : Type}
  (C : Collaborators W OrderedClients) (f0 : Flags) (tr0 : list Event)
  (r : Res A) (st : St W) : Prop :=
  match r with
  | Ok _ => True
  | Err es => stopped C f0 tr0 es st
  end.



(** The collaborators [C] with a user who selects the clients [cc]. *)
Definition withSelection {W OrderedClients : Type} (cc : clients.Clients)
  (C : Collaborators W OrderedClients) : Collaborators W OrderedClients :=
  mkCollaborators (c_Clients C) (fun _ _ w => (inr cc, w))
    (c_GetDependencies C) (c_CheckDependencies C) (c_installDependencies C)
    (c_installOrShowInstructions C) (c_RequireJWT C) (c_handleJWTSecret C)
    (c_filepath_Abs C) (c_feeRecipientPrompt C) (c_GetLoggingDriver C)
    (c_GenerateScripts C) (c_CleanGenerated C) (c_PrintFileContent C)
    (c_preRunTeku C) (c_runAndShowContainers C) (c_runScriptOrExit C)
    (c_trackSync C) (c_RunValidatorOrExit C).

(** Nethermind with teku, as execution, consensus and validator. *)
Definition teku_selection : clients.Clients :=
  clients.mkClients (clients.mkClient "nethermind" "" false)
    (clients.mkClient "teku" "" false)
    (clients.mkClient "teku" "" false).

(** Flags with a custom execution image, every port mapped and a
    checkpoint sync URL: the three warnings are due. *)
Definition flags_with_warnings : Flags :=
  mkFlags "" "nethermind/nethermind:1.17.3" "" "" "" "" "/srv/sedge-data"
    "https://goerli.checkpoint-sync.ethpandaops.io" "goerli" "" "" "" ""
    false true false [execution; consensus] [] [] [] [] true false false
    "json".

(** The calls [new] hold each warning of lines 174-187 exactly under
    its condition on the flags [f]. *)
Definition warned (f : Flags) (new : list Event) : Prop :=
  (In (Log Warn CustomImagesWarning) new
   <-> executionImage f <> "" \/ consensusImage f <> ""
       \/ validatorImage f <> "")
  /\ (In (Log Warn MapAllPortsWarning) new <-> mapAllPorts f = true)
  /\ forall url,
      In (Log Warn (CheckpointUrlUsedWarning url)) new
      <-> url = checkpointSyncUrl f /\ url <> "".

(** Lines 189-336: [runCliCmd] after its warnings. *)
Definition afterWarnings {W OrderedClients : Type}
  (C : Collaborators W OrderedClients) (fuel : nat) : M W unit :=
  generated <- (cc <- resolveClients C ;;
                checkDependencies C fuel ;;
                jwtSecret C ;;
                askFeeRecipient C ;;
                generateScripts C cc) ;;
  afterGeneration C (fst generated) (snd generated).

(** The collaborators [C] in a world where the dependencies asked for
    stay pending, whatever is installed. *)
Definition stayPending {W OrderedClients : Type}
  (C : Collaborators W OrderedClients) : Collaborators W OrderedClients :=
  mkCollaborators (c_Clients C) (c_validateClients C) (c_GetDependencies C)
    (fun dependencies w => (dependencies, w)) (c_installDependencies C)
    (c_installOrShowInstructions C) (c_RequireJWT C) (c_handleJWTSecret C)
    (c_filepath_Abs C) (c_feeRecipientPrompt C) (c_GetLoggingDriver C)
    (c_GenerateScripts C) (c_CleanGenerated C) (c_PrintFileContent C)
    (c_preRunTeku C) (c_runAndShowContainers C) (c_runScriptOrExit C)
    (c_trackSync C) (c_RunValidatorOrExit C).

(* ===================================================================== *)
(** * Properties *)
(* ===================================================================== *)

(** ** The embedding on small inputs *)

Example Split_image :
  strings.Split "geth:nethermind/geth:1.0" colon
  = ["geth"; "nethermind/geth"; "1.0"].
Proof. reflexivity. Qed.

Example client_with_image :
  clientName "geth:ethereum/client-go:v1.10" = "geth"
  /\ clientImage "geth:ethereum/client-go:v1.10" = "ethereum/client-go:v1.10".
Proof. split; reflexivity. Qed.

Example client_without_image :
  clientName "nethermind" = "nethermind" /\ clientImage "nethermind" = "".
Proof. split; reflexivity. Qed.

Example run_clients_unknown_value :
  validateRunClients [execution; "beacon"]
  = inl (RunClientsError "execution,beacon" "execution,consensus,validator").
Proof. reflexivity. Qed.

Example goerli_without_mev :
  env_base_tmpl.env_tmpl fst snd Demo.execution_tmpl Demo.consensus_tmpl
    Demo.validator_tmpl (false, "")
  = strings.Join
      [""; "# --- Global configuration ---"; "NETWORK=goerli";
       "EC_IMAGE_VERSION=geth"; "CC_IMAGE_VERSION=lighthouse";
       "VL_IMAGE_VERSION=lighthouse"; ""]
      (String nl "").
Proof. reflexivity. Qed.

Example cleanup_of_a_document :
  cleanup.cleanLines [""; "A=1"; "B="; ""; "  "; ""; "C=2"; "D="; ""]
  = [""; "A=1"; ""; "C=2"; ""].
Proof. reflexivity. Qed.

Example tracker_one_tick :
  SyncTracker.poll Demo.endpoints 1 "8545" "4000" SyncTracker.initial []
  = ((SyncTracker.timed_out, SyncTracker.mkSyncStatus false false None), []).
Proof. reflexivity. Qed.

(** ** The helpers of [utils] *)

Lemma Contains_In (l : list string) (s : string) :
  utils.Contains l s = true <-> In s l.
Proof.
  unfold utils.Contains. rewrite existsb_exists. split.
  - intros [x [Hin Heq]]. apply String.eqb_eq in Heq. now subst.
  - intros Hin. exists s. split; [assumption | apply String.eqb_refl].
Qed.

Lemma Contains_not_In (l : list string) (s : string) :
  utils.Contains l s = false <-> ~ In s l.
Proof.
  rewrite <- Contains_In. destruct (utils.Contains l s); split; intros H.
  - discriminate.
  - now contradiction H.
  - discriminate.
  - reflexivity.
Qed.

Lemma Filter_excludes (l : list string) (s : string) :
  ~ In s (utils.Filter l (fun x => negb (String.eqb x s))).
Proof.
  unfold utils.Filter. intros Hin. apply filter_In in Hin.
  destruct Hin as [_ Hneq]. rewrite String.eqb_refl in Hneq. discriminate.
Qed.

(** Two different values make a list longer than one. *)
Lemma two_values_length (l : list string) (a b : string) :
  In a l -> In b l -> b <> a -> Nat.eqb (List.length l) 1 = false.
Proof.
  intros Ha Hb Hne. destruct l as [|x [|x' l']]; simpl in *.
  - contradiction.
  - destruct Ha as [Ha|[]], Hb as [Hb|[]]. congruence.
  - reflexivity.
Qed.

(** ** [preRunCliCmd] *)

Section PreRunFacts.

Variable SupportedNetworks : error + list string.
Variable IsAddress : string -> bool.
Variable ValidateLoggingFlag : string -> option error.

Local Abbreviation preRun :=
  (preRunCliCmd SupportedNetworks IsAddress ValidateLoggingFlag).

Lemma quickRun_keeps (f : Flags) :
  services (quickRun f) = services f
  /\ network (quickRun f) = network f
  /\ feeRecipient (quickRun f) = feeRecipient f
  /\ noValidator (quickRun f) = noValidator f.
Proof. unfold quickRun. destruct (y f); repeat split. Qed.

Lemma excludeValidator_keeps (f : Flags) :
  network (excludeValidator f) = network f
  /\ feeRecipient (excludeValidator f) = feeRecipient f
  /\ noValidator (excludeValidator f) = noValidator f.
Proof.
  unfold excludeValidator.
  destruct (noValidator f && utils.Contains (services f) validator);
    repeat split.
Qed.

Lemma excludeValidator_excludes (f : Flags) :
  noValidator f = true -> ~ In validator (services (excludeValidator f)).
Proof.
  intros HnoV. unfold excludeValidator. rewrite HnoV. simpl.
  destruct (utils.Contains (services f) validator) eqn:Hc.
  - simpl. apply Filter_excludes.
  - now apply Contains_not_In.
Qed.

Lemma prepareCustomImages_keeps (f : Flags) :
  services (prepareCustomImages f) = services f
  /\ noValidator (prepareCustomImages f) = noValidator f.
Proof.
  unfold prepareCustomImages.
  destruct (negb (executionName f =? ""));
    cbv zeta;
    match goal with
    | |- context [negb (consensusName ?g =? "")] =>
        destruct (negb (consensusName g =? ""))
    end;
    match goal with
    | |- context [negb (validatorName ?g =? "")] =>
        destruct (negb (validatorName g =? ""))
    end; split; reflexivity.
Qed.

(** An ambiguous run-clients flag is the first thing [preRunCliCmd]
    rejects. *)
Lemma ambiguous_run_clients (svcs : list string) (a b : string) :
  a = "all" \/ a = "none" -> In a svcs -> In b svcs -> b <> a ->
  validateRunClients svcs = inl (RunClientsFlagAmbiguousError svcs).
Proof.
  intros Ha Hina Hinb Hne. unfold validateRunClients.
  rewrite (two_values_length svcs Hina Hinb Hne).
  destruct (utils.Contains svcs "all") eqn:Hall; [reflexivity|].
  destruct Ha as [-> | ->].
  - apply Contains_In in Hina. congruence.
  - apply Contains_In in Hina. now rewrite Hina.
Qed.

Lemma preRun_run_clients_error (f : Flags) (err : error) :
  validateRunClients (services f) = inl err ->
  preRun f = (quickRun f, Some err).
Proof.
  intros H. unfold preRunCliCmd.
  destruct (quickRun_keeps f) as (Hs & _). rewrite Hs, H. reflexivity.
Qed.

Lemma afterRunClients_keeps (svcs : list string) (f : Flags) :
  network (afterRunClients svcs f) = network f
  /\ feeRecipient (afterRunClients svcs f) = feeRecipient f
  /\ noValidator (afterRunClients svcs f) = noValidator f.
Proof.
  unfold afterRunClients.
  destruct (excludeValidator_keeps (set_services svcs (quickRun f)))
    as (H1 & H2 & H3).
  destruct (quickRun_keeps f) as (_ & K1 & K2 & K3).
  rewrite H1, H2, H3. simpl. auto.
Qed.

Lemma preRun_network_error (f : Flags) (svcs : list string) (err : error) :
  validateRunClients (services f) = inr svcs ->
  validateNetwork SupportedNetworks (network f) = Some err ->
  preRun f = (afterRunClients svcs f, Some err).
Proof.
  intros Hs Hn. unfold preRunCliCmd.
  destruct (quickRun_keeps f) as (Hq & _). rewrite Hq, Hs.
  fold (afterRunClients svcs f).
  destruct (afterRunClients_keeps svcs f) as (K1 & _).
  rewrite K1, Hn. reflexivity.
Qed.

Lemma preRun_fee_recipient_error (f : Flags) (svcs : list string)
  (err : error) :
  validateRunClients (services f) = inr svcs ->
  validateNetwork SupportedNetworks (network f) = None ->
  validateFeeRecipient IsAddress (feeRecipient f) = Some err ->
  preRun f = (afterRunClients svcs f, Some err).
Proof.
  intros Hs Hn Hf. unfold preRunCliCmd.
  destruct (quickRun_keeps f) as (Hq & _). rewrite Hq, Hs.
  fold (afterRunClients svcs f).
  destruct (afterRunClients_keeps svcs f) as (K1 & K2 & _).
  rewrite K1, Hn, K2, Hf. reflexivity.
Qed.

(** When [preRunCliCmd] returns no error, every check passed and the
    flags are those of the last step. *)
Lemma preRun_success (f : Flags) :
  snd (preRun f) = None ->
  exists svcs,
    validateRunClients (services f) = inr svcs
    /\ validateNetwork SupportedNetworks (network f) = None
    /\ validateFeeRecipient IsAddress (feeRecipient f) = None
    /\ fst (preRun f) = prepareCustomImages (afterRunClients svcs f).
Proof.
  unfold preRunCliCmd.
  destruct (quickRun_keeps f) as (Hq & _). rewrite Hq.
  destruct (validateRunClients (services f)) as [e|svcs]; [discriminate|].
  fold (afterRunClients svcs f).
  destruct (afterRunClients_keeps svcs f) as (K1 & K2 & _).
  rewrite K1, K2.
  destruct (validateNetwork SupportedNetworks (network f));
    [discriminate|].
  destruct (validateFeeRecipient IsAddress (feeRecipient f));
    [discriminate|].
  intros _. exists svcs. repeat split.
Qed.

Lemma unknown_network (name : string) (networks : list string) :
  SupportedNetworks = inr networks -> ~ In name networks ->
  validateNetwork SupportedNetworks name = Some (UnknownNetworkError name).
Proof.
  intros Hs Hn. unfold validateNetwork. rewrite Hs.
  apply Contains_not_In in Hn. now rewrite Hn.
Qed.

Lemma malformed_fee_recipient (addr : string) :
  addr <> "" -> IsAddress addr = false ->
  validateFeeRecipient IsAddress addr = Some InvalidFeeRecipientError.
Proof.
  intros Hne Hbad. unfold validateFeeRecipient. rewrite Hbad.
  destruct (addr =? "") eqn:He; [apply String.eqb_eq in He; contradiction|].
  reflexivity.
Qed.

End PreRunFacts.

(** ** Reasoning on runs *)

Section WpRules.

Variable W : Type.

Lemma wp_elim {A} (m : M W A) (Q : Res A -> St W -> Prop) (st st' : St W)
  (r : Res A) :
  wp m Q st -> m st = Some (r, st') -> Q r st'.
Proof. unfold wp. intros H E. now rewrite E in H. Qed.

Lemma wp_mono {A} (m : M W A) (Q Q' : Res A -> St W -> Prop) (st : St W) :
  wp m Q st -> (forall r st', Q r st' -> Q' r st') -> wp m Q' st.
Proof.
  unfold wp. destruct (m st) as [[r st']|]; auto.
Qed.

Lemma wp_bind {A B} (m : M W A) (k : A -> M W B)
  (Q : Res B -> St W -> Prop) (st : St W) :
  wp m (fun r st' => match r with
                     | Ok a => wp (k a) Q st'
                     | Err es => Q (Err es) st'
                     end) st ->
  wp (bind m k) Q st.
Proof.
  unfold wp, bind. destruct (m st) as [[[a|es] st']|]; auto.
Qed.

(** A sequence keeps what each of its parts keeps. *)
Lemma wp_seq {A B} (I : St W -> Prop) (m : M W A) (k : A -> M W B)
  (st : St W) :
  wp m (fun _ st' => I st') st ->
  (forall a st', I st' -> wp (k a) (fun _ st'' => I st'') st') ->
  wp (bind m k) (fun _ st'' => I st'') st.
Proof.
  intros Hm Hk. apply wp_bind. eapply wp_mono; [exact Hm|].
  intros [a|es] st' HI; auto.
Qed.

Lemma wp_assoc {A B D} (m : M W A) (k : A -> M W B) (h : B -> M W D)
  (Q : Res D -> St W -> Prop) (st : St W) :
  wp (bind m (fun a => bind (k a) h)) Q st -> wp (bind (bind m k) h) Q st.
Proof.
  unfold wp, bind. destruct (m st) as [[[a|es] st']|]; auto.
Qed.

Lemma wp_ret {A} (a : A) (Q : Res A -> St W -> Prop) (st : St W) :
  Q (Ok a) st -> wp (ret a) Q st.
Proof. exact (fun H => H). Qed.

Lemma wp_fail {A} (es : list error) (Q : Res A -> St W -> Prop) (st : St W) :
  Q (Err es) st -> wp (fail es) Q st.
Proof. exact (fun H => H). Qed.

Lemma wp_diverge {A} (Q : Res A -> St W -> Prop) (st : St W) :
  wp diverge Q st.
Proof. exact I. Qed.

Lemma wp_getFlags (Q : Res Flags -> St W -> Prop) (st : St W) :
  Q (Ok (st_flags st)) st -> wp getFlags Q st.
Proof. exact (fun H => H). Qed.

Lemma wp_modifyFlags (g : Flags -> Flags) (Q : Res unit -> St W -> Prop)
  (st : St W) :
  Q (Ok tt) (assigned g st) -> wp (modifyFlags g) Q st.
Proof. exact (fun H => H). Qed.

Lemma wp_log (lvl : Level) (msg : LogMsg) (Q : Res unit -> St W -> Prop)
  (st : St W) :
  Q (Ok tt) (record (Log lvl msg) st) -> wp (log lvl msg) Q st.
Proof. exact (fun H => H). Qed.

Lemma wp_call {A} (ev : Event) (f : W -> A * W)
  (Q : Res A -> St W -> Prop) (st : St W) :
  Q (Ok (fst (f (st_world st)))) (moved (snd (f (st_world st))) ev st) ->
  wp (call ev f) Q st.
Proof. exact (fun H => H). Qed.

Lemma wp_check (err : option error) (Q : Res unit -> St W -> Prop)
  (st : St W) :
  (forall e, err = Some e -> Q (Err [e]) st) ->
  (err = None -> Q (Ok tt) st) ->
  wp (check err) Q st.
Proof. destruct err as [e|]; intros H1 H2; [now apply H1 | now apply H2]. Qed.

Lemma wp_when (b : bool) (m : M W unit) (Q : Res unit -> St W -> Prop)
  (st : St W) :
  (b = true -> wp m Q st) -> (b = false -> Q (Ok tt) st) ->
  wp (when b m) Q st.
Proof. destruct b; intros H1 H2; [now apply H1 | now apply H2]. Qed.

End WpRules.

(** One step of a run: the rule of the computation at the head. *)
Ltac wp_step :=
  lazymatch goal with
  | |- wp (bind (bind _ _) _) _ _ => apply wp_assoc
  | |- wp (bind _ _) _ _ => apply wp_bind
  | |- wp (ret _) _ _ => apply wp_ret
  | |- wp (fail _) _ _ => apply wp_fail
  | |- wp diverge _ _ => apply wp_diverge
  | |- wp getFlags _ _ => apply wp_getFlags
  | |- wp (modifyFlags _) _ _ => apply wp_modifyFlags
  | |- wp (log _ _) _ _ => apply wp_log
  | |- wp (call _ _) _ _ => apply wp_call
  | |- wp (check _) _ _ => apply wp_check; intros
  | |- wp (when _ _) _ _ => apply wp_when; intros
  end.

(** A case analysis on what the computation at the head examines. *)
Ltac wp_case :=
  lazymatch goal with
  | |- wp (match ?x with _ => _ end) _ _ => destruct x eqn:?
  end.

Tactic Notation "wp_case" "as" ident(H) :=
  lazymatch goal with
  | |- wp (match ?x with _ => _ end) _ _ => destruct x eqn:H
  end.

(** ** The flags a run leaves as they are *)

Lemma evolved_refl (f : Flags) : evolved f f.
Proof. exists (jwtPath f), (feeRecipient f). now destruct f. Qed.

Lemma evolved_jwtPath (f0 f : Flags) (path : string) :
  evolved f0 f -> evolved f0 (set_jwtPath path f).
Proof.
  intros (p & a & ->). exists path, a. reflexivity.
Qed.

Lemma evolved_feeRecipient (f0 f : Flags) (addr : string) :
  evolved f0 f -> evolved f0 (set_feeRecipient addr f).
Proof.
  intros (p & a & ->). exists p, addr. reflexivity.
Qed.

Lemma evolved_keeps (f0 f : Flags) :
  evolved f0 f ->
  services f = services f0 /\ run f = run f0
  /\ noValidator f = noValidator f0 /\ noMev f = noMev f0
  /\ network f = network f0.
Proof. intros (p & a & ->). repeat split. Qed.

Section RunFacts.

Variables W OrderedClients : Type.
Variable C : Collaborators W OrderedClients.
Variable f0 : Flags.
Variable tr0 : list Event.

Lemma extends_moved (st : St W) (w : W) (ev : Event) :
  allowed C f0 ev -> extends C f0 tr0 st -> extends C f0 tr0 (moved w ev st).
Proof.
  intros Hev (Hf & new & Htr & Hall). split; [exact Hf|].
  exists (ev :: new). simpl. rewrite Htr. split; [reflexivity|].
  now constructor.
Qed.

Lemma extends_record (st : St W) (ev : Event) :
  allowed C f0 ev -> extends C f0 tr0 st -> extends C f0 tr0 (record ev st).
Proof. apply extends_moved. Qed.

Lemma extends_assigned (st : St W) (g : Flags -> Flags) :
  evolved f0 (g (st_flags st)) ->
  extends C f0 tr0 st -> extends C f0 tr0 (assigned g st).
Proof. intros Hg (_ & Hnew). split; assumption. Qed.

(** Closes a goal [extends ...] on a state built by calls and
    assignments over a state known to extend. *)
Ltac extends_tac :=
  repeat first
    [ assumption
    | apply extends_record; [simpl; auto |]
    | apply extends_moved; [simpl; auto |]
    | apply extends_assigned;
      [simpl; first [apply evolved_jwtPath | apply evolved_feeRecipient];
       match goal with H : extends _ _ _ _ |- _ => exact (proj1 H) end |] ].

Ltac run_block :=
  repeat first [ wp_step | wp_case | progress extends_tac ].

Lemma warnings_extends (st : St W) :
  extends C f0 tr0 st ->
  wp warnings (fun _ st' => extends C f0 tr0 st') st.
Proof.
  intros H. unfold warnings. run_block.
Qed.

Lemma resolveClients_extends (st : St W) :
  extends C f0 tr0 st ->
  wp (resolveClients C) (fun _ st' => extends C f0 tr0 st') st.
Proof.
  intros H. unfold resolveClients. run_block.
Qed.

Lemma installPending_extends (fuel : nat) (dependencies : list string) :
  forall st : St W,
    extends C f0 tr0 st ->
    wp (installPending C fuel dependencies)
      (fun _ st' => extends C f0 tr0 st') st.
Proof.
  induction fuel as [|fuel IH]; intros st H; simpl.
  - apply wp_diverge.
  - do 2 wp_step. wp_case; [run_block|].
    do 4 wp_step. apply wp_seq.
    + wp_case; run_block.
    + intros _ st' H'. now apply IH.
Qed.

Lemma checkDependencies_extends (fuel : nat) (st : St W) :
  extends C f0 tr0 st ->
  wp (checkDependencies C fuel) (fun _ st' => extends C f0 tr0 st') st.
Proof.
  intros H. unfold checkDependencies. do 2 wp_step. apply wp_seq.
  - apply installPending_extends. extends_tac.
  - intros _ st' H'. run_block.
Qed.

Lemma jwtSecret_extends (st : St W) :
  extends C f0 tr0 st ->
  wp (jwtSecret C) (fun _ st' => extends C f0 tr0 st') st.
Proof.
  intros H. unfold jwtSecret. run_block.
Qed.

Lemma askFeeRecipient_extends (st : St W) :
  extends C f0 tr0 st ->
  wp (askFeeRecipient C) (fun _ st' => extends C f0 tr0 st') st.
Proof.
  intros H. unfold askFeeRecipient. run_block.
Qed.

Lemma generateScripts_extends (cc : clients.Clients) (st : St W) :
  extends C f0 tr0 st ->
  wp (generateScripts C cc) (fun _ st' => extends C f0 tr0 st') st.
Proof.
  intros H. unfold generateScripts. do 2 wp_step. cbv zeta.
  assert (Hgd : allowed C f0
                  (CallGenerateScripts
                     (generationData C (st_flags st)
                        (applyFlags (st_flags st) cc)))).
  { exists (st_flags st), cc. split; [exact (proj1 H) | reflexivity]. }
  run_block.
Qed.

Lemma generationPhase_extends (fuel : nat) (st : St W) :
  extends C f0 tr0 st ->
  wp (generationPhase C fuel) (fun _ st' => extends C f0 tr0 st') st.
Proof.
  intros H. unfold generationPhase.
  apply wp_seq; [now apply warnings_extends | intros _ st1 H1].
  apply wp_seq; [now apply resolveClients_extends | intros cc st2 H2].
  apply wp_seq; [now apply checkDependencies_extends | intros _ st3 H3].
  apply wp_seq; [now apply jwtSecret_extends | intros _ st4 H4].
  apply wp_seq; [now apply askFeeRecipient_extends | intros _ st5 H5].
  now apply generateScripts_extends.
Qed.

Lemma startValidator_extends (st : St W) :
  extends C f0 tr0 st ->
  services f0 <> [] -> noValidator f0 = false ->
  utils.Contains (services f0) validator = false ->
  wp (startValidator C) (fun _ st' => extends C f0 tr0 st') st.
Proof.
  intros H Hs Hv Hc. unfold startValidator.
  destruct (evolved_keeps (proj1 H)) as (_ & Hrun & _).
  do 2 wp_step. wp_case.
  - assert (allowed C f0 (CallRunAndShowContainers [validator])).
    { simpl. rewrite <- Hrun. auto 6. }
    run_block.
  - assert (allowed C f0 CallRunValidatorOrExit).
    { simpl. rewrite <- Hrun. auto. }
    run_block.
Qed.

Lemma trackThenStartValidator_extends
  (results : generate.GenerationResults) (st : St W) :
  extends C f0 tr0 st ->
  services f0 <> [] -> noValidator f0 = false ->
  utils.Contains (services f0) validator = false ->
  wp (trackThenStartValidator C results)
    (fun _ st' => extends C f0 tr0 st') st.
Proof.
  intros H Hs Hv Hc. unfold trackThenStartValidator.
  assert (forall el cl d, allowed C f0 (CallTrackSync el cl d)).
  { intros. simpl. auto. }
  do 4 wp_step. apply wp_seq; [run_block|].
  intros _ st' H'. now apply startValidator_extends.
Qed.

Lemma validatorStage_extends (results : generate.GenerationResults)
  (st : St W) :
  extends C f0 tr0 st -> services f0 <> [] ->
  wp (validatorStage C results) (fun _ st' => extends C f0 tr0 st') st.
Proof.
  intros H Hs. unfold validatorStage.
  destruct (evolved_keeps (proj1 H)) as (Hsv & _ & HnoV & _).
  do 2 wp_step. wp_case as Hwith; [|run_block].
  do 2 wp_step. apply wp_seq; [|intros; run_block].
  apply Bool.negb_true_iff in Hwith. rewrite HnoV in Hwith.
  wp_case as Hlater; [|run_block].
  apply Bool.negb_true_iff in Hlater. rewrite Hsv in Hlater.
  apply trackThenStartValidator_extends; auto. extends_tac.
Qed.

Lemma afterGeneration_extends (cc : clients.Clients)
  (results : generate.GenerationResults) (st : St W) :
  extends C f0 tr0 st ->
  wp (afterGeneration C cc results) (fun _ st' => extends C f0 tr0 st') st.
Proof.
  intros H. unfold afterGeneration.
  destruct (evolved_keeps (proj1 H)) as (Hsv & Hrun & _).
  do 2 wp_step. wp_case as Hnone; [run_block|].
  assert (Hs : services f0 <> []).
  { rewrite <- Hsv. intros E. rewrite E in Hnone. discriminate. }
  assert (allowed C f0 CallPreRunTeku) by exact Hs.
  apply wp_seq; [run_block|]. intros _ st1 H1.
  apply wp_seq; [|intros; now apply validatorStage_extends].
  wp_case.
  - assert (allowed C f0 (CallRunAndShowContainers (services (st_flags st)))).
    { simpl. rewrite <- Hrun, Hsv. auto. }
    run_block.
  - assert (allowed C f0 (CallRunScriptOrExit (services (st_flags st)))).
    { simpl. rewrite <- Hrun, Hsv. auto. }
    run_block.
Qed.

(** What a run of [runCliCmd] does to the flags and which calls it
    makes. *)
Lemma runCliCmd_extends (fuel : nat) (st : St W) :
  extends C f0 tr0 st ->
  wp (runCliCmd C fuel) (fun _ st' => extends C f0 tr0 st') st.
Proof.
  intros H. unfold runCliCmd.
  apply wp_seq; [now apply generationPhase_extends|].
  intros g st' H'. now apply afterGeneration_extends.
Qed.

End RunFacts.

Lemma extends_start {W OrderedClients : Type}
  (C : Collaborators W OrderedClients) (st : St W) :
  extends C (st_flags st) (st_trace st) st.
Proof.
  split; [apply evolved_refl|]. exists []. split; [reflexivity|constructor].
Qed.

(** The calls of a finished run, read off its final state. *)
Lemma runCliCmd_calls {W OrderedClients : Type}
  (C : Collaborators W OrderedClients) (fuel : nat) (st st' : St W)
  (r : Res unit) :
  runCliCmd C fuel st = Some (r, st') ->
  evolved (st_flags st) (st_flags st')
  /\ exists new,
      st_trace st' = new ++ st_trace st
      /\ Forall (allowed C (st_flags st)) new.
Proof.
  intros E.
  exact (wp_elim (runCliCmd C fuel) _ st
           (runCliCmd_extends fuel (extends_start C st)) E).
Qed.

Lemma generationPhase_calls {W OrderedClients : Type}
  (C : Collaborators W OrderedClients) (fuel : nat) (st st' : St W)
  (r : Res (clients.Clients * generate.GenerationResults)) :
  generationPhase C fuel st = Some (r, st') ->
  evolved (st_flags st) (st_flags st')
  /\ exists new,
      st_trace st' = new ++ st_trace st
      /\ Forall (allowed C (st_flags st)) new.
Proof.
  intros E.
  exact (wp_elim (generationPhase C fuel) _ st
           (generationPhase_extends fuel (extends_start C st)) E).
Qed.

(** ** Lines of a document *)

Lemma Split_not_nil (s : string) (sep : ascii) : strings.Split s sep <> [].
Proof.
  destruct s as [|c s]; simpl; [discriminate|].
  destruct (Ascii.eqb c sep); [discriminate|].
  destruct (strings.Split s sep); discriminate.
Qed.

Lemma lines_app (a b : string) :
  env.lines (a ++ String nl b) = env.lines a ++ env.lines b.
Proof.
  unfold env.lines. induction a as [|c a IH]; simpl.
  - reflexivity.
  - destruct (Ascii.eqb c nl); [now rewrite IH|].
    rewrite IH. destruct (strings.Split a nl) as [|p ps] eqn:E.
    + now apply Split_not_nil in E.
    + reflexivity.
Qed.

Lemma lines_one_line (s : string) :
  env.one_line s = true -> env.lines s = [s].
Proof.
  unfold env.lines. induction s as [|c s IH]; simpl; [reflexivity|].
  intros H. apply andb_prop in H. destruct H as [Hc Hs].
  apply Bool.negb_true_iff in Hc. rewrite Hc, (IH Hs). reflexivity.
Qed.

Lemma lines_are_one_line (s : string) :
  Forall (fun l => env.one_line l = true) (env.lines s).
Proof.
  unfold env.lines. induction s as [|c s IH]; simpl.
  - repeat constructor.
  - destruct (Ascii.eqb c nl) eqn:Hc.
    + constructor; [reflexivity | exact IH].
    + destruct (strings.Split s nl) as [|p ps]; simpl.
      * repeat constructor. simpl. now rewrite Hc.
      * inversion IH; subst. constructor; [|assumption].
        simpl. now rewrite Hc.
Qed.

Lemma collect_app (key : string) (l1 l2 : list string) :
  env.collect key (l1 ++ l2) = env.collect key l1 ++ env.collect key l2.
Proof.
  induction l1 as [|l l1 IH]; simpl; [reflexivity|].
  destruct (env.assigned_by key l); simpl; now rewrite IH.
Qed.

Lemma assignments_app (key a b : string) :
  env.assignments key (a ++ String nl b)
  = env.assignments key a ++ env.assignments key b.
Proof.
  unfold env.assignments. now rewrite lines_app, collect_app.
Qed.


(** ** The goerli template *)

Section TemplateFacts.

Variable Data : Type.
Variable Mev : Data -> bool.
Variable RelayURL : Data -> string.
Variables execution_tmpl consensus_tmpl validator_tmpl : Data -> string.

Local Abbreviation env_tmpl :=
  (env_base_tmpl.env_tmpl Mev RelayURL execution_tmpl consensus_tmpl
     validator_tmpl).

(** The variable as the client templates define it. *)
Lemma env_tmpl_assignments (key : string) (d : Data) :
  env.assignments key (env_tmpl d)
  = env.assignments key (env_base_tmpl.global_configuration Mev RelayURL d)
    ++ env.assignments key (execution_tmpl d)
    ++ env.assignments key (consensus_tmpl d)
    ++ env.assignments key (validator_tmpl d).
Proof.
  unfold env_base_tmpl.env_tmpl, env_base_tmpl.newline.
  cbn [String.append].
  rewrite !assignments_app.
  change (env.assignments key "") with (env.collect key [""]).
  cbn [env.collect].
  destruct (env.assigned_by key "") eqn:E.
  - unfold env.assigned_by in E.
    destruct key; simpl in E; discriminate.
  - now rewrite app_nil_r.
Qed.



End TemplateFacts.

(** ** The cleanup pass *)

Lemma collapse_twice (ls : list string) :
  cleanup.collapse true (cleanup.collapse true ls) = cleanup.collapse true ls
  /\ cleanup.collapse false (cleanup.collapse true ls)
     = cleanup.collapse true ls
  /\ cleanup.collapse false (cleanup.collapse false ls)
     = cleanup.collapse false ls.
Proof.
  induction ls as [|l ls (IH1 & IH2 & IH3)]; simpl; [auto|].
  destruct (cleanup.blank l) eqn:Hb; simpl; rewrite ?Hb.
  - repeat split; try assumption. now rewrite IH1.
  - rewrite IH3. auto.
Qed.

Lemma collapse_keeps (P : string -> Prop) (ls : list string) :
  Forall P ls -> forall b, Forall P (cleanup.collapse b ls).
Proof.
  induction 1 as [|l ls Hl Hls IH]; intros b; simpl; [constructor|].
  destruct (cleanup.blank l); [destruct b|]; auto.
Qed.

Lemma filter_all (p : string -> bool) (ls : list string) :
  Forall (fun l => p l = true) ls -> List.filter p ls = ls.
Proof.
  induction 1 as [|l ls Hl Hls IH]; simpl; [reflexivity|].
  now rewrite Hl, IH.
Qed.

Lemma filter_accepts (p : string -> bool) (ls : list string) :
  Forall (fun l => p l = true) (List.filter p ls).
Proof.
  induction ls as [|l ls IH]; simpl; [constructor|].
  destruct (p l) eqn:Hp; [constructor|]; assumption.
Qed.

Lemma filter_keeps (P : string -> Prop) (p : string -> bool)
  (ls : list string) :
  Forall P ls -> Forall P (List.filter p ls).
Proof.
  induction 1 as [|l ls Hl Hls IH]; simpl; [constructor|].
  destruct (p l); [constructor|]; assumption.
Qed.

Lemma cleanLines_twice (ls : list string) :
  cleanup.cleanLines (cleanup.cleanLines ls) = cleanup.cleanLines ls.
Proof.
  unfold cleanup.cleanLines.
  rewrite (filter_all (fun l => negb (cleanup.key_then_equals l))).
  - apply collapse_twice.
  - apply collapse_keeps, filter_accepts.
Qed.

Lemma cleanLines_keeps (P : string -> Prop) (ls : list string) :
  Forall P ls -> Forall P (cleanup.cleanLines ls).
Proof.
  intros H. unfold cleanup.cleanLines. now apply collapse_keeps, filter_keeps.
Qed.

Lemma lines_Join (ls : list string) :
  ls <> [] -> Forall (fun l => env.one_line l = true) ls ->
  env.lines (strings.Join ls (String nl EmptyString)) = ls.
Proof.
  unfold strings.Join. intros Hne H.
  induction H as [|l ls Hl Hls IH]; [contradiction|].
  destruct ls as [|l' ls'].
  - simpl. now apply lines_one_line.
  - change (env.lines (l ++ String nl (String.concat (String nl "") (l' :: ls')))
            = l :: l' :: ls').
    rewrite lines_app, (lines_one_line l Hl), IH by discriminate.
    reflexivity.
Qed.

Lemma cleanDocument_twice (doc : string) :
  cleanup.cleanDocument (cleanup.cleanDocument doc)
  = cleanup.cleanDocument doc.
Proof.
  unfold cleanup.cleanDocument.
  destruct (cleanup.cleanLines (env.lines doc)) as [|l ls] eqn:E.
  - reflexivity.
  - rewrite lines_Join.
    + rewrite <- E. now rewrite cleanLines_twice.
    + discriminate.
    + rewrite <- E. apply cleanLines_keeps, lines_are_one_line.
Qed.

(** ** The selection a run generates from *)

Lemma wp_then {W A B : Type} (I : St W -> Prop) (m : M W A)
  (k : A -> M W B) (Q : Res B -> St W -> Prop) (st : St W) :
  wp m (fun _ st' => I st') st ->
  (forall a st', I st' -> wp (k a) Q st') ->
  (forall es st', Q (Err es) st') ->
  wp (bind m k) Q st.
Proof.
  intros Hm Hk He. apply wp_bind. eapply wp_mono; [exact Hm|].
  intros [a|es] st' HI; auto.
Qed.

Lemma generationPhase_selection {W OrderedClients : Type}
  (C : Collaborators W OrderedClients) (fuel : nat) (st st' : St W)
  (g : clients.Clients * generate.GenerationResults) :
  generationPhase C fuel st = Some (Ok g, st') ->
  clients.Omited (clients.Validator (fst g)) = noValidator (st_flags st).
Proof.
  intros E.
  set (f0 := st_flags st). set (tr0 := st_trace st).
  set (Q := fun (r : Res (clients.Clients * generate.GenerationResults))
              (_ : St W) =>
              match r with
              | Ok g => clients.Omited (clients.Validator (fst g))
                        = noValidator f0
              | Err _ => True
              end).
  assert (H : wp (generationPhase C fuel) Q st).
  { unfold generationPhase.
    pose proof (extends_start C st) as H0. fold f0 tr0 in H0.
    apply (wp_then (extends C f0 tr0));
      [now apply warnings_extends | intros _ st1 H1 | now intros].
    apply (wp_then (extends C f0 tr0));
      [now apply resolveClients_extends | intros cc st2 H2 | now intros].
    apply (wp_then (extends C f0 tr0));
      [now apply checkDependencies_extends | intros _ st3 H3 | now intros].
    apply (wp_then (extends C f0 tr0));
      [now apply jwtSecret_extends | intros _ st4 H4 | now intros].
    apply (wp_then (extends C f0 tr0));
      [now apply askFeeRecipient_extends | intros _ st5 H5 | now intros].
    destruct (evolved_keeps (proj1 H5)) as (_ & _ & HnoV & _).
    unfold generateScripts. cbv zeta.
    repeat first [wp_step | wp_case]; unfold Q; simpl; auto. }
  exact (wp_elim _ _ _ H E).
Qed.

Lemma global_configuration_no_mev (Data : Type) (Mev : Data -> bool)
  (RelayURL : Data -> string) (d : Data) :
  Mev d = false ->
  env.assignments "RELAY_URL"
    (env_base_tmpl.global_configuration Mev RelayURL d) = [].
Proof.
  intros H.
  unfold env_base_tmpl.global_configuration, env_base_tmpl.relay.
  rewrite H. reflexivity.
Qed.

(** What [allowed] says of the generation data when the validator is
    omitted. *)
Lemma generation_without_validator {W OrderedClients : Type}
  (C : Collaborators W OrderedClients) (f0 : Flags)
  (gd : generate.GenerationData) :
  noValidator f0 = true -> allowed C f0 (CallGenerateScripts gd) ->
  generate.Mev gd = false
  /\ clients.Omited (generate.ValidatorClient gd) = true.
Proof.
  intros HnoV (f & cc & Hev & ->).
  destruct (evolved_keeps Hev) as (_ & _ & Hv & _).
  simpl. rewrite Hv, HnoV. split; [apply andb_false_r | reflexivity].
Qed.

(** C1: when the validator is omitted ([--no-validator]) MEV-boost is off
    whatever [--no-mev-boost] says: every generation data a run hands to
    [generate.GenerateScripts] has [Mev] false and a validator marked
    [Omited], the selection the generation returns has the validator marked
    [Omited], and a goerli environment document whose template data has
    MEV on only if the generation data has assigns no [RELAY_URL] (the
    client templates assigning none). *)
Theorem no_validator_disables_mev
  (W OrderedClients : Type) (C : Collaborators W OrderedClients)
  (fuel : nat) (st st' : St W) (r : Res unit) :
  noValidator (st_flags st) = true ->
  runCliCmd C fuel st = Some (r, st') ->
  (forall g st1,
      generationPhase C fuel st = Some (Ok g, st1) ->
      clients.Omited (clients.Validator (fst g)) = true)
  /\ exists new,
      st_trace st' = new ++ st_trace st
      /\ forall gd,
          In (CallGenerateScripts gd) new ->
          generate.Mev gd = false
          /\ clients.Omited (generate.ValidatorClient gd) = true
          /\ forall (Data : Type) (Mev : Data -> bool)
               (RelayURL execution_tmpl consensus_tmpl validator_tmpl
                  : Data -> string) (d : Data),
              (Mev d = true -> generate.Mev gd = true) ->
              env.assignments "RELAY_URL" (execution_tmpl d) = [] ->
              env.assignments "RELAY_URL" (consensus_tmpl d) = [] ->
              env.assignments "RELAY_URL" (validator_tmpl d) = [] ->
              env.assignments "RELAY_URL"
                (env_base_tmpl.env_tmpl Mev RelayURL execution_tmpl
                   consensus_tmpl validator_tmpl d) = [].
Proof.
  intros HnoV Hrun. split.
  - intros g st1 Hgen. rewrite <- HnoV.
    exact (generationPhase_selection C fuel st Hgen).
  - destruct (runCliCmd_calls C fuel st Hrun) as (_ & new & Htr & Hall).
    exists new. split; [exact Htr|]. intros gd Hin.
    rewrite Forall_forall in Hall.
    destruct (generation_without_validator HnoV (Hall _ Hin))
      as (Hmev & Hom).
    repeat split; try assumption.
    intros Data Mev RelayURL ex co va d Hd Hex Hco Hva.
    rewrite env_tmpl_assignments, Hex, Hco, Hva.
    rewrite global_configuration_no_mev; [reflexivity|].
    destruct (Mev d); [|reflexivity]. rewrite Hd in Hmev by reflexivity.
    discriminate.
Qed.

Lemma no_validator_disables_mev_witness :
  exists r st',
    runCliCmd (Demo.collaborators true) 5
      (Demo.start
         (Demo.custom "mainnet" "" "" [execution; consensus] true true))
    = Some (r, st')
    /\ (exists gd, In (CallGenerateScripts gd) (st_trace st'))
    /\ exists new,
        st_trace st' = new ++ []
        /\ forall gd,
            In (CallGenerateScripts gd) new -> generate.Mev gd = false.
Proof.
  pose proof (@no_validator_disables_mev _ _ (Demo.collaborators true) 5
                (Demo.start
                   (Demo.custom "mainnet" "" "" [execution; consensus]
                      true true))) as T.
  destruct (runCliCmd (Demo.collaborators true) 5
              (Demo.start
                 (Demo.custom "mainnet" "" "" [execution; consensus]
                    true true))) as [[r st']|] eqn:E.
  - exists r, st'. split; [reflexivity|]. split.
    + vm_compute in E. injection E as _ <-.
      eexists. repeat (first [left; reflexivity | right]).
    + destruct (T st' r eq_refl eq_refl) as (_ & new & Htr & Hgd).
      exists new. split; [exact Htr|].
      intros gd Hin. exact (proj1 (Hgd gd Hin)).
  - vm_compute in E. discriminate E.
Defined.

(** ** Run-clients and the validator *)

Lemma preRun_keeps_no_validator
  (SupportedNetworks : error + list string) (IsAddress : string -> bool)
  (ValidateLoggingFlag : string -> option error) (f : Flags) :
  snd (preRunCliCmd SupportedNetworks IsAddress ValidateLoggingFlag f) = None ->
  noValidator
    (fst (preRunCliCmd SupportedNetworks IsAddress ValidateLoggingFlag f))
  = noValidator f
  /\ (noValidator f = true ->
      ~ In validator
          (services
             (fst (preRunCliCmd SupportedNetworks IsAddress
                     ValidateLoggingFlag f)))).
Proof.
  intros Hok.
  destruct (preRun_success _ _ _ _ Hok) as (svcs & _ & _ & _ & ->).
  destruct (prepareCustomImages_keeps (afterRunClients svcs f)) as (Hs & Hv).
  destruct (afterRunClients_keeps svcs f) as (_ & _ & Hv').
  rewrite Hs, Hv, Hv'. split; [reflexivity|].
  intros HnoV. unfold afterRunClients. apply excludeValidator_excludes.
  simpl. destruct (quickRun_keeps f) as (_ & _ & _ & Hq). now rewrite Hq.
Qed.

Lemma allowed_without_validator {W OrderedClients : Type}
  (C : Collaborators W OrderedClients) (f0 : Flags) (ev : Event) :
  noValidator f0 = true -> ~ In validator (services f0) ->
  allowed C f0 ev -> ~ starts_validator ev.
Proof.
  intros HnoV Hnot Hev Hstart.
  destruct ev; simpl in Hev, Hstart; try contradiction.
  - destruct Hev as (_ & _ & [-> | (_ & Hv & _)]); [contradiction|congruence].
  - destruct Hev as (_ & _ & ->). contradiction.
  - destruct Hev as (_ & _ & Hv & _). congruence.
Qed.

(** C10: under [--no-validator], when [preRunCliCmd] returns no error
    the run-clients list it leaves does not hold [validator], also when
    the flag was [all]; and no call of the command starts the validator
    service: neither a list of services handed to
    [runAndShowContainers] or shown by [runScriptOrExit] holds it, nor
    is [RunValidatorOrExit] called. *)
Theorem no_validator_never_starts_validator
  (W OrderedClients : Type) (SupportedNetworks : error + list string)
  (IsAddress : string -> bool) (ValidateLoggingFlag : string -> option error)
  (C : Collaborators W OrderedClients) (fuel : nat) (st : St W) :
  noValidator (st_flags st) = true ->
  (snd (preRunCliCmd SupportedNetworks IsAddress ValidateLoggingFlag
          (st_flags st)) = None ->
   ~ In validator
       (services
          (fst (preRunCliCmd SupportedNetworks IsAddress ValidateLoggingFlag
                  (st_flags st)))))
  /\ (forall out st',
         CliCmd SupportedNetworks IsAddress ValidateLoggingFlag C fuel st
         = Some (out, st') ->
         exists new,
           st_trace st' = new ++ st_trace st
           /\ Forall (fun ev => ~ starts_validator ev) new).
Proof.
  intros HnoV. split.
  - intros Hok.
    now apply (preRun_keeps_no_validator _ _ _ _ Hok).
  - intros out st'. unfold CliCmd.
    destruct (snd (preRunCliCmd SupportedNetworks IsAddress
                     ValidateLoggingFlag (st_flags st))) as [err|] eqn:Hpre.
    + intros E. injection E as _ <-. exists []. split; [reflexivity|constructor].
    + destruct (preRun_keeps_no_validator _ _ _ _ Hpre) as (Hv & Hnot).
      destruct (runCliCmd C fuel _) as [[r st2]|] eqn:Hrun; [|discriminate].
      intros E.
      assert (st2 = st') as -> by (destruct r; now injection E).
      destruct (runCliCmd_calls _ _ _ Hrun) as (_ & new & Htr & Hall).
      exists new. split; [exact Htr|].
      eapply Forall_impl; [|exact Hall].
      intros ev. simpl. apply allowed_without_validator.
      * now rewrite Hv.
      * now apply Hnot.
Qed.

Lemma no_validator_never_starts_validator_witness :
  ~ In validator
      (services
         (fst (preRunCliCmd Demo.SupportedNetworks Demo.IsAddress
                 Demo.ValidateLoggingFlag
                 (Demo.custom "mainnet" "" "" ["all"] true true))))
  /\ exists out st',
      CliCmd Demo.SupportedNetworks Demo.IsAddress Demo.ValidateLoggingFlag
        (Demo.collaborators true) 5
        (Demo.start (Demo.custom "mainnet" "" "" ["all"] true true))
      = Some (out, st')
      /\ exists new,
          st_trace st' = new ++ []
          /\ Forall (fun ev => ~ starts_validator ev) new.
Proof.
  pose proof (@no_validator_never_starts_validator _ _
                Demo.SupportedNetworks Demo.IsAddress
                Demo.ValidateLoggingFlag (Demo.collaborators true) 5
                (Demo.start (Demo.custom "mainnet" "" "" ["all"] true true))
                eq_refl) as (T1 & T2).
  split; [exact (T1 eq_refl)|].
  destruct (CliCmd Demo.SupportedNetworks Demo.IsAddress
              Demo.ValidateLoggingFlag (Demo.collaborators true) 5
              (Demo.start (Demo.custom "mainnet" "" "" ["all"] true true)))
    as [[out st']|] eqn:E.
  - exists out, st'. split; [reflexivity|]. exact (T2 out st' eq_refl).
  - vm_compute in E. discriminate E.
Defined.

Lemma allowed_without_services {W OrderedClients : Type}
  (C : Collaborators W OrderedClients) (f0 : Flags) (ev : Event) :
  services f0 = [] -> allowed C f0 ev -> container_call ev = false.
Proof.
  intros Hs Hev.
  destruct ev; simpl in *; try reflexivity;
    try (destruct Hev as (Hne & _); contradiction).
  contradiction.
Qed.

Lemma preRun_services_of_all
  (SupportedNetworks : error + list string) (IsAddress : string -> bool)
  (ValidateLoggingFlag : string -> option error) (f : Flags) :
  services f = ["all"] ->
  services (fst (preRunCliCmd SupportedNetworks IsAddress
                   ValidateLoggingFlag f))
  = if noValidator f then [execution; consensus]
    else [execution; consensus; validator].
Proof.
  intros Hs. unfold preRunCliCmd.
  destruct (quickRun_keeps f) as (Hq & _ & _ & Hv). rewrite Hq, Hs.
  change (validateRunClients ["all"])
    with (@inr error _ [execution; consensus; validator]).
  cbv iota beta zeta.
  set (g := excludeValidator _).
  assert (Hg : services g
               = if noValidator f then [execution; consensus]
                 else [execution; consensus; validator]).
  { unfold g, excludeValidator. simpl. rewrite Hv.
    destruct (noValidator f); reflexivity. }
  destruct (validateNetwork _ _); [exact Hg|].
  destruct (validateFeeRecipient _ _); [exact Hg|].
  simpl. now rewrite (proj1 (prepareCustomImages_keeps g)).
Qed.

Lemma preRun_services_of_none
  (SupportedNetworks : error + list string) (IsAddress : string -> bool)
  (ValidateLoggingFlag : string -> option error) (f : Flags) :
  services f = ["none"] ->
  services (fst (preRunCliCmd SupportedNetworks IsAddress
                   ValidateLoggingFlag f)) = [].
Proof.
  intros Hs. unfold preRunCliCmd.
  destruct (quickRun_keeps f) as (Hq & _). rewrite Hq, Hs.
  change (validateRunClients ["none"]) with (@inr error (list string) []).
  cbv iota beta zeta.
  set (g := excludeValidator _).
  assert (Hg : services g = []).
  { unfold g, excludeValidator. simpl.
    now rewrite andb_false_r. }
  destruct (validateNetwork _ _); [exact Hg|].
  destruct (validateFeeRecipient _ _); [exact Hg|].
  simpl. now rewrite (proj1 (prepareCustomImages_keeps g)).
Qed.

(** C9: [all] and [none] stand alone in run-clients.  With another
    value beside either, [preRunCliCmd] returns the ambiguity error; [all]
    alone becomes execution, consensus, validator (less the validator
    under [--no-validator], which lines 128-133 then remove), [none]
    alone the empty list; and with an empty list [runCliCmd] returns no
    error as soon as the files are generated, having logged the closing
    message and called nothing that runs containers. *)
Theorem run_clients_all_and_none
  (W OrderedClients : Type) (SupportedNetworks : error + list string)
  (IsAddress : string -> bool) (ValidateLoggingFlag : string -> option error)
  (C : Collaborators W OrderedClients) :
  (forall (f : Flags) (a b : string),
      a = "all" \/ a = "none" ->
      In a (services f) -> In b (services f) -> b <> a ->
      snd (preRunCliCmd SupportedNetworks IsAddress ValidateLoggingFlag f)
      = Some (RunClientsFlagAmbiguousError (services f)))
  /\ validateRunClients ["all"] = inr [execution; consensus; validator]
  /\ validateRunClients ["none"] = inr []
  /\ (forall f : Flags,
         services f = ["all"] ->
         services (fst (preRunCliCmd SupportedNetworks IsAddress
                          ValidateLoggingFlag f))
         = if noValidator f then [execution; consensus]
           else [execution; consensus; validator])
  /\ (forall f : Flags,
         services f = ["none"] ->
         services (fst (preRunCliCmd SupportedNetworks IsAddress
                          ValidateLoggingFlag f)) = [])
  /\ (forall (fuel : nat) (st st1 : St W)
        (g : clients.Clients * generate.GenerationResults),
         services (st_flags st) = [] ->
         generationPhase C fuel st = Some (Ok g, st1) ->
         runCliCmd C fuel st
         = Some (Ok tt, record (Log Info HappyStaking2) st1)
         /\ exists new,
             st_trace (record (Log Info HappyStaking2) st1)
             = new ++ st_trace st
             /\ Forall (fun ev => container_call ev = false) new).
Proof.
  assert (Hempty : forall (fuel : nat) (st st1 : St W)
                     (g : clients.Clients * generate.GenerationResults),
             services (st_flags st) = [] ->
             generationPhase C fuel st = Some (Ok g, st1) ->
             runCliCmd C fuel st
             = Some (Ok tt, record (Log Info HappyStaking2) st1)).
  { intros fuel st st1 g Hs Hgen.
    destruct (generationPhase_calls _ _ _ Hgen) as (Hev & _).
    destruct (evolved_keeps Hev) as (Hs1 & _).
    unfold runCliCmd, bind. rewrite Hgen.
    unfold afterGeneration, bind, getFlags. rewrite Hs1, Hs. reflexivity. }
  split; [|split; [reflexivity|split; [reflexivity|split; [|split]]]].
  - intros f a b Ha Hina Hinb Hne.
    rewrite (preRun_run_clients_error _ _ _ f
               (@ambiguous_run_clients _ _ _ Ha Hina Hinb Hne)).
    reflexivity.
  - apply preRun_services_of_all.
  - apply preRun_services_of_none.
  - intros fuel st st1 g Hs Hgen.
    pose proof (Hempty fuel st st1 g Hs Hgen) as Hrun.
    split; [exact Hrun|].
    destruct (runCliCmd_calls _ _ _ Hrun) as (_ & new & Htr & Hall).
    exists new. split; [exact Htr|].
    eapply Forall_impl; [|exact Hall].
    intros ev. now apply allowed_without_services.
Qed.

Lemma run_clients_all_and_none_witness :
  snd (preRunCliCmd Demo.SupportedNetworks Demo.IsAddress
         Demo.ValidateLoggingFlag
         (Demo.custom "mainnet" "" "" ["all"; validator] false true))
  = Some (RunClientsFlagAmbiguousError ["all"; validator])
  /\ services
       (fst (preRunCliCmd Demo.SupportedNetworks Demo.IsAddress
               Demo.ValidateLoggingFlag
               (Demo.custom "mainnet" "" "" ["none"] false true))) = []
  /\ exists st',
      runCliCmd (Demo.collaborators true) 5
        (Demo.start (Demo.custom "mainnet" "" "" [] false true))
      = Some (Ok tt, st')
      /\ hd_error (st_trace st') = Some (Log Info HappyStaking2).
Proof.
  destruct (@run_clients_all_and_none Demo.World unit Demo.SupportedNetworks
              Demo.IsAddress Demo.ValidateLoggingFlag
              (Demo.collaborators true))
    as (T1 & _ & _ & _ & T5 & T6).
  split; [|split].
  - apply (T1 (Demo.custom "mainnet" "" "" ["all"; validator] false true)
             "all" validator).
    + left. reflexivity.
    + simpl. auto.
    + simpl. auto.
    + discriminate.
  - apply T5. reflexivity.
  - destruct (generationPhase (Demo.collaborators true) 5
                (Demo.start (Demo.custom "mainnet" "" "" [] false true)))
      as [[[g|es] st1]|] eqn:E.
    + exists (record (Log Info HappyStaking2) st1).
      split; [|reflexivity].
      exact (proj1 (T6 5 (Demo.start (Demo.custom "mainnet" "" "" [] false
                                       true)) st1 g eq_refl E)).
    + vm_compute in E. discriminate E.
    + vm_compute in E. discriminate E.
Defined.

(** ** Pre-run validation *)

(** C4, as the command has it: a fee recipient that is not empty and
    is not an address makes the command end in [preRunCliCmd], before
    any collaborator is called and with the world as it was (nothing is
    generated, no file is written); the error is
    [InvalidFeeRecipientError] when the run-clients flag and the network
    pass their checks, which come first and report their own error
    otherwise. *)
Theorem malformed_fee_recipient_ends_in_pre_run
  (W OrderedClients : Type) (SupportedNetworks : error + list string)
  (IsAddress : string -> bool) (ValidateLoggingFlag : string -> option error)
  (C : Collaborators W OrderedClients) (fuel : nat) (st : St W) :
  feeRecipient (st_flags st) <> "" ->
  IsAddress (feeRecipient (st_flags st)) = false ->
  exists err,
    CliCmd SupportedNetworks IsAddress ValidateLoggingFlag C fuel st
    = Some (PreRunFatal err,
            mkSt (fst (preRunCliCmd SupportedNetworks IsAddress
                         ValidateLoggingFlag (st_flags st)))
              (st_world st) (st_trace st))
    /\ (forall svcs,
           validateRunClients (services (st_flags st)) = inr svcs ->
           validateNetwork SupportedNetworks (network (st_flags st)) = None ->
           err = InvalidFeeRecipientError).
Proof.
  intros Hne Hbad. unfold CliCmd.
  pose proof (@malformed_fee_recipient IsAddress _ Hne Hbad) as Hfee.
  destruct (validateRunClients (services (st_flags st))) as [e|svcs] eqn:Hs.
  - exists e.
    rewrite (@preRun_run_clients_error SupportedNetworks IsAddress
               ValidateLoggingFlag _ _ Hs).
    simpl. split; [reflexivity | discriminate].
  - destruct (validateNetwork SupportedNetworks (network (st_flags st)))
      as [e|] eqn:Hn.
    + exists e.
      rewrite (@preRun_network_error SupportedNetworks IsAddress
                 ValidateLoggingFlag _ _ _ Hs Hn).
      simpl. split; [reflexivity | congruence].
    + exists InvalidFeeRecipientError.
      rewrite (@preRun_fee_recipient_error SupportedNetworks IsAddress
                 ValidateLoggingFlag _ _ _ Hs Hn Hfee).
      simpl. split; reflexivity.
Qed.

Lemma malformed_fee_recipient_ends_in_pre_run_witness :
  CliCmd Demo.SupportedNetworks Demo.IsAddress Demo.ValidateLoggingFlag
    (Demo.collaborators true) 5
    (Demo.start
       (Demo.custom "mainnet" "0x12" "" [execution; consensus] false true))
  = Some (PreRunFatal InvalidFeeRecipientError,
          Demo.start
            (Demo.custom "mainnet" "0x12" "" [execution; consensus]
               false true)).
Proof.
  destruct (@malformed_fee_recipient_ends_in_pre_run Demo.World unit
              Demo.SupportedNetworks Demo.IsAddress Demo.ValidateLoggingFlag
              (Demo.collaborators true) 5
              (Demo.start
                 (Demo.custom "mainnet" "0x12" "" [execution; consensus]
                    false true)))
    as (err & Hcmd & Herr).
  - discriminate.
  - reflexivity.
  - rewrite Hcmd.
    rewrite (Herr [execution; consensus] eq_refl eq_refl). reflexivity.
Defined.

(** C4 does not hold with [InvalidFeeRecipientError] for every run:
    with an unknown network the error of a malformed fee recipient is
    that of the network. *)
Lemma malformed_fee_recipient_other_error :
  feeRecipient
    (Demo.custom "nonet" "0x12" "" [execution; consensus] false true) <> ""
  /\ Demo.IsAddress "0x12" = false
  /\ snd (preRunCliCmd Demo.SupportedNetworks Demo.IsAddress
            Demo.ValidateLoggingFlag
            (Demo.custom "nonet" "0x12" "" [execution; consensus]
               false true))
     = Some (UnknownNetworkError "nonet")
  /\ UnknownNetworkError "nonet" <> InvalidFeeRecipientError.
Proof.
  repeat split; try discriminate.
Qed.

(** C8, as the command has it: a network that is not among the
    supported ones makes the command end in [preRunCliCmd], before any
    collaborator is called (no client is resolved, nothing is generated)
    and with the world as it was; the error is [UnknownNetworkError] with
    the name of the network when the run-clients flag passes its check,
    which comes first and reports its own error otherwise. *)
Theorem unknown_network_ends_in_pre_run
  (W OrderedClients : Type) (SupportedNetworks : error + list string)
  (IsAddress : string -> bool) (ValidateLoggingFlag : string -> option error)
  (C : Collaborators W OrderedClients) (fuel : nat) (st : St W)
  (networks : list string) :
  SupportedNetworks = inr networks ->
  ~ In (network (st_flags st)) networks ->
  exists err,
    CliCmd SupportedNetworks IsAddress ValidateLoggingFlag C fuel st
    = Some (PreRunFatal err,
            mkSt (fst (preRunCliCmd SupportedNetworks IsAddress
                         ValidateLoggingFlag (st_flags st)))
              (st_world st) (st_trace st))
    /\ (forall svcs,
           validateRunClients (services (st_flags st)) = inr svcs ->
           err = UnknownNetworkError (network (st_flags st))).
Proof.
  intros Hsup Hnot. unfold CliCmd.
  pose proof (@unknown_network _ _ _ Hsup Hnot) as Hn.
  destruct (validateRunClients (services (st_flags st))) as [e|svcs] eqn:Hs.
  - exists e.
    rewrite (@preRun_run_clients_error SupportedNetworks IsAddress
               ValidateLoggingFlag _ _ Hs).
    simpl. split; [reflexivity | discriminate].
  - exists (UnknownNetworkError (network (st_flags st))).
    rewrite (@preRun_network_error SupportedNetworks IsAddress
               ValidateLoggingFlag _ _ _ Hs Hn).
    simpl. split; reflexivity.
Qed.

Lemma unknown_network_ends_in_pre_run_witness :
  CliCmd Demo.SupportedNetworks Demo.IsAddress Demo.ValidateLoggingFlag
    (Demo.collaborators true) 5
    (Demo.start
       (Demo.custom "nonet" "" "" [execution; consensus] false true))
  = Some (PreRunFatal (UnknownNetworkError "nonet"),
          Demo.start
            (Demo.custom "nonet" "" "" [execution; consensus] false true)).
Proof.
  destruct (@unknown_network_ends_in_pre_run Demo.World unit
              Demo.SupportedNetworks Demo.IsAddress Demo.ValidateLoggingFlag
              (Demo.collaborators true) 5
              (Demo.start
                 (Demo.custom "nonet" "" "" [execution; consensus]
                    false true))
              ["mainnet"; "goerli"; "sepolia"; "gnosis"; "chiado"])
    as (err & Hcmd & Herr).
  - reflexivity.
  - simpl. intros [H|[H|[H|[H|[H|[]]]]]]; discriminate H.
  - rewrite Hcmd. rewrite (Herr [execution; consensus] eq_refl).
    reflexivity.
Defined.

(** C8 does not hold with the unknown-network error for every run:
    with an ambiguous run-clients flag the error of an unknown network is
    that of the flag. *)
Lemma unknown_network_other_error :
  ~ In (network (Demo.custom "nonet" "" "" ["all"; "none"] false true))
      ["mainnet"; "goerli"; "sepolia"; "gnosis"; "chiado"]
  /\ snd (preRunCliCmd Demo.SupportedNetworks Demo.IsAddress
            Demo.ValidateLoggingFlag
            (Demo.custom "nonet" "" "" ["all"; "none"] false true))
     = Some (RunClientsFlagAmbiguousError ["all"; "none"])
  /\ RunClientsFlagAmbiguousError ["all"; "none"]
     <> UnknownNetworkError "nonet".
Proof.
  repeat split; try discriminate.
  simpl. intros [H|[H|[H|[H|[H|[]]]]]]; discriminate H.
Qed.

(** ** The JWT secret path *)

Lemma preRun_result
  (SupportedNetworks : error + list string) (IsAddress : string -> bool)
  (ValidateLoggingFlag : string -> option error) (f : Flags) :
  snd (preRunCliCmd SupportedNetworks IsAddress ValidateLoggingFlag f)
  = match validateRunClients (services f) with
    | inl err => Some err
    | inr _ =>
        match validateNetwork SupportedNetworks (network f) with
        | Some err => Some err
        | None =>
            match validateFeeRecipient IsAddress (feeRecipient f) with
            | Some err => Some err
            | None => ValidateLoggingFlag (loggingFlag f)
            end
        end
    end.
Proof.
  unfold preRunCliCmd.
  destruct (quickRun_keeps f) as (Hq & _). rewrite Hq.
  destruct (validateRunClients (services f)) as [e|svcs]; [reflexivity|].
  fold (afterRunClients svcs f).
  destruct (afterRunClients_keeps svcs f) as (K1 & K2 & _).
  rewrite K1, K2.
  destruct (validateNetwork SupportedNetworks (network f)); [reflexivity|].
  destruct (validateFeeRecipient IsAddress (feeRecipient f)); [reflexivity|].
  simpl. f_equal.
  unfold prepareCustomImages, afterRunClients, excludeValidator, quickRun.
  repeat match goal with
         | |- context [if ?b then _ else _] => destruct b
         end; reflexivity.
Qed.

Lemma jwtSecret_errors {W OrderedClients : Type}
  (C : Collaborators W OrderedClients) (st st' : St W) (es : list error) :
  jwtPath (st_flags st) <> "" ->
  jwtSecret C st = Some (Err es, st') ->
  exists e,
    es = [e] /\ snd (c_filepath_Abs C (jwtPath (st_flags st))) = Some e.
Proof.
  intros Hne. unfold jwtSecret, bind, getFlags, modifyFlags, check.
  destruct (jwtPath (st_flags st) =? "") eqn:He.
  - apply String.eqb_eq in He. contradiction.
  - simpl. destruct (filepath.IsAbs (jwtPath (st_flags st))).
    + destruct (snd (c_filepath_Abs C (jwtPath (st_flags st)))) as [e|].
      * intros E. injection E as <- _. now exists e.
      * discriminate.
    + discriminate.
Qed.

(** C3, as the command has it: a JWT secret path that is supplied is
    not validated.  What [preRunCliCmd] returns does not depend on it,
    and the JWT step of [runCliCmd] returns an error only when
    [filepath.Abs] returns one; the command has no error for an invalid
    option. *)
Theorem jwt_path_is_not_validated
  (W OrderedClients : Type) (SupportedNetworks : error + list string)
  (IsAddress : string -> bool) (ValidateLoggingFlag : string -> option error)
  (C : Collaborators W OrderedClients) (st : St W) :
  jwtPath (st_flags st) <> "" ->
  (forall path,
      snd (preRunCliCmd SupportedNetworks IsAddress ValidateLoggingFlag
             (set_jwtPath path (st_flags st)))
      = snd (preRunCliCmd SupportedNetworks IsAddress ValidateLoggingFlag
               (st_flags st)))
  /\ (forall es st',
         jwtSecret C st = Some (Err es, st') ->
         exists e,
           es = [e]
           /\ snd (c_filepath_Abs C (jwtPath (st_flags st))) = Some e).
Proof.
  intros Hne. split.
  - intros path. rewrite !preRun_result. reflexivity.
  - intros es st'. now apply jwtSecret_errors.
Qed.

Lemma jwt_path_is_not_validated_witness :
  snd (preRunCliCmd Demo.SupportedNetworks Demo.IsAddress
         Demo.ValidateLoggingFlag
         (set_jwtPath "/etc/jwt.hex"
            (Demo.custom "mainnet" "" "jwt.hex" [execution; consensus]
               false true)))
  = snd (preRunCliCmd Demo.SupportedNetworks Demo.IsAddress
           Demo.ValidateLoggingFlag
           (Demo.custom "mainnet" "" "jwt.hex" [execution; consensus]
              false true)).
Proof.
  apply (proj1 (@jwt_path_is_not_validated Demo.World unit
                  Demo.SupportedNetworks Demo.IsAddress
                  Demo.ValidateLoggingFlag (Demo.collaborators true)
                  (Demo.start
                     (Demo.custom "mainnet" "" "jwt.hex"
                        [execution; consensus] false true))
                  ltac:(discriminate))).
Defined.

(** C3 does not hold as the specification states it: with the
    relative path [jwt.hex] the command succeeds, and the path reaches
    the generation as it was given. *)
Lemma relative_jwt_path_is_accepted :
  filepath.IsAbs "jwt.hex" = false
  /\ exists st',
      CliCmd Demo.SupportedNetworks Demo.IsAddress Demo.ValidateLoggingFlag
        (Demo.collaborators true) 5
        (Demo.start
           (Demo.custom "mainnet" "" "jwt.hex" [execution; consensus]
              false true))
      = Some (Succeeded, st')
      /\ exists gd,
          In (CallGenerateScripts gd) (st_trace st')
          /\ generate.JWTSecretPath gd = "jwt.hex".
Proof.
  split; [reflexivity|].
  destruct (CliCmd Demo.SupportedNetworks Demo.IsAddress
              Demo.ValidateLoggingFlag (Demo.collaborators true) 5
              (Demo.start
                 (Demo.custom "mainnet" "" "jwt.hex" [execution; consensus]
                    false true))) as [[out st']|] eqn:E;
    vm_compute in E; [|discriminate E].
  injection E as <- <-.
  eexists. split; [reflexivity|].
  eexists. split; [repeat (first [left; reflexivity | right]) | reflexivity].
Qed.

(** ** The Sync Tracker in the command *)






(** ** The cleanup pass, on both documents *)

(** C6: the cleanup pass of the Generation Pipeline (the lines [KEY=]
    removed, then the runs of blank lines brought to one line, the same
    for the environment document and for the manifest) gives, applied
    twice, what it gives applied once. *)
Theorem CleanGenerated_idempotent (docs : string * string) :
  cleanup.CleanGenerated (cleanup.CleanGenerated docs)
  = cleanup.CleanGenerated docs.
Proof.
  unfold cleanup.CleanGenerated. simpl.
  now rewrite !cleanDocument_twice.
Qed.

(** ** The relay of the goerli template *)




(* ===================================================================== *)
(** * More properties of the command *)
(* ===================================================================== *)

(** ** Clients with a docker image *)

Lemma Join_Split (s : string) (c : ascii) :
  strings.Join (strings.Split s c) (String c EmptyString) = s.
Proof.
  unfold strings.Join. induction s as [|c0 s IH]; simpl; [reflexivity|].
  destruct (Ascii.eqb c0 c) eqn:Hc.
  - apply Ascii.eqb_eq in Hc. subst c0.
    destruct (strings.Split s c) as [|p ps] eqn:E.
    + now apply Split_not_nil in E.
    + simpl in *. now rewrite IH.
  - destruct (strings.Split s c) as [|p ps] eqn:E.
    + now apply Split_not_nil in E.
    + destruct ps as [|q qs]; simpl in *; now rewrite IH.
Qed.

Lemma Split_head_without (s : string) (c : ascii) :
  holds_char c (hd EmptyString (strings.Split s c)) = false.
Proof.
  induction s as [|c0 s IH]; simpl; [reflexivity|].
  destruct (Ascii.eqb c0 c) eqn:Hc; [reflexivity|].
  destruct (strings.Split s c) as [|p ps]; simpl in *; now rewrite Hc.
Qed.

Lemma Split_without (s : string) (c : ascii) :
  holds_char c s = false -> strings.Split s c = [s].
Proof.
  induction s as [|c0 s IH]; simpl; [reflexivity|].
  intros H. apply Bool.orb_false_iff in H. destruct H as [Hc Hs].
  rewrite Hc, (IH Hs). reflexivity.
Qed.

Lemma Split_with (s : string) (c : ascii) :
  holds_char c s = true -> tl (strings.Split s c) <> [].
Proof.
  induction s as [|c0 s IH]; simpl; [discriminate|].
  destruct (Ascii.eqb c0 c) eqn:Hc; simpl.
  - intros _. apply Split_not_nil.
  - intros Hs. specialize (IH Hs).
    destruct (strings.Split s c) as [|p ps]; simpl in *; assumption.
Qed.

Lemma client_flag_split (flag : string) :
  split_at_colon flag (clientName flag) (clientImage flag).
Proof.
  unfold split_at_colon, clientName, clientImage. split.
  - apply Split_head_without.
  - destruct (holds_char colon flag) eqn:Hc.
    + pose proof (Split_with flag colon Hc) as Htl.
      pose proof (Join_Split flag colon) as Hjoin.
      unfold strings.Join in *.
      destruct (strings.Split flag colon) as [|name [|image rest]];
        simpl in *; try contradiction.
      now rewrite <- Hjoin at 1.
    + rewrite (Split_without flag colon Hc). split; reflexivity.
Qed.

(** X1: a client flag [<CLIENT>:<DOCKER_IMAGE>] is cut at its first
    colon.  After lines 149-164 the name of a client given on the command
    line holds no colon; the flag is the name, a colon and the image when
    it holds a colon (the image keeps its own colons), and the name alone
    with an empty image when it holds none.  A client that is not given
    keeps its name and its image. *)
Theorem custom_images_are_split (f : Flags) :
  (executionName f <> "" ->
   split_at_colon (executionName f)
     (executionName (prepareCustomImages f))
     (executionImage (prepareCustomImages f)))
  /\ (consensusName f <> "" ->
      split_at_colon (consensusName f)
        (consensusName (prepareCustomImages f))
        (consensusImage (prepareCustomImages f)))
  /\ (validatorName f <> "" ->
      split_at_colon (validatorName f)
        (validatorName (prepareCustomImages f))
        (validatorImage (prepareCustomImages f)))
  /\ (executionName f = "" ->
      executionName (prepareCustomImages f) = ""
      /\ executionImage (prepareCustomImages f) = executionImage f)
  /\ (consensusName f = "" ->
      consensusName (prepareCustomImages f) = ""
      /\ consensusImage (prepareCustomImages f) = consensusImage f)
  /\ (validatorName f = "" ->
      validatorName (prepareCustomImages f) = ""
      /\ validatorImage (prepareCustomImages f) = validatorImage f).
Proof.
  unfold prepareCustomImages.
  destruct (executionName f =? "") eqn:He;
    destruct (consensusName f =? "") eqn:Hc;
    destruct (validatorName f =? "") eqn:Hv;
    simpl; rewrite ?Hc, ?Hv; simpl; rewrite ?Hv; simpl;
    repeat match goal with
           | H : (_ =? "") = true |- _ => apply String.eqb_eq in H
           | H : (_ =? "") = false |- _ => apply String.eqb_neq in H
           end;
    repeat split; intros; try contradiction; try congruence;
    try apply client_flag_split.
Qed.

Lemma custom_images_are_split_witness :
  executionName
    (prepareCustomImages
       (Demo.custom "mainnet" "" "" [execution; consensus] false true))
  = ""
  /\ split_at_colon "geth:ethereum/client-go:v1.10" "geth"
       "ethereum/client-go:v1.10".
Proof.
  split.
  - exact (proj1 (proj1 (proj2 (proj2 (proj2
             (custom_images_are_split
                (Demo.custom "mainnet" "" "" [execution; consensus]
                   false true))))) eq_refl)).
  - exact (proj1 (custom_images_are_split
                    (set_execution "geth:ethereum/client-go:v1.10" ""
                       (Demo.custom "mainnet" "" ""
                          [execution; consensus] false true)))
             ltac:(discriminate)).
Defined.

(** ** The run-clients list after the pre-run *)

Lemma validateRunClients_roles (svcs l : list string) :
  validateRunClients svcs = inr l -> Forall (fun s => In s roles) l.
Proof.
  unfold validateRunClients.
  destruct (utils.Contains svcs "all").
  - destruct (Nat.eqb (List.length svcs) 1); [|discriminate].
    intros E. injection E as <-. apply Forall_forall. auto.
  - destruct (utils.Contains svcs "none").
    + destruct (Nat.eqb (List.length svcs) 1); [|discriminate].
      intros E. injection E as <-. constructor.
    + destruct (utils.ContainsOnly svcs [execution; consensus; validator])
        eqn:Hall; [|discriminate].
      intros E. injection E as <-.
      unfold utils.ContainsOnly in Hall. rewrite forallb_forall in Hall.
      apply Forall_forall. intros s Hs. now apply Contains_In, Hall.
Qed.

(** X2: when [preRunCliCmd] returns no error, every value it leaves in
    run-clients is the name of a service: [all] and [none] are gone, an
    unknown value was refused, and [validator] stays only without
    [--no-validator]. *)
Theorem pre_run_leaves_services
  (SupportedNetworks : error + list string) (IsAddress : string -> bool)
  (ValidateLoggingFlag : string -> option error) (f : Flags) :
  snd (preRunCliCmd SupportedNetworks IsAddress ValidateLoggingFlag f) = None ->
  Forall (fun s => s = execution \/ s = consensus
                   \/ (s = validator /\ noValidator f = false))
    (services
       (fst (preRunCliCmd SupportedNetworks IsAddress ValidateLoggingFlag
               f))).
Proof.
  intros Hok.
  destruct (preRun_keeps_no_validator _ _ _ _ Hok) as (_ & Hnot).
  destruct (preRun_success _ _ _ _ Hok) as (svcs & Hs & _ & _ & Hfst).
  rewrite Hfst in *.
  rewrite (proj1 (prepareCustomImages_keeps _)) in *.
  assert (Hroles : Forall (fun s => In s roles)
                     (services (afterRunClients svcs f))).
  { unfold afterRunClients, excludeValidator.
    pose proof (validateRunClients_roles _ Hs) as Hr.
    destruct (_ && _); simpl; [|exact Hr].
    unfold utils.Filter. rewrite Forall_forall in *.
    intros s Hin. apply filter_In in Hin. now apply Hr. }
  rewrite Forall_forall in *. intros s Hin.
  specialize (Hroles s Hin). simpl in Hroles.
  destruct Hroles as [<-|[<-|[<-|[]]]]; auto.
  right. right. split; [reflexivity|].
  destruct (noValidator f) eqn:Hv; [|reflexivity].
  exfalso. now apply Hnot.
Qed.

Lemma pre_run_leaves_services_witness :
  Forall (fun s => s = execution \/ s = consensus
                   \/ (s = validator /\ false = false))
    (services
       (fst (preRunCliCmd Demo.SupportedNetworks Demo.IsAddress
               Demo.ValidateLoggingFlag
               (Demo.custom "mainnet" "" "" ["all"] false true)))).
Proof.
  exact (pre_run_leaves_services Demo.SupportedNetworks Demo.IsAddress
           Demo.ValidateLoggingFlag
           (Demo.custom "mainnet" "" "" ["all"] false true) eq_refl).
Defined.

(** ** The calls of lines 174-281 *)

Lemma wp_after {W A B : Type} (I : St W -> Prop) (m : M W A)
  (k : A -> M W B) (Q : Res B -> St W -> Prop) (st : St W) :
  wp m (fun _ st' => I st') st ->
  (forall a st', I st' -> wp (k a) Q st') ->
  (forall es st', I st' -> Q (Err es) st') ->
  wp (bind m k) Q st.
Proof.
  intros Hm Hk He. apply wp_bind. eapply wp_mono; [exact Hm|].
  intros [a|es] st' HI; auto.
Qed.

Lemma set_jwtPath_same (f : Flags) : set_jwtPath (jwtPath f) f = f.
Proof. now destruct f. Qed.

Lemma set_feeRecipient_same (f : Flags) :
  set_feeRecipient (feeRecipient f) f = f.
Proof. now destruct f. Qed.

Lemma settled_evolved {W OrderedClients : Type}
  (C : Collaborators W OrderedClients) (f0 f : Flags) :
  settled C f0 f -> evolved f0 f.
Proof. intros (path & addr & E & _). now exists path, addr. Qed.

Lemma settled_keeps {W OrderedClients : Type}
  (C : Collaborators W OrderedClients) (f0 f : Flags) :
  settled C f0 f ->
  install f = install f0 /\ y f = y f0 /\ run f = run f0
  /\ services f = services f0.
Proof. intros (path & addr & -> & _). repeat split. Qed.

Section Preparation.

Variables W OrderedClients : Type.
Variable C : Collaborators W OrderedClients.
Variable f0 : Flags.
Variable tr0 : list Event.

Lemma following_moved (R : Flags -> Prop) (st : St W) (w : W) (ev : Event) :
  prepares C f0 ev ->
  following R C f0 tr0 st -> following R C f0 tr0 (moved w ev st).
Proof.
  intros Hev (HR & new & Htr & Hall). split; [exact HR|].
  exists (ev :: new). simpl. rewrite Htr. split; [reflexivity|].
  now constructor.
Qed.

Lemma following_record (R : Flags -> Prop) (st : St W) (ev : Event) :
  prepares C f0 ev ->
  following R C f0 tr0 st -> following R C f0 tr0 (record ev st).
Proof. apply following_moved. Qed.

Lemma following_assigned (R R' : Flags -> Prop) (st : St W)
  (g : Flags -> Flags) :
  R' (g (st_flags st)) ->
  following R C f0 tr0 st -> following R' C f0 tr0 (assigned g st).
Proof. intros Hg (_ & Hnew). split; assumption. Qed.

Lemma following_weaken (R R' : Flags -> Prop) (st : St W) :
  (forall f, R f -> R' f) ->
  following R C f0 tr0 st -> following R' C f0 tr0 st.
Proof. intros HR (H & Hnew). split; auto. Qed.

Ltac following_step :=
  lazymatch goal with
  | |- following ?R _ _ _ (record ?ev ?st) =>
      apply (@following_record R st ev); [simpl; auto |]
  | |- following ?R _ _ _ (moved ?w ?ev ?st) =>
      apply (@following_moved R st w ev); [simpl; auto |]
  end.

Ltac following_tac :=
  repeat first [ assumption | eassumption | following_step ].

Ltac prepare_block :=
  repeat first [ wp_step | wp_case | progress following_tac ].

Lemma warnings_prepares (st : St W) :
  following (eq f0) C f0 tr0 st ->
  wp warnings (fun _ st' => following (eq f0) C f0 tr0 st') st.
Proof.
  intros H. pose proof (proj1 H) as Hf. simpl in Hf.
  unfold warnings. do 2 wp_step. rewrite <- Hf. prepare_block.
Qed.

Lemma resolveClients_prepares (st : St W) :
  following (eq f0) C f0 tr0 st ->
  wp (resolveClients C) (fun _ st' => following (eq f0) C f0 tr0 st') st.
Proof.
  intros H. unfold resolveClients.
  assert (prepares C f0 (CallClients (network (st_flags st)) roles)).
  { simpl. now rewrite <- (proj1 H). }
  prepare_block.
Qed.

Lemma installPending_prepares (fuel : nat) :
  forall st : St W,
    following (eq f0) C f0 tr0 st ->
    wp (installPending C fuel (c_GetDependencies C))
      (fun _ st' => following (eq f0) C f0 tr0 st') st.
Proof.
  induction fuel as [|fuel IH]; intros st H; simpl.
  - apply wp_diverge.
  - assert (prepares C f0 (CallCheckDependencies (c_GetDependencies C)))
      by reflexivity.
    do 2 wp_step. wp_case as Hpending; [prepare_block|].
    do 4 wp_step. apply wp_seq.
    + wp_case as Hinstall.
      * assert (prepares C f0 (CallInstallDependencies (s :: l))).
        { simpl. rewrite (proj1 H). split; [exact Hinstall|discriminate]. }
        prepare_block.
      * assert (prepares C f0 (CallInstallOrShowInstructions (s :: l))).
        { simpl. rewrite (proj1 H). split; [exact Hinstall|discriminate]. }
        prepare_block.
    + intros _ st' H'. now apply IH.
Qed.

Lemma checkDependencies_prepares (fuel : nat) (st : St W) :
  following (eq f0) C f0 tr0 st ->
  wp (checkDependencies C fuel)
    (fun _ st' => following (eq f0) C f0 tr0 st') st.
Proof.
  intros H. unfold checkDependencies. do 2 wp_step. apply wp_seq.
  - apply installPending_prepares. following_tac.
  - intros _ st' H'. prepare_block.
Qed.

Ltac following_assign :=
  lazymatch goal with
  | |- following ?R' _ _ _ (assigned ?g ?st) =>
      eapply (@following_assigned _ R' st g)
  end.

Lemma jwtSecret_prepares (st : St W) :
  following (eq f0) C f0 tr0 st ->
  wp (jwtSecret C)
    (fun _ st' =>
       following (fun f => exists path,
                      f = set_jwtPath path f0 /\ jwt_settled C f0 path)
         C f0 tr0 st') st.
Proof.
  intros H. pose proof (proj1 H) as Hf. simpl in Hf. unfold jwtSecret.
  do 2 wp_step. rewrite <- Hf.
  destruct ((jwtPath f0 =? "") && c_RequireJWT C (network f0)) eqn:Hcond.
  - assert (prepares C f0 CallHandleJWTSecret).
    { simpl. apply andb_prop in Hcond. destruct Hcond as [He Hr].
      apply String.eqb_eq in He. now split. }
    assert (Hany : forall path, jwt_settled C f0 path).
    { intros path. unfold jwt_settled. now rewrite Hcond. }
    assert (H' : following
                   (fun f => exists path,
                        f = set_jwtPath path f0 /\ jwt_settled C f0 path)
                   C f0 tr0 st).
    { eapply following_weaken; [|exact H].
      intros f <-. exists (jwtPath f0).
      split; [now rewrite set_jwtPath_same | apply Hany]. }
    do 2 wp_step. wp_case.
    + wp_step. following_tac.
    + wp_step. following_assign.
      * simpl. rewrite <- Hf. eexists. split; [reflexivity | apply Hany].
      * following_tac.
  - destruct (filepath.IsAbs (jwtPath f0)) eqn:Habs.
    + assert (Hset : following
                       (fun f => exists path,
                            f = set_jwtPath path f0
                            /\ jwt_settled C f0 path) C f0 tr0
                       (assigned
                          (set_jwtPath
                             (fst (c_filepath_Abs C (jwtPath f0)))) st)).
      { following_assign; [|exact H].
        simpl. rewrite <- Hf. eexists. split; [reflexivity|].
        unfold jwt_settled. now rewrite Hcond, Habs. }
      prepare_block.
    + wp_step. eapply following_weaken; [|exact H].
      intros f <-. exists (jwtPath f0).
      split; [now rewrite set_jwtPath_same|].
      unfold jwt_settled. now rewrite Hcond, Habs.
Qed.

Lemma askFeeRecipient_prepares (st : St W) :
  following (fun f => exists path,
                 f = set_jwtPath path f0 /\ jwt_settled C f0 path)
    C f0 tr0 st ->
  wp (askFeeRecipient C)
    (fun _ st' => following (settled C f0) C f0 tr0 st') st.
Proof.
  intros H. destruct (proj1 H) as (path & Hf & Hjwt).
  unfold askFeeRecipient. do 2 wp_step. rewrite Hf.
  change (y (set_jwtPath path f0)) with (y f0).
  change (feeRecipient (set_jwtPath path f0)) with (feeRecipient f0).
  assert (Hkept : fee_settled f0 (feeRecipient f0) ->
                  following (settled C f0) C f0 tr0 st).
  { intros Hfee. eapply following_weaken; [|exact H].
    intros f (p & -> & Hp). exists p, (feeRecipient f0).
    split; [|split; [exact Hp | exact Hfee]].
    now rewrite <- (set_feeRecipient_same (set_jwtPath p f0)) at 1. }
  destruct (negb (y f0) && (feeRecipient f0 =? "")) eqn:Hcond.
  - assert (prepares C f0 CallFeeRecipientPrompt).
    { simpl. apply andb_prop in Hcond. destruct Hcond as [Hy He].
      apply Bool.negb_true_iff in Hy. apply String.eqb_eq in He.
      now split. }
    assert (Hany : forall addr, fee_settled f0 addr).
    { intros addr. unfold fee_settled. now rewrite Hcond. }
    specialize (Hkept (Hany _)).
    do 2 wp_step. wp_case.
    + wp_step. following_tac.
    + wp_step. following_assign.
      * simpl. rewrite Hf. exists path, s.
        split; [reflexivity | split; [exact Hjwt | apply Hany]].
      * following_tac.
  - wp_step. apply Hkept. unfold fee_settled. now rewrite Hcond.
Qed.

End Preparation.

(** The calls a state adds to another: the list [l] without its tail
    [base]. *)
Ltac trace_prefix l base :=
  lazymatch l with
  | base => constr:(@nil Event)
  | ?ev :: ?l' => let p := trace_prefix l' base in constr:(ev :: p)
  end.

Lemma prepared_from {W OrderedClients : Type}
  (C : Collaborators W OrderedClients) (f0 : Flags) (tr0 : list Event)
  (st st' : St W) (evs : list Event)
  (r : Res (clients.Clients * generate.GenerationResults)) :
  following (settled C f0) C f0 tr0 st ->
  st_flags st' = st_flags st ->
  st_trace st' = evs ++ st_trace st ->
  Forall (prepares C f0) evs ->
  match r with
  | Ok g =>
      (exists cc, fst g = applyFlags (st_flags st) cc)
      /\ In (CallGenerateScripts (generationData C (st_flags st) (fst g)))
           evs
      /\ In (CallCleanGenerated (snd g)) evs
  | Err _ => True
  end ->
  prepared C f0 tr0 r st'.
Proof.
  intros (Hset & new & Htr & Hall) Hf Htr' Hevs Hr.
  exists (evs ++ new). rewrite Htr', Htr, app_assoc.
  split; [reflexivity|]. split; [now apply Forall_app|].
  destruct r as [g|es]; [|exact I].
  rewrite Hf. destruct Hr as (Hcc & Hgen & Hclean).
  repeat split; try assumption; apply in_or_app; now left.
Qed.

Ltac prepared_leaf st H :=
  lazymatch goal with
  | |- prepared _ _ _ ?r ?st' =>
      let t := eval cbn [st_trace moved record assigned] in (st_trace st') in
      let p := trace_prefix t (st_trace st) in
      apply (@prepared_from _ _ _ _ _ st st' p r H);
      [ reflexivity | reflexivity | repeat constructor; simpl; auto | ]
  end.

Lemma generateScripts_prepared {W OrderedClients : Type}
  (C : Collaborators W OrderedClients) (f0 : Flags) (tr0 : list Event)
  (cc : clients.Clients) (st : St W) :
  following (settled C f0) C f0 tr0 st ->
  wp (generateScripts C cc) (prepared C f0 tr0) st.
Proof.
  intros H. unfold generateScripts. do 2 wp_step. cbv zeta.
  assert (Hgd : prepares C f0
                  (CallGenerateScripts
                     (generationData C (st_flags st)
                        (applyFlags (st_flags st) cc)))).
  { exists (st_flags st), cc. split; [exact (proj1 H) | reflexivity]. }
  repeat first [wp_step | wp_case]; prepared_leaf st H; try exact I.
  simpl. split; [now exists cc|]. auto 10.
Qed.

Lemma prepared_error {W OrderedClients : Type}
  (C : Collaborators W OrderedClients) (f0 : Flags) (tr0 : list Event)
  (R : Flags -> Prop) (es : list error) (st : St W) :
  following R C f0 tr0 st -> prepared C f0 tr0 (Err es) st.
Proof.
  intros (Hf & new & Htr & Hall). exists new. repeat split; assumption.
Qed.

(** Lines 189-281, the warnings being logged. *)
Lemma afterWarnings_prepared {W OrderedClients : Type}
  (C : Collaborators W OrderedClients) (fuel : nat) (f0 : Flags)
  (tr0 : list Event) (st : St W) :
  following (eq f0) C f0 tr0 st ->
  wp (cc <- resolveClients C ;;
      checkDependencies C fuel ;;
      jwtSecret C ;;
      askFeeRecipient C ;;
      generateScripts C cc) (prepared C f0 tr0) st.
Proof.
  intros H1.
  apply (wp_after (following (eq f0) C f0 tr0));
    [now apply resolveClients_prepares | intros cc st2 H2
    | intros es st2 H2; now apply (@prepared_error _ _ C f0 tr0 (eq f0))].
  apply (wp_after (following (eq f0) C f0 tr0));
    [now apply checkDependencies_prepares | intros _ st3 H3
    | intros es st3 H3; now apply (@prepared_error _ _ C f0 tr0 (eq f0))].
  eapply wp_after;
    [apply jwtSecret_prepares; exact H3 | intros _ st4 H4
    | intros es st4 H4; eapply prepared_error; exact H4].
  eapply wp_after;
    [apply askFeeRecipient_prepares; exact H4 | intros _ st5 H5
    | intros es st5 H5;
      now apply (@prepared_error _ _ C f0 tr0 (settled C f0))].
  now apply generateScripts_prepared.
Qed.

Lemma generationPhase_prepared {W OrderedClients : Type}
  (C : Collaborators W OrderedClients) (fuel : nat) (st st' : St W)
  (r : Res (clients.Clients * generate.GenerationResults)) :
  generationPhase C fuel st = Some (r, st') ->
  prepared C (st_flags st) (st_trace st) r st'.
Proof.
  intros E.
  set (f0 := st_flags st). set (tr0 := st_trace st).
  assert (H0 : following (eq f0) C f0 tr0 st).
  { split; [reflexivity|]. exists []. split; [reflexivity|constructor]. }
  assert (H : wp (generationPhase C fuel) (prepared C f0 tr0) st).
  { unfold generationPhase.
    apply (wp_after (following (eq f0) C f0 tr0));
      [exact (@warnings_prepares _ _ C f0 tr0 st H0)
      | intros _ st1 H1
      | intros es st1 H1;
        now apply (@prepared_error _ _ C f0 tr0 (eq f0))].
    now apply afterWarnings_prepared. }
  exact (wp_elim _ _ _ H E).
Qed.

(** ** The calls of lines 283-336 *)

Lemma finished_from {W : Type} (st st' : St W) (cc : clients.Clients)
  (results : generate.GenerationResults) (evs : list Event) :
  st_flags st' = st_flags st ->
  st_trace st' = evs ++ st_trace st ->
  Forall (finishes (st_flags st) cc results) evs ->
  validator_after_sync (services (st_flags st)) evs ->
  finished st cc results st'.
Proof. intros Hf Htr Hall Hsync. split; [exact Hf|]. now exists evs. Qed.

Ltac finished_leaf st :=
  lazymatch goal with
  | |- finished _ ?cc ?results ?st' =>
      let t := eval cbn [st_trace moved record assigned] in (st_trace st') in
      let p := trace_prefix t (st_trace st) in
      apply (@finished_from _ st st' cc results p);
      [ reflexivity | reflexivity
      | cbn [st_flags moved record assigned] in *;
        repeat match goal with
               | H : (_ =? _) = true |- _ => apply String.eqb_eq in H
               | H : negb _ = true |- _ => apply Bool.negb_true_iff in H
               end;
        repeat first [apply Forall_cons | apply Forall_nil];
        simpl; unfold validator_apart; auto 10
      | cbn [st_flags moved record assigned] in *; simpl; auto 10 ]
  end.

Lemma afterGeneration_finished {W OrderedClients : Type}
  (C : Collaborators W OrderedClients) (cc : clients.Clients)
  (results : generate.GenerationResults) (st st' : St W) (r : Res unit) :
  afterGeneration C cc results st = Some (r, st') ->
  finished st cc results st'.
Proof.
  intros E.
  assert (H : wp (afterGeneration C cc results)
                (fun _ st' => finished st cc results st') st).
  { unfold afterGeneration, validatorStage, trackThenStartValidator,
      startValidator.
    repeat first [wp_step | wp_case]; finished_leaf st. }
  exact (wp_elim _ _ _ H E).
Qed.

(** ** The two phases of a run *)

Lemma runCliCmd_phases {W OrderedClients : Type}
  (C : Collaborators W OrderedClients) (fuel : nat) (st st' : St W)
  (r : Res unit) :
  runCliCmd C fuel st = Some (r, st') ->
  exists gen after,
    st_trace st' = after ++ gen ++ st_trace st
    /\ Forall (prepares C (st_flags st)) gen
    /\ ((after = [] /\ exists es, r = Err es)
        \/ exists cc results,
            settled C (st_flags st) (st_flags st')
            /\ In (CallGenerateScripts
                     (generationData C (st_flags st') cc)) gen
            /\ In (CallCleanGenerated results) gen
            /\ Forall (finishes (st_flags st') cc results) after
            /\ validator_after_sync (services (st_flags st')) after).
Proof.
  unfold runCliCmd, bind.
  destruct (generationPhase C fuel st) as [[[g|es] st1]|] eqn:Eg;
    [| |discriminate].
  - intros Ea.
    destruct (generationPhase_prepared _ _ _ Eg)
      as (gen & Htr & Hall & Hset & _ & Hgen & Hclean).
    destruct (afterGeneration_finished _ _ _ _ Ea)
      as (Hf & after & Htr' & Hfin & Hsync).
    exists gen, after. rewrite Htr', Htr. split; [reflexivity|].
    split; [exact Hall|]. right. exists (fst g), (snd g).
    rewrite Hf. repeat split; assumption.
  - intros E. injection E as <- <-.
    destruct (generationPhase_prepared _ _ _ Eg) as (gen & Htr & Hall & _).
    exists gen, []. split; [exact Htr|]. split; [exact Hall|].
    left. split; [reflexivity|]. now exists es.
Qed.

(** The calls of a run, each with what its phase says of it. *)
Lemma runCliCmd_each_call {W OrderedClients : Type}
  (C : Collaborators W OrderedClients) (fuel : nat) (st st' : St W)
  (r : Res unit) :
  runCliCmd C fuel st = Some (r, st') ->
  exists new,
    st_trace st' = new ++ st_trace st
    /\ Forall (fun ev =>
                 prepares C (st_flags st) ev
                 \/ exists f cc results,
                     settled C (st_flags st) f
                     /\ In (CallGenerateScripts (generationData C f cc)) new
                     /\ In (CallCleanGenerated results) new
                     /\ finishes f cc results ev) new.
Proof.
  intros E.
  destruct (runCliCmd_phases _ _ _ E) as (gen & after & Htr & Hgen & Hafter).
  exists (after ++ gen). rewrite Htr, app_assoc. split; [reflexivity|].
  apply Forall_app. split.
  - destruct Hafter as [(-> & _) | (cc & results & Hset & Hg & Hc & Hfin & _)];
      [constructor|].
    eapply Forall_impl; [|exact Hfin].
    intros ev Hev. right. exists (st_flags st'), cc, results.
    repeat split; try assumption; apply in_or_app; now right.
  - eapply Forall_impl; [|exact Hgen]. intros ev Hev. now left.
Qed.

(** ** The quick run *)

Lemma preRun_quick
  (SupportedNetworks : error + list string) (IsAddress : string -> bool)
  (ValidateLoggingFlag : string -> option error) (f : Flags) :
  snd (preRunCliCmd SupportedNetworks IsAddress ValidateLoggingFlag f) = None ->
  y f = true ->
  y (fst (preRunCliCmd SupportedNetworks IsAddress ValidateLoggingFlag f))
  = true
  /\ install
       (fst (preRunCliCmd SupportedNetworks IsAddress ValidateLoggingFlag f))
     = true
  /\ run (fst (preRunCliCmd SupportedNetworks IsAddress ValidateLoggingFlag
                 f))
     = true.
Proof.
  intros Hok Hy.
  destruct (preRun_success _ _ _ _ Hok) as (svcs & _ & _ & _ & ->).
  unfold prepareCustomImages, afterRunClients, excludeValidator, quickRun.
  rewrite Hy.
  repeat match goal with
         | |- context [if ?b then _ else _] => destruct b
         end; repeat split; assumption.
Qed.

(** X3: with [--yes] the command asks nothing.  In every run of the
    command with [-y], pre-run and run together, no call is one of
    those that wait for the user: [installOrShowInstructions],
    [feeRecipientPrompt], [runScriptOrExit], [RunValidatorOrExit]. *)
Theorem yes_never_asks
  (W OrderedClients : Type) (SupportedNetworks : error + list string)
  (IsAddress : string -> bool) (ValidateLoggingFlag : string -> option error)
  (C : Collaborators W OrderedClients) (fuel : nat) (st st' : St W)
  (out : Exit) :
  y (st_flags st) = true ->
  CliCmd SupportedNetworks IsAddress ValidateLoggingFlag C fuel st
  = Some (out, st') ->
  exists new,
    st_trace st' = new ++ st_trace st
    /\ Forall (fun ev => asks_user ev = false) new.
Proof.
  intros Hy. unfold CliCmd.
  destruct (snd (preRunCliCmd SupportedNetworks IsAddress
                   ValidateLoggingFlag (st_flags st))) as [err|] eqn:Hpre.
  - intros E. injection E as _ <-. exists []. split; [reflexivity|constructor].
  - destruct (preRun_quick _ _ _ _ Hpre Hy) as (Hy' & Hi & Hr).
    destruct (runCliCmd C fuel _) as [[r st2]|] eqn:Hrun; [|discriminate].
    intros E. assert (st2 = st') as -> by (destruct r; now injection E).
    destruct (runCliCmd_each_call _ _ _ Hrun) as (new & Htr & Hall).
    exists new. split; [exact Htr|].
    eapply Forall_impl; [|exact Hall]. simpl.
    intros ev [Hev | (f & cc & results & Hset & _ & _ & Hev)].
    + destruct ev; simpl in *; try reflexivity; try contradiction.
      * destruct Hev. congruence.
      * destruct Hev. congruence.
    + destruct (settled_keeps Hset) as (_ & _ & Hrun' & _). simpl in Hrun'.
      destruct ev; simpl in *; try reflexivity; try contradiction.
      * destruct Hev. congruence.
      * destruct Hev. congruence.
Qed.

Lemma yes_never_asks_witness :
  exists out st',
    CliCmd Demo.SupportedNetworks Demo.IsAddress Demo.ValidateLoggingFlag
      (Demo.collaborators true) 5
      (Demo.start (set_install_run false false
                     (mkFlags "" "" "" "" "" "" "/srv/sedge-data" "" "mainnet"
                        "" "" "" "" false false true
                        [execution; consensus] [] [] [] [] false false
                        false "json")))
    = Some (out, st')
    /\ exists new,
        st_trace st' = new ++ []
        /\ Forall (fun ev => asks_user ev = false) new.
Proof.
  pose proof (@yes_never_asks Demo.World unit Demo.SupportedNetworks
                Demo.IsAddress Demo.ValidateLoggingFlag
                (Demo.collaborators true) 5
                (Demo.start (set_install_run false false
                     (mkFlags "" "" "" "" "" "" "/srv/sedge-data" "" "mainnet"
                        "" "" "" "" false false true
                        [execution; consensus] [] [] [] [] false false
                        false "json")))) as T.
  destruct (CliCmd Demo.SupportedNetworks Demo.IsAddress
              Demo.ValidateLoggingFlag (Demo.collaborators true) 5 _)
    as [[out st']|] eqn:E.
  - exists out, st'. split; [reflexivity|]. exact (T st' out eq_refl eq_refl).
  - vm_compute in E. discriminate E.
Defined.

(** ** Containers and generation *)

Lemma split_in_phases {A : Type} (after gen later earlier : list A) (ev : A) :
  after ++ gen = later ++ ev :: earlier ->
  In ev gen \/ exists l, after = later ++ ev :: l /\ earlier = l ++ gen.
Proof.
  revert later. induction after as [|a after IH]; intros later E.
  - left. simpl in E. rewrite E. apply in_or_app. right. now left.
  - destruct later as [|x later]; simpl in E; injection E as -> E.
    + right. exists after. now split.
    + destruct (IH _ E) as [Hin | (l & -> & ->)]; [now left|].
      right. now exists l.
Qed.

Lemma prepares_no_container {W OrderedClients : Type}
  (C : Collaborators W OrderedClients) (f0 : Flags) (ev : Event) :
  prepares C f0 ev -> container_call ev = false.
Proof. destruct ev; simpl; intros H; try reflexivity; contradiction. Qed.

Lemma finishes_no_generation (f : Flags) (cc : clients.Clients)
  (results : generate.GenerationResults) (ev : Event) :
  finishes f cc results ev -> generation_call ev = false.
Proof. destruct ev; simpl; intros H; try reflexivity; contradiction. Qed.

(** X4: containers come after the scripts.  In every run of
    [runCliCmd], when a call starts containers or waits for them
    ([preRunTeku], [runAndShowContainers], [runScriptOrExit], [trackSync],
    [RunValidatorOrExit]), [generate.GenerateScripts] and
    [generate.CleanGenerated] were called before it in this run, and
    neither is called after it. *)
Theorem containers_follow_generation
  (W OrderedClients : Type) (C : Collaborators W OrderedClients)
  (fuel : nat) (st st' : St W) (r : Res unit) :
  runCliCmd C fuel st = Some (r, st') ->
  exists new,
    st_trace st' = new ++ st_trace st
    /\ forall later ev earlier,
        new = later ++ ev :: earlier ->
        container_call ev = true ->
        (exists gd, In (CallGenerateScripts gd) earlier)
        /\ (exists results, In (CallCleanGenerated results) earlier)
        /\ Forall (fun ev' => generation_call ev' = false) later.
Proof.
  intros E.
  destruct (runCliCmd_phases _ _ _ E) as (gen & after & Htr & Hgen & Hafter).
  exists (after ++ gen). rewrite Htr, app_assoc. split; [reflexivity|].
  intros later ev earlier Hsplit Hev.
  destruct (@split_in_phases _ _ _ _ _ _ Hsplit) as [Hin | (l & -> & ->)].
  - rewrite Forall_forall in Hgen.
    rewrite (@prepares_no_container _ _ _ _ _ (Hgen _ Hin)) in Hev. discriminate.
  - destruct Hafter as [(Hnil & _) | (cc & results & _ & Hg & Hc & Hfin & _)].
    + destruct later; discriminate.
    + split; [|split].
      * eexists. apply in_or_app. right. exact Hg.
      * eexists. apply in_or_app. right. exact Hc.
      * apply Forall_app in Hfin. destruct Hfin as (Hlater & _).
        eapply Forall_impl; [|exact Hlater].
        intros ev' Hev'. exact (@finishes_no_generation _ _ _ _ Hev').
Qed.

Lemma containers_follow_generation_witness :
  exists r st',
    runCliCmd (Demo.collaborators true) 5
      (Demo.start (Demo.custom "mainnet" "" "" [execution; consensus]
                     false true))
    = Some (r, st')
    /\ exists new,
        st_trace st' = new ++ []
        /\ forall later ev earlier,
            new = later ++ ev :: earlier ->
            container_call ev = true ->
            (exists gd, In (CallGenerateScripts gd) earlier)
            /\ (exists results, In (CallCleanGenerated results) earlier)
            /\ Forall (fun ev' => generation_call ev' = false) later.
Proof.
  pose proof (@containers_follow_generation Demo.World unit
                (Demo.collaborators true) 5
                (Demo.start (Demo.custom "mainnet" "" ""
                               [execution; consensus] false true))) as T.
  destruct (runCliCmd (Demo.collaborators true) 5 _) as [[r st']|] eqn:E.
  - exists r, st'. split; [reflexivity|]. exact (T st' r eq_refl).
  - vm_compute in E. discriminate E.
Defined.

(** ** The generation data *)

Lemma runCliCmd_generates {W OrderedClients : Type}
  (C : Collaborators W OrderedClients) (fuel : nat) (st st' : St W)
  (r : Res unit) :
  runCliCmd C fuel st = Some (r, st') ->
  exists new,
    st_trace st' = new ++ st_trace st
    /\ forall gd,
        In (CallGenerateScripts gd) new ->
        exists f cc,
          settled C (st_flags st) f
          /\ gd = generationData C f (applyFlags f cc).
Proof.
  intros E.
  destruct (runCliCmd_each_call _ _ _ E) as (new & Htr & Hall).
  exists new. split; [exact Htr|]. intros gd Hin.
  rewrite Forall_forall in Hall.
  destruct (Hall _ Hin) as [Hev | (f & cc & results & _ & _ & _ & Hev)].
  - exact Hev.
  - destruct Hev.
Qed.

(** X5: the generation data is the command line.  In every run of
    [runCliCmd], whatever [generate.GenerateScripts] is called with
    carries the flags the run started with, unchanged: network, path,
    checkpoint sync URL, graffiti, fallback execution URLs, the extra flags
    of the three clients, the port mapping, the MEV image, the logging
    driver of the logging flag, the three images; the validator is omitted
    exactly under [--no-validator], and MEV is on exactly when neither
    [--no-mev] nor [--no-validator] is given. *)
Theorem generation_data_carries_flags
  (W OrderedClients : Type) (C : Collaborators W OrderedClients)
  (fuel : nat) (st st' : St W) (r : Res unit) :
  runCliCmd C fuel st = Some (r, st') ->
  exists new,
    st_trace st' = new ++ st_trace st
    /\ forall gd,
        In (CallGenerateScripts gd) new ->
        generate.Network gd = network (st_flags st)
        /\ generate.GenerationPath gd = generationPath (st_flags st)
        /\ generate.CheckpointSyncUrl gd = checkpointSyncUrl (st_flags st)
        /\ generate.Graffiti gd = graffiti (st_flags st)
        /\ generate.FallbackELUrls gd = fallbackEL (st_flags st)
        /\ generate.ElExtraFlags gd = elExtraFlags (st_flags st)
        /\ generate.ClExtraFlags gd = clExtraFlags (st_flags st)
        /\ generate.VlExtraFlags gd = vlExtraFlags (st_flags st)
        /\ generate.MapAllPorts gd = mapAllPorts (st_flags st)
        /\ generate.MevImage gd = mevImage (st_flags st)
        /\ generate.LoggingDriver gd
           = c_GetLoggingDriver C (loggingFlag (st_flags st))
        /\ clients.Image (generate.ExecutionClient gd)
           = executionImage (st_flags st)
        /\ clients.Image (generate.ConsensusClient gd)
           = consensusImage (st_flags st)
        /\ clients.Image (generate.ValidatorClient gd)
           = validatorImage (st_flags st)
        /\ clients.Omited (generate.ValidatorClient gd)
           = noValidator (st_flags st)
        /\ generate.Mev gd
           = negb (noMev (st_flags st)) && negb (noValidator (st_flags st)).
Proof.
  intros E.
  destruct (runCliCmd_generates _ _ _ E) as (new & Htr & Hgen).
  exists new. split; [exact Htr|]. intros gd Hin.
  destruct (Hgen _ Hin) as (f & cc & (path & addr & -> & _) & ->).
  repeat split.
Qed.

Lemma generation_data_carries_flags_witness :
  exists r st',
    runCliCmd (Demo.collaborators true) 5
      (Demo.start (Demo.custom "goerli" "" "" [execution; consensus]
                     false true))
    = Some (r, st')
    /\ exists new,
        st_trace st' = new ++ []
        /\ forall gd,
            In (CallGenerateScripts gd) new ->
            generate.Network gd = "goerli"
            /\ generate.GenerationPath gd = "/srv/sedge-data"
            /\ generate.CheckpointSyncUrl gd = ""
            /\ generate.Graffiti gd = ""
            /\ generate.FallbackELUrls gd = []
            /\ generate.ElExtraFlags gd = []
            /\ generate.ClExtraFlags gd = []
            /\ generate.VlExtraFlags gd = []
            /\ generate.MapAllPorts gd = false
            /\ generate.MevImage gd = ""
            /\ generate.LoggingDriver gd = "json"
            /\ clients.Image (generate.ExecutionClient gd) = ""
            /\ clients.Image (generate.ConsensusClient gd) = ""
            /\ clients.Image (generate.ValidatorClient gd) = ""
            /\ clients.Omited (generate.ValidatorClient gd) = false
            /\ generate.Mev gd = true.
Proof.
  pose proof (@generation_data_carries_flags Demo.World unit
                (Demo.collaborators true) 5
                (Demo.start (Demo.custom "goerli" "" ""
                               [execution; consensus] false true))) as T.
  destruct (runCliCmd (Demo.collaborators true) 5 _) as [[r st']|] eqn:E.
  - exists r, st'. split; [reflexivity|]. exact (T st' r eq_refl).
  - vm_compute in E. discriminate E.
Defined.

(** ** The fee recipient and the JWT secret *)

(** X6: a fee recipient given on the command line is used as it is.
    In every run of [runCliCmd] started with a fee recipient, or with
    [-y], [feeRecipientPrompt] is not called and
    [generate.GenerateScripts] gets the fee recipient of the command
    line (none under [-y] when none was given). *)
Theorem fee_recipient_given_is_kept
  (W OrderedClients : Type) (C : Collaborators W OrderedClients)
  (fuel : nat) (st st' : St W) (r : Res unit) :
  runCliCmd C fuel st = Some (r, st') ->
  y (st_flags st) = true \/ feeRecipient (st_flags st) <> "" ->
  exists new,
    st_trace st' = new ++ st_trace st
    /\ ~ In CallFeeRecipientPrompt new
    /\ forall gd,
        In (CallGenerateScripts gd) new ->
        generate.FeeRecipient gd = feeRecipient (st_flags st).
Proof.
  intros E Hgiven.
  assert (Hcond : negb (y (st_flags st)) && (feeRecipient (st_flags st) =? "")
                  = false).
  { destruct Hgiven as [-> | Hfee]; [reflexivity|].
    apply String.eqb_neq in Hfee. rewrite Hfee. apply andb_false_r. }
  destruct (runCliCmd_each_call _ _ _ E) as (new & Htr & Hall).
  exists new. split; [exact Htr|]. rewrite Forall_forall in Hall. split.
  - intros Hin.
    destruct (Hall _ Hin) as [(Hy & Hfee) | (f & cc & results & _ & _ & _ & F)];
      [|destruct F].
    rewrite Hy, Hfee in Hcond. discriminate Hcond.
  - intros gd Hin.
    destruct (Hall _ Hin)
      as [(f & cc & Hset & ->) | (f & cc & results & _ & _ & _ & F)];
      [|destruct F].
    destruct Hset as (path & addr & -> & _ & Hfee).
    unfold fee_settled in Hfee. rewrite Hcond in Hfee. exact Hfee.
Qed.

Lemma fee_recipient_given_is_kept_witness :
  exists r st',
    runCliCmd (Demo.collaborators true) 5
      (Demo.start (Demo.custom "mainnet"
                     "0x00000000219ab540356cBB839Cbe05303d7705Fa" ""
                     [execution; consensus] false true))
    = Some (r, st')
    /\ exists new,
        st_trace st' = new ++ []
        /\ ~ In CallFeeRecipientPrompt new
        /\ forall gd,
            In (CallGenerateScripts gd) new ->
            generate.FeeRecipient gd
            = "0x00000000219ab540356cBB839Cbe05303d7705Fa".
Proof.
  pose proof (@fee_recipient_given_is_kept Demo.World unit
                (Demo.collaborators true) 5
                (Demo.start (Demo.custom "mainnet"
                     "0x00000000219ab540356cBB839Cbe05303d7705Fa" ""
                     [execution; consensus] false true))) as T.
  destruct (runCliCmd (Demo.collaborators true) 5 _) as [[r st']|] eqn:E.
  - exists r, st'. split; [reflexivity|].
    apply (T st' r eq_refl). right. discriminate.
  - vm_compute in E. discriminate E.
Defined.

(** X7: where the JWT secret path comes from.  In every run of
    [runCliCmd], [handleJWTSecret] is called only when no path was given
    and the network requires the secret; when no path was given and the
    network requires none, the scripts are generated with no path; when
    an absolute path was given, they are generated with what
    [filepath.Abs] returned for it. *)
Theorem jwt_secret_path_of_generation
  (W OrderedClients : Type) (C : Collaborators W OrderedClients)
  (fuel : nat) (st st' : St W) (r : Res unit) :
  runCliCmd C fuel st = Some (r, st') ->
  exists new,
    st_trace st' = new ++ st_trace st
    /\ (In CallHandleJWTSecret new ->
        jwtPath (st_flags st) = ""
        /\ c_RequireJWT C (network (st_flags st)) = true)
    /\ forall gd,
        In (CallGenerateScripts gd) new ->
        (jwtPath (st_flags st) = "" ->
         c_RequireJWT C (network (st_flags st)) = false ->
         generate.JWTSecretPath gd = "")
        /\ (filepath.IsAbs (jwtPath (st_flags st)) = true ->
            generate.JWTSecretPath gd
            = fst (c_filepath_Abs C (jwtPath (st_flags st)))).
Proof.
  intros E.
  destruct (runCliCmd_each_call _ _ _ E) as (new & Htr & Hall).
  exists new. split; [exact Htr|]. rewrite Forall_forall in Hall. split.
  - intros Hin.
    destruct (Hall _ Hin) as [Hev | (f & cc & results & _ & _ & _ & F)];
      [exact Hev|destruct F].
  - intros gd Hin.
    destruct (Hall _ Hin)
      as [(f & cc & Hset & ->) | (f & cc & results & _ & _ & _ & F)];
      [|destruct F].
    destruct Hset as (path & addr & -> & Hjwt & _).
    unfold jwt_settled in Hjwt. simpl. split.
    + intros Hnone Hreq. rewrite Hnone, Hreq in Hjwt. simpl in Hjwt.
      exact Hjwt.
    + intros Habs. rewrite Habs in Hjwt.
      destruct (jwtPath (st_flags st)) eqn:Hp; [discriminate Habs|].
      exact Hjwt.
Qed.

Lemma jwt_secret_path_of_generation_witness :
  exists r st',
    runCliCmd (Demo.collaborators true) 5
      (Demo.start (Demo.custom "mainnet" "" "/etc/sedge/jwt.hex"
                     [execution; consensus] false true))
    = Some (r, st')
    /\ exists new,
        st_trace st' = new ++ []
        /\ (In CallHandleJWTSecret new -> "/etc/sedge/jwt.hex" = "" /\ true = true)
        /\ forall gd,
            In (CallGenerateScripts gd) new ->
            ("/etc/sedge/jwt.hex" = "" -> true = false ->
             generate.JWTSecretPath gd = "")
            /\ (filepath.IsAbs "/etc/sedge/jwt.hex" = true ->
                generate.JWTSecretPath gd = "/etc/sedge/jwt.hex").
Proof.
  pose proof (@jwt_secret_path_of_generation Demo.World unit
                (Demo.collaborators true) 5
                (Demo.start (Demo.custom "mainnet" "" "/etc/sedge/jwt.hex"
                               [execution; consensus] false true))) as T.
  destruct (runCliCmd (Demo.collaborators true) 5 _) as [[r st']|] eqn:E.
  - exists r, st'. split; [reflexivity|]. exact (T st' r eq_refl).
  - vm_compute in E. discriminate E.
Defined.

(** ** The dependencies *)

(** X8: how the loop on the dependencies ends.  When the loop of lines
    205-219 ends without error, its last call is a check that found
    nothing pending; when it ends with an error, its last call is the
    installation of dependencies that were pending, by
    [installDependencies] under [--install] and by
    [installOrShowInstructions] otherwise, and the error is the one it
    returned.  The loop changes no flag. *)
Theorem dependencies_loop_ends
  (W OrderedClients : Type) (C : Collaborators W OrderedClients)
  (fuel : nat) (dependencies : list string) (st st' : St W)
  (r : Res unit) :
  installPending C fuel dependencies st = Some (r, st') ->
  st_flags st' = st_flags st
  /\ exists earlier w,
      match r with
      | Ok _ =>
          st_trace st' = CallCheckDependencies dependencies :: earlier
          /\ c_CheckDependencies C dependencies w = ([], st_world st')
      | Err es =>
          exists pending e,
            es = [e] /\ pending <> []
            /\ if install (st_flags st)
               then st_trace st' = CallInstallDependencies pending :: earlier
                    /\ c_installDependencies C (st_flags st) pending w
                       = (Some e, st_world st')
               else st_trace st'
                    = CallInstallOrShowInstructions pending :: earlier
                    /\ c_installOrShowInstructions C (st_flags st) pending w
                       = (Some e, st_world st')
      end.
Proof.
  revert st. induction fuel as [|fuel IH]; intros st; [discriminate|].
  cbn [installPending]. unfold bind at 1. unfold call at 1.
  cbn [fst snd].
  destruct (c_CheckDependencies C dependencies (st_world st))
    as [pending w1] eqn:Hcheck.
  cbn [fst snd]. destruct pending as [|p pending].
  - intros E. injection E as <- <-. split; [reflexivity|].
    exists (st_trace st), (st_world st). split; [reflexivity|exact Hcheck].
  - unfold bind, log, record, getFlags, call, check, moved, ret, fail.
    cbn [fst snd st_flags st_world st_trace].
    destruct (install (st_flags st)) eqn:Hinstall;
      cbn [fst snd st_flags st_world st_trace].
    + destruct (c_installDependencies C (st_flags st) (p :: pending) w1)
        as [[e|] w2] eqn:Hinst; cbn [fst snd].
      * intros E. injection E as <- <-. split; [reflexivity|].
        eexists _, w1. exists (p :: pending), e.
        split; [reflexivity|]. split; [discriminate|].
        split; [reflexivity|exact Hinst].
      * intros E. apply IH in E. cbn [st_flags] in E.
        rewrite Hinstall in E. exact E.
    + destruct (c_installOrShowInstructions C (st_flags st) (p :: pending)
                  w1) as [[e|] w2] eqn:Hinst; cbn [fst snd].
      * intros E. injection E as <- <-. split; [reflexivity|].
        eexists _, w1. exists (p :: pending), e.
        split; [reflexivity|]. split; [discriminate|].
        split; [reflexivity|exact Hinst].
      * intros E. apply IH in E. cbn [st_flags] in E.
        rewrite Hinstall in E. exact E.
Qed.

Lemma dependencies_loop_ends_witness :
  exists st',
    installPending (Demo.collaborators true) 5 ["docker"]
      (Demo.start (defaultFlags "/srv/sedge-data"))
    = Some (Ok tt, st')
    /\ st_flags st' = (defaultFlags "/srv/sedge-data")
    /\ exists earlier w,
        st_trace st' = CallCheckDependencies ["docker"] :: earlier
        /\ c_CheckDependencies (Demo.collaborators true) ["docker"] w
           = ([], st_world st').
Proof.
  pose proof (@dependencies_loop_ends Demo.World unit
                (Demo.collaborators true) 5 ["docker"]
                (Demo.start (defaultFlags "/srv/sedge-data"))) as T.
  destruct (installPending (Demo.collaborators true) 5 ["docker"] _)
    as [[[[]|es] st']|] eqn:E.
  - exists st'. split; [reflexivity|]. exact (T st' (Ok tt) eq_refl).
  - vm_compute in E. discriminate E.
  - vm_compute in E. discriminate E.
Defined.

(** X9: the loop on the dependencies has no bound.  When the check
    keeps finding dependencies pending and the installation keeps
    returning no error, lines 202-220 do not end, however many rounds
    the loop is given: the command neither gives up nor returns an
    error. *)
Theorem dependencies_loop_has_no_bound
  (W OrderedClients : Type) (C : Collaborators W OrderedClients) :
  (forall w, fst (c_CheckDependencies C (c_GetDependencies C) w) <> []) ->
  (forall f pending w, fst (c_installDependencies C f pending w) = None) ->
  (forall f pending w,
      fst (c_installOrShowInstructions C f pending w) = None) ->
  forall fuel st, checkDependencies C fuel st = None.
Proof.
  intros Hcheck Hinst Hshow fuel st.
  assert (Hloop : forall st1,
             installPending C fuel (c_GetDependencies C) st1 = None).
  { induction fuel as [|fuel IH]; intros st1; [reflexivity|].
    cbn [installPending]. unfold bind at 1. unfold call at 1.
    specialize (Hcheck (st_world st1)).
    destruct (c_CheckDependencies C (c_GetDependencies C) (st_world st1))
      as [pending w1].
    cbn [fst snd] in Hcheck |- *.
    destruct pending as [|p pending]; [now destruct Hcheck|].
    unfold bind, log, record, getFlags, call, check, moved, ret, fail.
    cbn [fst snd st_flags st_world st_trace].
    destruct (install (st_flags st1));
      cbn [fst snd st_flags st_world st_trace].
    - rewrite Hinst. apply IH.
    - rewrite Hshow. apply IH. }
  unfold checkDependencies, bind, log, record.
  cbv beta iota delta [fst snd st_flags st_world st_trace].
  now rewrite Hloop.
Qed.

Lemma dependencies_loop_has_no_bound_witness :
  checkDependencies (stayPending (Demo.collaborators true)) 1000
    (Demo.start (defaultFlags "/srv/sedge-data"))
  = None.
Proof.
  apply (@dependencies_loop_has_no_bound Demo.World unit
           (stayPending (Demo.collaborators true))).
  - intros w. discriminate.
  - reflexivity.
  - reflexivity.
Defined.

(** ** The validator and the sync *)

Lemma validator_after_sync_app (svcs : list string)
  (later earlier : list Event) :
  validator_after_sync svcs (later ++ earlier) ->
  validator_after_sync svcs earlier.
Proof.
  induction later as [|ev later IH]; simpl; [easy|].
  intros (_ & H). exact (IH H).
Qed.

Lemma sync_tracked_app (l gen : list Event) :
  sync_tracked l -> sync_tracked (l ++ gen).
Proof. destruct l as [|[] l]; simpl; easy. Qed.

Lemma settled_noValidator {W OrderedClients : Type}
  (C : Collaborators W OrderedClients) (f0 f : Flags) :
  settled C f0 f -> noValidator f = noValidator f0.
Proof. intros (path & addr & -> & _). reflexivity. Qed.

(** X10: a validator left out of run-clients waits for the sync.  In
    every run of [runCliCmd] started with run-clients that do not hold
    [validator], a call that starts the validator comes right after the
    call of [trackSync], and only without [--no-validator]. *)
Theorem validator_alone_follows_sync
  (W OrderedClients : Type) (C : Collaborators W OrderedClients)
  (fuel : nat) (st st' : St W) (r : Res unit) :
  runCliCmd C fuel st = Some (r, st') ->
  ~ In validator (services (st_flags st)) ->
  exists new,
    st_trace st' = new ++ st_trace st
    /\ forall later ev earlier,
        new = later ++ ev :: earlier ->
        starts_validator ev ->
        sync_tracked earlier /\ noValidator (st_flags st) = false.
Proof.
  intros E Hout.
  destruct (runCliCmd_phases _ _ _ E) as (gen & after & Htr & Hgen & Hafter).
  exists (after ++ gen). rewrite Htr, app_assoc. split; [reflexivity|].
  intros later ev earlier Hsplit Hev.
  destruct (@split_in_phases _ _ _ _ _ _ Hsplit) as [Hin | (l & -> & ->)].
  - rewrite Forall_forall in Hgen. specialize (Hgen _ Hin).
    destruct ev; simpl in Hev, Hgen; contradiction.
  - destruct Hafter
      as [(Hnil & _) | (cc & results & Hset & _ & _ & Hfin & Hsync)].
    + destruct later; discriminate.
    + destruct (settled_keeps Hset) as (_ & _ & _ & Hsvcs).
      pose proof (settled_noValidator Hset) as HnoVal.
      apply validator_after_sync_app in Hsync. simpl in Hsync.
      apply Forall_app in Hfin. destruct Hfin as (_ & Hfin).
      apply Forall_inv in Hfin.
      destruct Hsync as (Hsync & _).
      destruct ev; simpl in Hev, Hfin; try contradiction;
        unfold validator_apart in Hfin;
        try rewrite Hsvcs in Hfin; try rewrite Hsvcs in Hsync;
        try rewrite HnoVal in Hfin.
      * destruct Hfin as (_ & [-> | (_ & HnoV & _)]); [contradiction|].
        destruct Hsync as [-> | Hsync]; [contradiction|].
        split; [now apply sync_tracked_app|exact HnoV].
      * destruct Hfin as (_ & ->). contradiction.
      * destruct Hfin as (_ & HnoV & _).
        split; [now apply sync_tracked_app|exact HnoV].
Qed.

Lemma validator_alone_follows_sync_witness :
  exists r st',
    runCliCmd (Demo.collaborators true) 5
      (Demo.start (Demo.custom "mainnet" "" "" [execution; consensus]
                     false true))
    = Some (r, st')
    /\ exists new,
        st_trace st' = new ++ []
        /\ forall later ev earlier,
            new = later ++ ev :: earlier ->
            starts_validator ev ->
            sync_tracked earlier /\ false = false.
Proof.
  pose proof (@validator_alone_follows_sync Demo.World unit
                (Demo.collaborators true) 5
                (Demo.start (Demo.custom "mainnet" "" ""
                               [execution; consensus] false true))) as T.
  destruct (runCliCmd (Demo.collaborators true) 5 _) as [[r st']|] eqn:E.
  - exists r, st'. split; [reflexivity|].
    apply (T st' r eq_refl). intros [H|[H|[]]]; discriminate H.
  - vm_compute in E. discriminate E.
Defined.

(** X11: when and how the sync is tracked.  In every run of
    [runCliCmd], [trackSync] is called only without [--no-validator] and
    with run-clients that do not hold [validator]; it is given five
    minutes, and the ports of the execution and consensus clients in the
    generation results that [generate.CleanGenerated] was called with. *)
Theorem sync_is_tracked_for_a_validator_apart
  (W OrderedClients : Type) (C : Collaborators W OrderedClients)
  (fuel : nat) (st st' : St W) (r : Res unit) :
  runCliCmd C fuel st = Some (r, st') ->
  exists new,
    st_trace st' = new ++ st_trace st
    /\ forall elPort clPort wait,
        In (CallTrackSync elPort clPort wait) new ->
        wait = (time_Minute * 5)%N
        /\ noValidator (st_flags st) = false
        /\ ~ In validator (services (st_flags st))
        /\ exists results,
            In (CallCleanGenerated results) new
            /\ elPort = generate.ELPort results
            /\ clPort = generate.CLPort results.
Proof.
  intros E.
  destruct (runCliCmd_each_call _ _ _ E) as (new & Htr & Hall).
  exists new. split; [exact Htr|]. rewrite Forall_forall in Hall.
  intros elPort clPort wait Hin.
  destruct (Hall _ Hin)
    as [F | (f & cc & results & Hset & _ & Hclean & Hev)]; [destruct F|].
  destruct Hev as (-> & -> & -> & HnoV & Hout).
  destruct (settled_keeps Hset) as (_ & _ & _ & Hsvcs).
  rewrite (settled_noValidator Hset) in HnoV. rewrite Hsvcs in Hout.
  split; [reflexivity|]. split; [exact HnoV|]. split.
  - intros Hval. apply Contains_In in Hval. rewrite Hval in Hout.
    discriminate Hout.
  - now exists results.
Qed.

Lemma sync_is_tracked_for_a_validator_apart_witness :
  exists r st',
    runCliCmd (Demo.collaborators true) 5
      (Demo.start (Demo.custom "mainnet" "" "" [execution; consensus]
                     false true))
    = Some (r, st')
    /\ exists new,
        st_trace st' = new ++ []
        /\ forall elPort clPort wait,
            In (CallTrackSync elPort clPort wait) new ->
            wait = (time_Minute * 5)%N
            /\ false = false
            /\ ~ In validator [execution; consensus]
            /\ exists results,
                In (CallCleanGenerated results) new
                /\ elPort = generate.ELPort results
                /\ clPort = generate.CLPort results.
Proof.
  pose proof (@sync_is_tracked_for_a_validator_apart Demo.World unit
                (Demo.collaborators true) 5
                (Demo.start (Demo.custom "mainnet" "" ""
                               [execution; consensus] false true))) as T.
  destruct (runCliCmd (Demo.collaborators true) 5 _) as [[r st']|] eqn:E.
  - exists r, st'. split; [reflexivity|]. exact (T st' r eq_refl).
  - vm_compute in E. discriminate E.
Defined.

(** X12: the teku data directory is prepared for teku only.  In every
    run of [runCliCmd], [preRunTeku] is called only when the scripts were
    generated with a consensus client named [teku]. *)
Theorem teku_is_prepared_for_teku_only
  (W OrderedClients : Type) (C : Collaborators W OrderedClients)
  (fuel : nat) (st st' : St W) (r : Res unit) :
  runCliCmd C fuel st = Some (r, st') ->
  exists new,
    st_trace st' = new ++ st_trace st
    /\ (In CallPreRunTeku new ->
        exists gd,
          In (CallGenerateScripts gd) new
          /\ clients.Name (generate.ConsensusClient gd) = "teku").
Proof.
  intros E.
  destruct (runCliCmd_each_call _ _ _ E) as (new & Htr & Hall).
  exists new. split; [exact Htr|]. rewrite Forall_forall in Hall.
  intros Hin.
  destruct (Hall _ Hin)
    as [F | (f & cc & results & _ & Hgen & _ & Hev)]; [destruct F|].
  exists (generationData C f cc). split; [exact Hgen|exact Hev].
Qed.

Lemma teku_is_prepared_for_teku_only_witness :
  exists r st',
    runCliCmd (withSelection teku_selection (Demo.collaborators true)) 5
      (Demo.start (Demo.custom "mainnet" "" "" [execution; consensus]
                     false true))
    = Some (r, st')
    /\ In CallPreRunTeku (st_trace st')
    /\ exists gd,
        In (CallGenerateScripts gd) (st_trace st')
        /\ clients.Name (generate.ConsensusClient gd) = "teku".
Proof.
  pose proof (@teku_is_prepared_for_teku_only Demo.World unit
                (withSelection teku_selection (Demo.collaborators true)) 5
                (Demo.start (Demo.custom "mainnet" "" ""
                               [execution; consensus] false true))) as T.
  destruct (runCliCmd
              (withSelection teku_selection (Demo.collaborators true)) 5 _)
    as [[r st']|] eqn:E; [|vm_compute in E; discriminate E].
  exists r, st'. split; [reflexivity|].
  destruct (T st' r eq_refl) as (new & Htr & Hteku).
  rewrite app_nil_r in Htr. rewrite Htr.
  assert (Hin : In CallPreRunTeku new).
  { rewrite <- Htr. vm_compute in E. injection E as _ <-.
    simpl. tauto. }
  split; [exact Hin | exact (Hteku Hin)].
Defined.

(** ** What pre-run accepts, and what it passes on *)

Lemma validateRunClients_accepts (svcs : list string) :
  (exists l, validateRunClients svcs = inr l)
  <-> svcs = ["all"] \/ svcs = ["none"]
      \/ Forall (fun s => In s roles) svcs.
Proof.
  unfold validateRunClients. split.
  - intros (l & E).
    destruct (utils.Contains svcs "all") eqn:Hall.
    + left. destruct svcs as [|s [|s' svcs]]; try discriminate.
      apply Contains_In in Hall. destruct Hall as [-> | []]. reflexivity.
    + destruct (utils.Contains svcs "none") eqn:Hnone.
      * right. left. destruct svcs as [|s [|s' svcs]]; try discriminate.
        apply Contains_In in Hnone. destruct Hnone as [-> | []].
        reflexivity.
      * right. right.
        destruct (utils.ContainsOnly svcs [execution; consensus; validator])
          eqn:Honly; [|discriminate].
        unfold utils.ContainsOnly in Honly. rewrite forallb_forall in Honly.
        apply Forall_forall. intros s Hs. now apply Contains_In, Honly.
  - intros [-> | [-> | Hall]]; [now eexists | now eexists |].
    assert (Hno : forall s, ~ In s roles -> utils.Contains svcs s = false).
    { intros s Hs. apply Contains_not_In. intros Hin.
      rewrite Forall_forall in Hall. exact (Hs (Hall _ Hin)). }
    rewrite (Hno "all"), (Hno "none").
    + assert (Honly : utils.ContainsOnly svcs
                        [execution; consensus; validator] = true).
      { unfold utils.ContainsOnly. apply forallb_forall. intros s Hs.
        apply Contains_In. rewrite Forall_forall in Hall. exact (Hall _ Hs). }
      rewrite Honly. now eexists.
    + intros [H|[H|[H|[]]]]; discriminate H.
    + intros [H|[H|[H|[]]]]; discriminate H.
Qed.

(** X13: what pre-run accepts.  [preRunCliCmd] returns no error exactly
    when run-clients is [all] alone, [none] alone, or holds names of
    services only; the supported networks could be read and hold the
    network; the fee recipient is empty or an address; and the logging
    flag is valid.  No other flag is looked at. *)
Theorem pre_run_accepts_exactly
  (SupportedNetworks : error + list string) (IsAddress : string -> bool)
  (ValidateLoggingFlag : string -> option error) (f : Flags) :
  snd (preRunCliCmd SupportedNetworks IsAddress ValidateLoggingFlag f) = None
  <-> (services f = ["all"] \/ services f = ["none"]
       \/ Forall (fun s => s = execution \/ s = consensus \/ s = validator)
            (services f))
      /\ (exists networks,
             SupportedNetworks = inr networks /\ In (network f) networks)
      /\ (feeRecipient f = "" \/ IsAddress (feeRecipient f) = true)
      /\ ValidateLoggingFlag (loggingFlag f) = None.
Proof.
  rewrite preRun_result.
  assert (Hroles : Forall (fun s => In s roles) (services f)
                   <-> Forall (fun s => s = execution \/ s = consensus
                                        \/ s = validator) (services f)).
  { split; intros H; (eapply Forall_impl; [|exact H]); intros s.
    - intros [<-|[<-|[<-|[]]]]; auto.
    - intros [->|[->| ->]]; simpl; auto. }
  rewrite <- Hroles, <- validateRunClients_accepts.
  unfold validateNetwork, validateFeeRecipient.
  split.
  - intros E.
    destruct (validateRunClients (services f)) as [e|l]; [discriminate|].
    split; [now exists l|].
    destruct SupportedNetworks as [e|networks]; [discriminate|].
    destruct (utils.Contains networks (network f)) eqn:Hnet;
      [|discriminate].
    split; [exists networks; split; [reflexivity|now apply Contains_In]|].
    destruct (feeRecipient f =? "") eqn:Hfee.
    + apply String.eqb_eq in Hfee. split; [now left|exact E].
    + destruct (IsAddress (feeRecipient f)); [|discriminate].
      split; [now right|exact E].
  - intros ((l & ->) & (networks & -> & Hnet) & Hfee & Hlog).
    apply Contains_In in Hnet. rewrite Hnet. simpl.
    destruct Hfee as [-> | ->]; [exact Hlog|].
    rewrite andb_false_r. exact Hlog.
Qed.

Lemma preRun_frame
  (SupportedNetworks : error + list string) (IsAddress : string -> bool)
  (ValidateLoggingFlag : string -> option error) (f : Flags) :
  snd (preRunCliCmd SupportedNetworks IsAddress ValidateLoggingFlag f) = None ->
  exists f',
    fst (preRunCliCmd SupportedNetworks IsAddress ValidateLoggingFlag f) = f'
    /\ network f' = network f
    /\ generationPath f' = generationPath f
    /\ checkpointSyncUrl f' = checkpointSyncUrl f
    /\ graffiti f' = graffiti f
    /\ fallbackEL f' = fallbackEL f
    /\ elExtraFlags f' = elExtraFlags f
    /\ clExtraFlags f' = clExtraFlags f
    /\ vlExtraFlags f' = vlExtraFlags f
    /\ mapAllPorts f' = mapAllPorts f
    /\ mevImage f' = mevImage f
    /\ loggingFlag f' = loggingFlag f
    /\ noMev f' = noMev f
    /\ noValidator f' = noValidator f
    /\ feeRecipient f' = feeRecipient f
    /\ jwtPath f' = jwtPath f
    /\ executionImage f'
       = (if executionName f =? "" then executionImage f
          else clientImage (executionName f))
    /\ consensusImage f'
       = (if consensusName f =? "" then consensusImage f
          else clientImage (consensusName f))
    /\ validatorImage f'
       = (if validatorName f =? "" then validatorImage f
          else clientImage (validatorName f)).
Proof.
  intros Hok. eexists. split; [reflexivity|].
  destruct (preRun_success _ _ _ _ Hok) as (svcs & _ & _ & _ & ->).
  unfold prepareCustomImages, afterRunClients, excludeValidator, quickRun.
  destruct (y f); simpl;
    destruct (noValidator f && utils.Contains svcs validator); simpl;
    destruct (executionName f =? ""); simpl;
    destruct (consensusName f =? ""); simpl;
    destruct (validatorName f =? ""); simpl;
    repeat split.
Qed.

(** X14: the command line reaches the generation.  In every run of
    the command, pre-run and run together, whatever
    [generate.GenerateScripts] is called with carries the network, the
    path, the checkpoint sync URL, the graffiti, the fallback URLs, the
    extra flags, the port mapping, the MEV image and the logging driver
    of the command line; MEV is on exactly when neither [--no-mev] nor
    [--no-validator] was given, the validator is omitted exactly under
    [--no-validator], and the image of a client given as
    [<CLIENT>:<DOCKER_IMAGE>] is what follows the first colon of the
    flag (no image when the flag has no colon). *)
Theorem command_line_reaches_generation
  (W OrderedClients : Type) (SupportedNetworks : error + list string)
  (IsAddress : string -> bool) (ValidateLoggingFlag : string -> option error)
  (C : Collaborators W OrderedClients) (fuel : nat) (st st' : St W)
  (out : Exit) :
  CliCmd SupportedNetworks IsAddress ValidateLoggingFlag C fuel st
  = Some (out, st') ->
  exists new,
    st_trace st' = new ++ st_trace st
    /\ forall gd,
        In (CallGenerateScripts gd) new ->
        generate.Network gd = network (st_flags st)
        /\ generate.GenerationPath gd = generationPath (st_flags st)
        /\ generate.CheckpointSyncUrl gd = checkpointSyncUrl (st_flags st)
        /\ generate.Graffiti gd = graffiti (st_flags st)
        /\ generate.FallbackELUrls gd = fallbackEL (st_flags st)
        /\ generate.ElExtraFlags gd = elExtraFlags (st_flags st)
        /\ generate.ClExtraFlags gd = clExtraFlags (st_flags st)
        /\ generate.VlExtraFlags gd = vlExtraFlags (st_flags st)
        /\ generate.MapAllPorts gd = mapAllPorts (st_flags st)
        /\ generate.MevImage gd = mevImage (st_flags st)
        /\ generate.LoggingDriver gd
           = c_GetLoggingDriver C (loggingFlag (st_flags st))
        /\ generate.Mev gd
           = negb (noMev (st_flags st)) && negb (noValidator (st_flags st))
        /\ clients.Omited (generate.ValidatorClient gd)
           = noValidator (st_flags st)
        /\ (executionName (st_flags st) <> "" ->
            exists name,
              split_at_colon (executionName (st_flags st)) name
                (clients.Image (generate.ExecutionClient gd)))
        /\ (consensusName (st_flags st) <> "" ->
            exists name,
              split_at_colon (consensusName (st_flags st)) name
                (clients.Image (generate.ConsensusClient gd)))
        /\ (validatorName (st_flags st) <> "" ->
            exists name,
              split_at_colon (validatorName (st_flags st)) name
                (clients.Image (generate.ValidatorClient gd))).
Proof.
  unfold CliCmd.
  destruct (snd (preRunCliCmd SupportedNetworks IsAddress
                   ValidateLoggingFlag (st_flags st))) as [err|] eqn:Hpre.
  - intros E. injection E as _ <-. exists []. split; [reflexivity|].
    intros gd [].
  - destruct (runCliCmd C fuel _) as [[r st2]|] eqn:Hrun; [|discriminate].
    intros E. assert (st2 = st') as -> by (destruct r; now injection E).
    destruct (runCliCmd_generates _ _ _ Hrun) as (new & Htr & Hgen).
    exists new. split; [exact Htr|]. intros gd Hin.
    destruct (Hgen _ Hin) as (f & cc & (path & addr & -> & _) & ->).
    cbn [st_flags] in *.
    destruct (preRun_frame _ _ _ _ Hpre)
      as (f' & -> & H1 & H2 & H3 & H4 & H5 & H6 & H7 & H8 & H9 & H10 & H11
          & H12 & H13 & _ & _ & He & Hc & Hv).
    simpl.
    rewrite H1, H2, H3, H4, H5, H6, H7, H8, H9, H10, H11, H12, H13, He, Hc,
      Hv.
    repeat split; intros Hname; apply String.eqb_neq in Hname;
      rewrite Hname; eexists; apply client_flag_split.
Qed.

Lemma command_line_reaches_generation_witness :
  exists out st',
    CliCmd Demo.SupportedNetworks Demo.IsAddress Demo.ValidateLoggingFlag
      (Demo.collaborators true) 5
      (Demo.start (set_execution "geth:ethereum/client-go:v1.10" ""
                     (Demo.custom "goerli" "" "" ["all"] false true)))
    = Some (out, st')
    /\ exists new,
        st_trace st' = new ++ []
        /\ forall gd,
            In (CallGenerateScripts gd) new ->
            generate.Network gd = "goerli"
            /\ exists name,
                split_at_colon "geth:ethereum/client-go:v1.10" name
                  (clients.Image (generate.ExecutionClient gd)).
Proof.
  pose proof (@command_line_reaches_generation Demo.World unit
                Demo.SupportedNetworks Demo.IsAddress
                Demo.ValidateLoggingFlag (Demo.collaborators true) 5
                (Demo.start (set_execution "geth:ethereum/client-go:v1.10" ""
                     (Demo.custom "goerli" "" "" ["all"] false true))))
    as T.
  destruct (CliCmd Demo.SupportedNetworks Demo.IsAddress
              Demo.ValidateLoggingFlag (Demo.collaborators true) 5 _)
    as [[out st']|] eqn:E.
  - exists out, st'. split; [reflexivity|].
    destruct (T st' out eq_refl) as (new & Htr & Hgd).
    exists new. split; [exact Htr|]. intros gd Hin.
    destruct (Hgd gd Hin)
      as (Hnet & _ & _ & _ & _ & _ & _ & _ & _ & _ & _ & _ & _ & He & _).
    split; [exact Hnet|]. apply He. discriminate.
  - vm_compute in E. discriminate E.
Defined.

(** ** What the command logs *)

Lemma warnings_logs {W : Type} (st : St W) :
  exists wl,
    warnings st = Some (Ok tt, mkSt (st_flags st) (st_world st)
                                 (wl ++ st_trace st))
    /\ warned (st_flags st) wl.
Proof.
  exists ((if negb (checkpointSyncUrl (st_flags st) =? "")
           then [Log Warn (CheckpointUrlUsedWarning
                             (checkpointSyncUrl (st_flags st)))]
           else [])
          ++ (if mapAllPorts (st_flags st)
              then [Log Warn MapAllPortsWarning] else [])
          ++ (if negb (executionImage (st_flags st) =? "")
                 || negb (consensusImage (st_flags st) =? "")
                 || negb (validatorImage (st_flags st) =? "")
              then [Log Warn CustomImagesWarning] else [])).
  unfold warnings, bind, getFlags, when, log, record, moved, ret, warned.
  cbn [fst snd st_flags st_world st_trace].
  destruct st as [f w tr]. cbn [st_flags st_world st_trace].
  destruct (executionImage f =? "") eqn:He;
    destruct (consensusImage f =? "") eqn:Hc;
    destruct (validatorImage f =? "") eqn:Hv;
    destruct (mapAllPorts f);
    destruct (checkpointSyncUrl f =? "") eqn:Hu;
    cbn [negb orb st_flags st_world st_trace app];
    (split; [reflexivity|]);
    repeat match goal with
           | H : (_ =? "") = true |- _ => apply String.eqb_eq in H
           | H : (_ =? "") = false |- _ => apply String.eqb_neq in H
           end;
    (split; [|split; [|intros url]]); simpl; split;
    try tauto;
    intros H;
    repeat match goal with
           | H : _ \/ _ |- _ => destruct H
           | H : _ /\ _ |- _ => destruct H
           | H : False |- _ => destruct H
           | H : Log _ _ = Log _ _ |- _ => injection H as H
           end;
    subst; try discriminate; try tauto; try congruence; auto.
Qed.

(** X15: the warnings.  The warnings of [runCliCmd] come first and
    never fail: whatever the collaborators do, the command is what
    lines 189-336 do from the state where the warning on custom images
    is logged exactly when one of the three images is set, the warning on
    ports exactly under [--map-all], and the warning on the checkpoint
    sync URL exactly when one is given, with that URL; and a run that
    returns, with or without errors, has logged exactly these
    warnings. *)
Theorem warnings_are_logged_exactly
  (W OrderedClients : Type) (C : Collaborators W OrderedClients)
  (st : St W) :
  exists wl,
    warned (st_flags st) wl
    /\ warnings st
       = Some (Ok tt, mkSt (st_flags st) (st_world st) (wl ++ st_trace st))
    /\ forall fuel,
        runCliCmd C fuel st
        = afterWarnings C fuel
            (mkSt (st_flags st) (st_world st) (wl ++ st_trace st))
        /\ forall r st',
            runCliCmd C fuel st = Some (r, st') ->
            exists new,
              st_trace st' = new ++ st_trace st
              /\ warned (st_flags st) new.
Proof.
  destruct (warnings_logs st) as (wl & Ew & Hwl).
  exists wl. split; [exact Hwl|]. split; [exact Ew|]. intros fuel.
  assert (Hrun : runCliCmd C fuel st
                 = afterWarnings C fuel
                     (mkSt (st_flags st) (st_world st)
                        (wl ++ st_trace st))).
  { unfold runCliCmd, generationPhase, afterWarnings.
    unfold bind at 1 2. rewrite Ew. reflexivity. }
  split; [exact Hrun|]. intros r st' E.
  destruct (runCliCmd_each_call _ _ _ E) as (new & Htr & Hall).
  rewrite Forall_forall in Hall.
  assert (Hlate : exists later, new = later ++ wl).
  { rewrite Hrun in E. unfold afterWarnings in E. unfold bind at 1 in E.
    set (st1 := mkSt (st_flags st) (st_world st) (wl ++ st_trace st)) in *.
    assert (H1 : following (eq (st_flags st)) C (st_flags st)
                   (wl ++ st_trace st) st1).
    { split; [reflexivity|]. exists []. split; [reflexivity|constructor]. }
    pose proof (@afterWarnings_prepared _ _ C fuel (st_flags st)
                  (wl ++ st_trace st) st1 H1) as Hwp.
    unfold wp in Hwp.
    destruct ((cc <- resolveClients C ;;
               checkDependencies C fuel ;;
               jwtSecret C ;;
               askFeeRecipient C ;;
               generateScripts C cc) st1) as [[[g|es] st2]|];
      [| |discriminate E].
    - destruct Hwp as (n & Hn & _).
      destruct (afterGeneration_finished _ _ _ _ E)
        as (_ & n2 & Hn2 & _).
      exists (n2 ++ n).
      apply (app_inv_tail (st_trace st)).
      now rewrite <- Htr, Hn2, Hn, <- !app_assoc.
    - injection E as _ <-. destruct Hwp as (n & Hn & _).
      exists n.
      apply (app_inv_tail (st_trace st)).
      now rewrite <- Htr, Hn, <- !app_assoc. }
  destruct Hlate as (later & Hnew).
  assert (Hlog : forall msg,
             happy (Log Warn msg) = false -> msg <> ValidatorTips ->
             In (Log Warn msg) new -> prepares_log (st_flags st) msg).
  { intros msg Hmsg Htips Hin.
    destruct (Hall _ Hin) as [Hev | (f & cc & results & _ & _ & _ & Hev)];
      [exact Hev|].
    simpl in Hev. destruct Hev as [-> | [-> | ->]];
      try discriminate Hmsg. now contradiction Htips. }
  assert (Hlast : forall ev, In ev wl -> In ev new).
  { intros ev Hin. rewrite Hnew. apply in_or_app. now right. }
  destruct Hwl as (Hw1 & Hw2 & Hw3).
  exists new. split; [exact Htr|].
  split; [|split; [|intros url]]; split.
  - intros Hin. apply Hlog in Hin; [|reflexivity|discriminate].
    simpl in Hin.
    rewrite !Bool.orb_true_iff, !Bool.negb_true_iff, !String.eqb_neq in Hin.
    tauto.
  - intros Hc. apply Hlast. now apply Hw1.
  - intros Hin. apply Hlog in Hin; [exact Hin|reflexivity|discriminate].
  - intros Hc. apply Hlast. now apply Hw2.
  - intros Hin. apply Hlog in Hin; [|reflexivity|discriminate].
    destruct Hin as (Hc & ->).
    split; [reflexivity|].
    now rewrite Bool.negb_true_iff, String.eqb_neq in Hc.
  - intros Hc. apply Hlast. now apply Hw3.
Qed.

Lemma warnings_are_logged_exactly_witness :
  exists r st',
    runCliCmd (Demo.collaborators true) 5 (Demo.start flags_with_warnings)
    = Some (r, st')
    /\ In (Log Warn CustomImagesWarning) (st_trace st')
    /\ In (Log Warn MapAllPortsWarning) (st_trace st')
    /\ In (Log Warn (CheckpointUrlUsedWarning
                       "https://goerli.checkpoint-sync.ethpandaops.io"))
         (st_trace st').
Proof.
  destruct (@warnings_are_logged_exactly Demo.World unit
              (Demo.collaborators true) (Demo.start flags_with_warnings))
    as (wl & _ & _ & T).
  destruct (T 5) as (_ & T5).
  destruct (runCliCmd (Demo.collaborators true) 5
              (Demo.start flags_with_warnings)) as [[r st']|] eqn:E;
    [|vm_compute in E; discriminate E].
  exists r, st'. split; [reflexivity|].
  destruct (T5 r st' eq_refl) as (new & Htr & H1 & H2 & H3).
  cbn [st_trace Demo.start] in Htr. rewrite app_nil_r in Htr. rewrite Htr.
  split; [|split].
  - apply H1. left. discriminate.
  - apply H2. reflexivity.
  - apply H3. split; [reflexivity|discriminate].
Defined.

Lemma announces_from {W : Type} (st st' : St W) (r : Res unit)
  (evs : list Event) :
  st_trace st' = evs ++ st_trace st ->
  announced (st_flags st) r evs ->
  announces st r st'.
Proof. intros Htr H. now exists evs. Qed.

Ltac announces_leaf st :=
  lazymatch goal with
  | |- announces _ ?r ?st' =>
      let t := eval cbn [st_trace moved record assigned] in (st_trace st') in
      let p := trace_prefix t (st_trace st) in
      apply (@announces_from _ st st' r p);
      [ reflexivity
      | cbn [st_flags moved record assigned] in *;
        repeat match goal with
               | H : negb _ = false |- _ => apply Bool.negb_false_iff in H
               | H : Nat.eqb (List.length ?l) 0 = false |- _ =>
                   assert (l <> []) by (intros Hnil; rewrite Hnil in H;
                                        discriminate H);
                   clear H
               end;
        simpl;
        try (do 2 eexists; split; [reflexivity|]; split);
        repeat first [apply Forall_cons | apply Forall_nil];
        simpl; auto 10 ]
  end.

Lemma afterGeneration_announces {W OrderedClients : Type}
  (C : Collaborators W OrderedClients) (cc : clients.Clients)
  (results : generate.GenerationResults) (st st' : St W) (r : Res unit) :
  afterGeneration C cc results st = Some (r, st') ->
  announces st r st'.
Proof.
  intros E.
  assert (H : wp (afterGeneration C cc results)
                (fun r st' => announces st r st') st).
  { unfold afterGeneration, validatorStage, trackThenStartValidator,
      startValidator.
    repeat first [wp_step | wp_case]; announces_leaf st. }
  exact (wp_elim _ _ _ H E).
Qed.

Lemma prepares_not_happy {W OrderedClients : Type}
  (C : Collaborators W OrderedClients) (f0 : Flags) (ev : Event) :
  prepares C f0 ev -> happy ev = false.
Proof.
  destruct ev as [lvl []| | | | | | | | | | | | | | |]; simpl;
    intros H; try reflexivity; contradiction.
Qed.

(** X16: the wish of happy staking is the last word, and means
    success.  In every run of [runCliCmd], the wish is logged only when
    the command returns no error, once, and as the last thing the command
    does; and a run that returns no error ends with it when run-clients
    is empty or [--no-validator] is not given. *)
Theorem happy_staking_means_success
  (W OrderedClients : Type) (C : Collaborators W OrderedClients)
  (fuel : nat) (st st' : St W) (r : Res unit) :
  runCliCmd C fuel st = Some (r, st') ->
  exists new,
    st_trace st' = new ++ st_trace st
    /\ (forall later ev earlier,
           new = later ++ ev :: earlier -> happy ev = true ->
           r = Ok tt /\ later = [])
    /\ (r = Ok tt ->
        services (st_flags st) = [] \/ noValidator (st_flags st) = false ->
        exists ev earlier, new = ev :: earlier /\ happy ev = true).
Proof.
  unfold runCliCmd, bind.
  destruct (generationPhase C fuel st) as [[[g|es] st1]|] eqn:Eg;
    [| |discriminate].
  - intros Ea.
    destruct (generationPhase_prepared _ _ _ Eg)
      as (gen & Htr & Hall & Hset & _).
    destruct (afterGeneration_announces _ _ _ _ Ea)
      as (after & Htr' & Hann).
    destruct (settled_keeps Hset) as (_ & _ & _ & Hsvcs).
    pose proof (settled_noValidator Hset) as HnoVal.
    exists (after ++ gen). rewrite Htr', Htr, app_assoc.
    split; [reflexivity|].
    assert (Hgen : Forall (fun e => happy e = false) gen).
    { eapply Forall_impl; [|exact Hall].
      intros e He. exact (@prepares_not_happy _ _ _ _ _ He). }
    destruct r as [[]|es]; simpl in Hann.
    + destruct Hann as (ev0 & earlier0 & -> & Hearlier & Hlast).
      split.
      * intros later ev earlier Hsplit Hev. split; [reflexivity|].
        destruct later as [|x later]; [reflexivity|].
        simpl in Hsplit. injection Hsplit as _ Hsplit.
        assert (Hin : In ev (earlier0 ++ gen)).
        { rewrite Hsplit. apply in_or_app. right. now left. }
        assert (Hall' : Forall (fun e => happy e = false) (earlier0 ++ gen))
          by now apply Forall_app.
        rewrite Forall_forall in Hall'. rewrite (Hall' _ Hin) in Hev.
        discriminate Hev.
      * intros _ Hcase. exists ev0, (earlier0 ++ gen).
        split; [reflexivity|].
        destruct Hlast as [Hh | (_ & HnoV & Hne)]; [exact Hh|].
        rewrite Hsvcs in Hne. rewrite HnoVal in HnoV.
        destruct Hcase as [Hnil | Hval]; [contradiction|congruence].
    + split; [|discriminate].
      intros later ev earlier Hsplit Hev.
      assert (Hin : In ev (after ++ gen)).
      { rewrite Hsplit. apply in_or_app. right. now left. }
      assert (Hall' : Forall (fun e => happy e = false) (after ++ gen))
        by now apply Forall_app.
      rewrite Forall_forall in Hall'. rewrite (Hall' _ Hin) in Hev.
      discriminate Hev.
  - intros E. injection E as <- <-.
    destruct (generationPhase_prepared _ _ _ Eg) as (gen & Htr & Hall & _).
    exists gen. split; [exact Htr|]. split; [|discriminate].
    intros later ev earlier Hsplit Hev.
    rewrite Forall_forall in Hall.
    assert (Hin : In ev gen).
    { rewrite Hsplit. apply in_or_app. right. now left. }
    rewrite (@prepares_not_happy _ _ _ _ _ (Hall _ Hin)) in Hev.
    discriminate Hev.
Qed.

Lemma happy_staking_means_success_witness :
  exists r st',
    runCliCmd (Demo.collaborators true) 5
      (Demo.start (Demo.custom "mainnet" "" "" [execution; consensus]
                     false true))
    = Some (r, st')
    /\ exists new,
        st_trace st' = new ++ []
        /\ (forall later ev earlier,
               new = later ++ ev :: earlier -> happy ev = true ->
               r = Ok tt /\ later = [])
        /\ (r = Ok tt ->
            [execution; consensus] = [] \/ false = false ->
            exists ev earlier, new = ev :: earlier /\ happy ev = true).
Proof.
  pose proof (@happy_staking_means_success Demo.World unit
                (Demo.collaborators true) 5
                (Demo.start (Demo.custom "mainnet" "" ""
                               [execution; consensus] false true))) as T.
  destruct (runCliCmd (Demo.collaborators true) 5 _) as [[r st']|] eqn:E.
  - exists r, st'. split; [reflexivity|]. exact (T st' r eq_refl).
  - vm_compute in E. discriminate E.
Defined.

(** ** The errors returned *)

Lemma wp_after_stops {W OrderedClients A B : Type}
  (C : Collaborators W OrderedClients) (f0 : Flags) (tr0 : list Event)
  (Inv : St W -> Prop) (m : M W A) (k : A -> M W B) (st : St W) :
  wp m (fun _ st' => Inv st') st ->
  wp m (stops C f0 tr0) st ->
  (forall a st', Inv st' -> wp (k a) (stops C f0 tr0) st') ->
  wp (bind m k) (stops C f0 tr0) st.
Proof.
  unfold wp, bind. destruct (m st) as [[[a|es] st']|]; intros HI HE Hk.
  - exact (Hk a st' HI).
  - exact HE.
  - exact I.
Qed.

Lemma stopped_from {W OrderedClients : Type}
  (C : Collaborators W OrderedClients) (f0 : Flags) (tr0 new : list Event)
  (st st' : St W) (ev : Event) (evs : list Event) (es : list error) :
  st_trace st = new ++ tr0 ->
  st_trace st' = (ev :: evs) ++ st_trace st ->
  fails_with C ev es ->
  stopped C f0 tr0 es st'.
Proof.
  intros Htr Htr' Hev. left. exists ev, (evs ++ new).
  split; [|exact Hev]. rewrite Htr', Htr. simpl. now rewrite app_assoc.
Qed.

Ltac stops_leaf st Htr :=
  lazymatch goal with
  | |- stops _ _ _ (Ok _) _ => exact I
  | |- stops ?C ?f0 ?tr0 (Err ?es) ?st' =>
      let t := eval cbn [st_trace moved record assigned] in (st_trace st') in
      let p := trace_prefix t (st_trace st) in
      lazymatch p with
      | ?ev :: ?evs =>
          apply (@stopped_from _ _ C f0 tr0 _ st st' ev evs es Htr);
          [ reflexivity
          | cbn [st_flags st_world moved record assigned] in *;
            simpl; repeat eexists; eauto; try discriminate ]
      end
  end.

(** The computation goes on from a state that extends [st]. *)
Ltac stops_on lemma st new Htr :=
  lazymatch goal with
  | |- wp _ _ ?st' =>
      let t := eval cbn [st_trace moved record assigned] in (st_trace st') in
      let p := trace_prefix t (st_trace st) in
      apply (lemma (p ++ new));
      cbn [st_trace moved record assigned]; rewrite Htr; reflexivity
  end.

Ltac stops_block st Htr :=
  repeat first [ wp_step | wp_case ]; stops_leaf st Htr.

Section Stops.

Variables W OrderedClients : Type.
Variable C : Collaborators W OrderedClients.
Variable f0 : Flags.
Variable tr0 : list Event.

Lemma warnings_stops (new : list Event) (st : St W) :
  st_trace st = new ++ tr0 ->
  wp warnings (stops C f0 tr0) st.
Proof. intros Htr. unfold warnings. stops_block st Htr. Qed.

Lemma resolveClients_stops (new : list Event) (st : St W) :
  st_trace st = new ++ tr0 ->
  wp (resolveClients C) (stops C f0 tr0) st.
Proof. intros Htr. unfold resolveClients. stops_block st Htr. Qed.

Lemma installPending_stops (fuel : nat) :
  forall (new : list Event) (st : St W),
    st_trace st = new ++ tr0 ->
    wp (installPending C fuel (c_GetDependencies C)) (stops C f0 tr0) st.
Proof.
  induction fuel as [|fuel IH]; intros new st Htr; simpl.
  - apply wp_diverge.
  - do 2 wp_step. wp_case as Hpending; [wp_step; exact I|].
    do 4 wp_step. apply wp_bind. wp_case as Hinstall.
    + do 3 wp_step.
      * cbv beta iota. stops_leaf st Htr.
      * cbv beta iota. stops_on IH st new Htr.
    + do 3 wp_step.
      * cbv beta iota. stops_leaf st Htr.
      * cbv beta iota. stops_on IH st new Htr.
Qed.

Lemma checkDependencies_stops (fuel : nat) (new : list Event) (st : St W) :
  st_trace st = new ++ tr0 ->
  wp (checkDependencies C fuel) (stops C f0 tr0) st.
Proof.
  intros Htr. unfold checkDependencies. do 2 wp_step. apply wp_bind.
  eapply wp_mono.
  - stops_on (@installPending_stops fuel) st new Htr.
  - intros [a|es] st' H; [|exact H]. wp_step. exact I.
Qed.

Lemma jwtSecret_stops (new : list Event) (st : St W) :
  st_trace st = new ++ tr0 ->
  st_flags st = f0 ->
  wp (jwtSecret C) (stops C f0 tr0) st.
Proof.
  intros Htr Hf. unfold jwtSecret. do 2 wp_step. rewrite Hf.
  wp_case; [stops_block st Htr|].
  wp_case as Habs; [|wp_step; exact I].
  do 3 wp_step; [|exact I].
  right. exists e. repeat split; assumption.
Qed.

Lemma askFeeRecipient_stops (new : list Event) (st : St W) :
  st_trace st = new ++ tr0 ->
  wp (askFeeRecipient C) (stops C f0 tr0) st.
Proof. intros Htr. unfold askFeeRecipient. stops_block st Htr. Qed.

Lemma generateScripts_stops (cc : clients.Clients) (new : list Event)
  (st : St W) :
  st_trace st = new ++ tr0 ->
  wp (generateScripts C cc) (stops C f0 tr0) st.
Proof.
  intros Htr. unfold generateScripts. do 2 wp_step. cbv zeta.
  stops_block st Htr.
Qed.

Lemma afterGeneration_stops (cc : clients.Clients)
  (results : generate.GenerationResults) (new : list Event) (st : St W) :
  st_trace st = new ++ tr0 ->
  wp (afterGeneration C cc results) (stops C f0 tr0) st.
Proof.
  intros Htr.
  unfold afterGeneration, validatorStage, trackThenStartValidator,
    startValidator.
  stops_block st Htr.
Qed.

End Stops.

Lemma generationPhase_stops {W OrderedClients : Type}
  (C : Collaborators W OrderedClients) (fuel : nat) (st st' : St W)
  (r : Res (clients.Clients * generate.GenerationResults)) :
  generationPhase C fuel st = Some (r, st') ->
  stops C (st_flags st) (st_trace st) r st'.
Proof.
  intros E.
  set (f0 := st_flags st). set (tr0 := st_trace st).
  assert (H0 : following (eq f0) C f0 tr0 st).
  { split; [reflexivity|]. exists []. split; [reflexivity|constructor]. }
  assert (Htrace : forall (R : Flags -> Prop) st1,
             following R C f0 tr0 st1 ->
             exists new, st_trace st1 = new ++ tr0).
  { intros R st1 (_ & new & Htr & _). now exists new. }
  assert (H : wp (generationPhase C fuel) (stops C f0 tr0) st).
  { unfold generationPhase.
    apply (@wp_after_stops _ _ _ _ C f0 tr0 (following (eq f0) C f0 tr0));
      [exact (@warnings_prepares _ _ C f0 tr0 st H0)
      | exact (@warnings_stops _ _ C f0 tr0 [] st eq_refl)
      | intros _ st1 H1].
    destruct (Htrace _ _ H1) as (n1 & Htr1).
    apply (@wp_after_stops _ _ _ _ C f0 tr0 (following (eq f0) C f0 tr0));
      [now apply resolveClients_prepares
      | exact (@resolveClients_stops _ _ C f0 tr0 n1 st1 Htr1)
      | intros cc st2 H2].
    destruct (Htrace _ _ H2) as (n2 & Htr2).
    apply (@wp_after_stops _ _ _ _ C f0 tr0 (following (eq f0) C f0 tr0));
      [now apply checkDependencies_prepares
      | exact (@checkDependencies_stops _ _ C f0 tr0 fuel n2 st2 Htr2)
      | intros _ st3 H3].
    destruct (Htrace _ _ H3) as (n3 & Htr3).
    eapply wp_after_stops;
      [apply jwtSecret_prepares; exact H3
      | exact (@jwtSecret_stops _ _ C f0 tr0 n3 st3 Htr3
                 (eq_sym (proj1 H3)))
      | intros _ st4 H4].
    destruct (Htrace _ _ H4) as (n4 & Htr4).
    eapply wp_after_stops;
      [apply askFeeRecipient_prepares; exact H4
      | exact (@askFeeRecipient_stops _ _ C f0 tr0 n4 st4 Htr4)
      | intros _ st5 H5].
    destruct (Htrace _ _ H5) as (n5 & Htr5).
    exact (@generateScripts_stops _ _ C f0 tr0 cc n5 st5 Htr5). }
  exact (wp_elim _ _ _ H E).
Qed.

(** X17: the errors returned are those of the last call.  When
    [runCliCmd] returns errors, there is at least one; they are what the
    last function called in this run returned ([Clients] with its list
    of errors, any other with its one error), so that nothing is called
    after a failure; or they are the one error [filepath.Abs] returned
    for the absolute JWT path given.  Logging, the check of the
    dependencies and the printing of a file end no run. *)
Theorem errors_come_from_the_last_call
  (W OrderedClients : Type) (C : Collaborators W OrderedClients)
  (fuel : nat) (st st' : St W) (es : list error) :
  runCliCmd C fuel st = Some (Err es, st') ->
  es <> []
  /\ ((exists ev new,
          st_trace st' = ev :: new ++ st_trace st /\ fails_with C ev es)
      \/ (exists e,
             es = [e] /\ filepath.IsAbs (jwtPath (st_flags st)) = true
             /\ snd (c_filepath_Abs C (jwtPath (st_flags st))) = Some e)).
Proof.
  intros E.
  assert (H : stopped C (st_flags st) (st_trace st) es st').
  { revert E. unfold runCliCmd, bind.
    destruct (generationPhase C fuel st) as [[[g|es'] st1]|] eqn:Eg;
      [| |discriminate].
    - intros Ea.
      destruct (generationPhase_prepared _ _ _ Eg) as (gen & Htr & _).
      exact (wp_elim _ _ _
               (@afterGeneration_stops _ _ C (st_flags st) (st_trace st)
                  (fst g) (snd g) gen st1 Htr) Ea).
    - intros Ee. injection Ee as <- <-.
      exact (generationPhase_stops _ _ _ Eg). }
  split; [|exact H].
  destruct H as [(ev & new & _ & Hev) | (e & -> & _)]; [|discriminate].
  destruct ev; simpl in Hev;
    repeat match goal with
           | H : exists _, _ |- _ => destruct H
           | H : _ /\ _ |- _ => destruct H
           end;
    subst; try discriminate; try assumption; contradiction.
Qed.

Lemma errors_come_from_the_last_call_witness :
  exists es st',
    runCliCmd (Demo.collaborators false) 5
      (Demo.start (Demo.custom "mainnet" "" "" [execution; consensus]
                     false true))
    = Some (Err es, st')
    /\ es <> []
    /\ ((exists ev new,
            st_trace st' = ev :: new ++ []
            /\ fails_with (Demo.collaborators false) ev es)
        \/ (exists e,
               es = [e] /\ filepath.IsAbs "" = true
               /\ snd (c_filepath_Abs (Demo.collaborators false) "")
                  = Some e)).
Proof.
  pose proof (@errors_come_from_the_last_call Demo.World unit
                (Demo.collaborators false) 5
                (Demo.start (Demo.custom "mainnet" "" ""
                               [execution; consensus] false true))) as T.
  destruct (runCliCmd (Demo.collaborators false) 5 _)
    as [[[[]|es] st']|] eqn:E.
  - vm_compute in E. discriminate E.
  - exists es, st'. split; [reflexivity|]. exact (T st' es eq_refl).
  - vm_compute in E. discriminate E.
Defined.
